(** * E-commerce data-source connectors: report polling, materialisation
      and historical-file rotation

    A shallow embedding of the request / poll / fetch state machine of the
    connectors (Amazon Ads, Amazon Marketing Cloud, Instacart, Amazon Vendor
    Central) and of the S3 housekeeping they share.

    Conventions of the embedding:
    - a Python method that talks to the network, the local disk or S3 is a
      computation in a state-and-exception monad over an explicit [world];
      an exception leaves the side effects made so far in place, as in Python;
    - [logging] calls write nothing the program reads back and are left out;
    - third-party library functions (gzip, json, pandas, pyarrow, urlparse)
      are parameters of the functions that call them, and so is [str.format]
      on a template that is more than text and plain fields. *)

From Stdlib Require Import ZArith Lia Ascii String.
From stdpp Require Import base strings list gmap sorting pretty.
From Equations Require Import Equations.

Set Warnings "-register-all".
Open Scope string_scope.
Open Scope list_scope.

(** ** Python strings *)

Module Py.

(** [s.startswith(p)] *)
Definition startswith (s p : string) : bool := String.prefix p s.

(** [s.endswith(p)] *)
Definition endswith (s p : string) : bool :=
  String.prefix (String.rev p) (String.rev s).

(** [s.split(sep)] for a one-character separator: never empty. *)
Fixpoint split (sep : ascii) (s : string) : list string :=
  match s with
  | "" => [""]
  | String c s' =>
      if Ascii.eqb c sep then "" :: split sep s'
      else match split sep s' with
           | w :: ws => String c w :: ws
           | [] => [String c ""]
           end
  end.

(** [sep.join(l)] *)
Definition join (sep : string) (l : list string) : string := String.concat sep l.

(** [l[0]] and [l[-1]] on the result of a [split]. *)
Definition first (l : list string) : string := hd "" l.
Definition final (l : list string) : string := List.last l "".

(** [l[:-1]] *)
Definition but_last (l : list string) : list string := removelast l.

Definition lower_ascii (c : ascii) : ascii :=
  let n := Ascii.nat_of_ascii c in
  if (65 <=? n)%nat && (n <=? 90)%nat then Ascii.ascii_of_nat (n + 32) else c.

(** [s.lower()] on the ASCII letters. *)
Fixpoint lower (s : string) : string :=
  match s with
  | "" => ""
  | String c s' => String (lower_ascii c) (lower s')
  end.

(** [s.replace(old, new)] for a non-empty [old]: every occurrence, left to
    right, without overlap.  [skip] counts the characters of a matched
    occurrence still to be dropped. *)
Fixpoint replace_go (old new : string) (skip : nat) (s : string) : string :=
  match s with
  | "" => ""
  | String c s' =>
      match skip with
      | S k => replace_go old new k s'
      | O => if String.prefix old s
             then new +:+ replace_go old new (String.length old - 1) s'
             else String c (replace_go old new 0 s')
      end
  end.
Definition replace (s old new : string) : string := replace_go old new 0 s.

(** The exceptions the connectors raise or let through. *)
Inductive exn : Type :=
| RequestException (what : string)
| TimeoutError (msg : string)
| TypeError (msg : string)
| ValueError (msg : string)
| AttributeError (msg : string)
| KeyError (key : string)
| IndexError (msg : string)
| OSError (msg : string)
| ClientError (msg : string)
| Exception (msg : string).

Inductive outcome (A : Type) : Type :=
| Return (a : A)
| Raise (e : exn).
Arguments Return {A} a.
Arguments Raise {A} e.

(** A computation over a state [W]: it yields a value or raises, and in
    both cases hands back the state it reached. *)
Definition M (W A : Type) : Type := W -> outcome A * W.

Definition ret {W A} (a : A) : M W A := fun w => (Return a, w).
Definition raise {W A} (e : exn) : M W A := fun w => (Raise e, w).
Definition bind {W A B} (c : M W A) (k : A -> M W B) : M W B :=
  fun w => match c w with
           | (Return a, w') => k a w'
           | (Raise e, w') => (Raise e, w')
           end.
Definition get {W} : M W W := fun w => (Return w, w).
Definition modify {W} (f : W -> W) : M W unit := fun w => (Return tt, f w).

(** [for x in l: body(x)] *)
Fixpoint for_each {W A} (l : list A) (body : A -> M W unit) : M W unit :=
  match l with
  | [] => ret tt
  | x :: l' => bind (body x) (fun _ => for_each l' body)
  end.

(** [template.format(k1=v1, ...)] with string values, on a template made of
    text, the escapes [{{] and [}}], and fields [{name}] whose name is one
    of the keywords: the field is replaced by the keyword's value, and what
    was put in is not read again.  [field] holds the characters read of the
    field that is open.  [None] for every other template. *)
Fixpoint format_fields (kwargs : list (string * string)) (field : option string)
    (template : string) : option string :=
  match template with
  | "" => match field with None => Some "" | Some _ => None end
  | String c rest =>
      match field with
      | Some name =>
          if Ascii.eqb c "}" then
            match list_find (fun kv => String.eqb (fst kv) name = true) kwargs with
            | Some (_, (_, value)) =>
                option_map (String.append value) (format_fields kwargs None rest)
            | None => None
            end
          else format_fields kwargs (Some (name +:+ String c "")) rest
      | None =>
          if Ascii.eqb c "{" then
            match rest with
            | String c' rest' =>
                if Ascii.eqb c' "{"
                then option_map (String "{") (format_fields kwargs None rest')
                else format_fields kwargs (Some "") rest
            | "" => None
            end
          else if Ascii.eqb c "}" then
            match rest with
            | String c' rest' =>
                if Ascii.eqb c' "}"
                then option_map (String "}") (format_fields kwargs None rest')
                else None
            | "" => None
            end
          else option_map (String c) (format_fields kwargs None rest)
      end
  end.

(** What [str.format] does with a template and its keywords: a string, or
    an exception. *)
Definition formatter : Type := string -> list (string * string) -> outcome string.

(** [template.format(k1=v1, ...)].  On a template [format_fields] does not
    cover (a brace on its own, a field that is empty, numbered or not a
    keyword, a conversion, a format specification, an attribute or an index)
    the answer is the library's, [beyond]: [KeyError], [IndexError],
    [ValueError] or a string. *)
Definition str_format (beyond : formatter) (template : string)
    (kwargs : list (string * string)) : outcome string :=
  match format_fields kwargs None template with
  | Some s => Return s
  | None => beyond template kwargs
  end.

(** [c in s] for a character [c]. *)
Fixpoint has_char (c : ascii) (s : string) : bool :=
  match s with
  | "" => false
  | String x s' => Ascii.eqb x c || has_char c s'
  end.

(** [max(l)] on strings, for a list whose first element is [x]: the first
    of the greatest. *)
Definition max_from (x : string) (l : list string) : string :=
  foldl (fun m k => if String.ltb m k then k else m) x l.

Definition is_return {A} (o : outcome A) : bool :=
  match o with Return _ => true | Raise _ => false end.

End Py.

Import Py.

Declare Scope py_scope.
Delimit Scope py_scope with py.
Notation "'let!' x ':=' c 'in' k" := (bind c (fun x => k))
  (at level 10, x name, c at level 100, k at level 200) : py_scope.
Notation "c '>>' k" := (bind c (fun _ => k))
  (at level 65, right associativity) : py_scope.
Open Scope py_scope.

(** ** JSON values, as [response.json()] returns them *)

Module Json.

Inductive json : Type :=
| JNull
| JBool (b : bool)
| JNum (n : Z)
| JStr (s : string)
| JList (l : list json)
| JDict (d : list (string * json)).

Fixpoint assoc (k : string) (d : list (string * json)) : option json :=
  match d with
  | [] => None
  | (k', v) :: d' => if String.eqb k k' then Some v else assoc k d'
  end.

(** [j.get(k, default)]: an [AttributeError] on anything but a dict. *)
Definition dict_get {W} (j : json) (k : string) (default : json) : M W json :=
  match j with
  | JDict d => ret (match assoc k d with Some v => v | None => default end)
  | _ => raise (AttributeError "object has no attribute 'get'")
  end.

(** [str(j)], as an f-string renders a decoded JSON value.  Inside a list
    or dict Python shows the [repr] of a string; [repr_str] is exact for
    strings without quotes, backslashes or control characters. *)
Definition repr_str (s : string) : string := "'" +:+ s +:+ "'".

Fixpoint repr (j : json) : string :=
  match j with
  | JNull => "None"
  | JBool true => "True"
  | JBool false => "False"
  | JNum n => pretty n
  | JStr s => repr_str s
  | JList l => "[" +:+ join ", " (map repr l) +:+ "]"
  | JDict d =>
      "{" +:+ join ", " (map (fun kv => repr_str (fst kv) +:+ ": " +:+ repr (snd kv)) d) +:+ "}"
  end.

Definition str (j : json) : string :=
  match j with
  | JStr s => s
  | _ => repr j
  end.

(** [bool(j)]: Python truthiness. *)
Definition truthy (j : json) : bool :=
  match j with
  | JNull => false
  | JBool b => b
  | JNum n => negb (n =? 0)%Z
  | JStr s => negb (String.eqb s "")
  | JList l => match l with [] => false | _ => true end
  | JDict d => match d with [] => false | _ => true end
  end.

(** [j[k]] on a decoded object. *)
Definition subscript {W} (j : json) (k : string) : M W json :=
  match j with
  | JDict d =>
      match assoc k d with
      | Some v => ret v
      | None => raise (KeyError k)
      end
  | _ => raise (TypeError "indices must be integers")
  end.

(** [d[k] = v] on a dict: an existing key keeps its place. *)
Fixpoint dict_set (k : string) (v : json) (d : list (string * json))
    : list (string * json) :=
  match d with
  | [] => [(k, v)]
  | (k', v') :: d' =>
      if String.eqb k k' then (k, v) :: d' else (k', v') :: dict_set k v d'
  end.

(** [j == 'literal'] *)
Definition eq_str (j : json) (lit : string) : bool :=
  match j with
  | JStr s => String.eqb s lit
  | _ => false
  end.

End Json.

Import Json.

(** ** The outside world: vendor endpoints, the clock, local disk and S3 *)

Module Http.

Inductive verb : Type := GET | POST.

(** A request as the vendor sees it.  Headers carry only credentials and
    are not modelled. *)
Record request : Type := Request {
  verb_of : verb;
  url_of : string;
  body_of : json
}.

(** What [requests.get] / [requests.post] hand back: no connection at all,
    or a status code with a body that is JSON or is not ([None]). *)
Inductive http_response : Type :=
| Unreachable
| Response (status_code : nat) (body : string) (parsed : option json).

Record world : Type := World {
  (** the vendors: the answer to the newest request of a history
      (newest first) *)
  respond : list request -> http_response;
  (** every request sent so far, newest first *)
  sent : list request;
  (** every [time.sleep] so far in seconds, newest first *)
  slept : list nat;
  (** local files: path -> bytes *)
  disk : gmap string string;
  (** S3 objects: (bucket, key) -> bytes *)
  s3 : gmap (string * string) string;
  (** uploads S3 refuses *)
  s3_refuses : string -> string -> bool;
  (** how many temporary files [tempfile] has named so far *)
  tmp_count : nat;
  (** the day [datetime.now()] falls on *)
  today : Z
}.

Definition record_request (r : request) (w : world) : world :=
  World (respond w) (r :: sent w) (slept w) (disk w) (s3 w) (s3_refuses w) (tmp_count w) (today w).
Definition record_sleep (n : nat) (w : world) : world :=
  World (respond w) (sent w) (n :: slept w) (disk w) (s3 w) (s3_refuses w) (tmp_count w) (today w).
Definition set_disk (d : gmap string string) (w : world) : world :=
  World (respond w) (sent w) (slept w) d (s3 w) (s3_refuses w) (tmp_count w) (today w).
Definition set_s3 (o : gmap (string * string) string) (w : world) : world :=
  World (respond w) (sent w) (slept w) (disk w) o (s3_refuses w) (tmp_count w) (today w).
Definition bump_tmp (w : world) : world :=
  World (respond w) (sent w) (slept w) (disk w) (s3 w) (s3_refuses w) (S (tmp_count w)) (today w).

(** [requests.request(method, url, ...)]: the request goes out, and either
    the connection fails ([RequestException]) or a response comes back. *)
Definition send (r : request) : M world (nat * string * option json) :=
  fun w =>
    let w' := record_request r w in
    match respond w (sent w') with
    | Unreachable => (Raise (RequestException "ConnectionError"), w')
    | Response code body parsed => (Return (code, body, parsed), w')
    end.

(** [response.raise_for_status()] *)
Definition raise_for_status (resp : nat * string * option json) : M world unit :=
  let code := fst (fst resp) in
  if (400 <=? code)%nat && (code <? 600)%nat
  then raise (RequestException "HTTPError") else ret tt.

(** [response.json()] *)
Definition json_of (resp : nat * string * option json) : M world json :=
  match snd resp with
  | Some j => ret j
  | None => raise (RequestException "JSONDecodeError")
  end.

(** [time.sleep(n)] *)
Definition sleep (n : nat) : M world unit := modify (record_sleep n).

(** [k] polls of [url], and nothing else, were sent between [before] and
    [after]. *)
Definition polled (k : nat) (url : string) (before after : list request) : Prop :=
  after = replicate k (Request GET url JNull) ++ before.

(** The world after three polls [g] with a pause of [n] seconds after each
    of the first two. *)
Definition three_polls (g : request) (n : nat) (w : world) : world :=
  record_request g (record_sleep n (record_request g (record_sleep n (record_request g w)))).

(** The status polls: GET requests to [url] among [l]. *)
Definition is_get_of (url : string) (r : request) : bool :=
  match verb_of r with GET => String.eqb (url_of r) url | POST => false end.
Definition is_post (r : request) : bool :=
  match verb_of r with POST => true | GET => false end.
Definition polls_of (url : string) (l : list request) : nat :=
  length (filter (fun r => is_get_of url r = true) l).

End Http.

Import Http.

(** ** The bounded retry loop the three pollers share

    [[
    retries = 0
    while retries < max_retries:
        <body>                 # may return, may raise
        retries += 1
        <pause>
    ]]
    [body] yields [Some v] when the Python body returns [v] from the
    enclosing function and [None] when it falls through to [retries += 1].
    The whole loop yields [None] when its condition turns false. *)

Equations? while_retries {W A : Type} (max_retries retries : nat)
    (body : nat -> M W (option A)) (pause : M W unit) (w : W)
    : outcome (option A) * W by wf (max_retries - retries) lt :=
  while_retries max_retries retries body pause w with decide (retries < max_retries) := {
    | right _ => (Return None, w)
    | left _ with body retries w := {
        | (Raise e, w1) => (Raise e, w1)
        | (Return (Some v), w1) => (Return (Some v), w1)
        | (Return None, w1) with pause w1 := {
            | (Raise e, w2) => (Raise e, w2)
            | (Return _, w2) => while_retries max_retries (S retries) body pause w2 } } }.
Proof. all: lia. Qed.

(** ** Calendar dates

    A [datetime] at midnight (and a [date]) is the count of days since
    1970-01-01 in the proleptic Gregorian calendar, so that
    [d + timedelta(days=1)] is [d + 1] and [<] is the order of [Z]. *)

Module Date.

Definition days_from_civil (y m d : Z) : Z :=
  let y' := (if m <=? 2 then y - 1 else y)%Z in
  let era := (y' / 400)%Z in
  let yoe := (y' - era * 400)%Z in
  let mp := (if 2 <? m then m - 3 else m + 9)%Z in
  let doy := ((153 * mp + 2) / 5 + d - 1)%Z in
  let doe := (yoe * 365 + yoe / 4 - yoe / 100 + doy)%Z in
  (era * 146097 + doe - 719468)%Z.

Definition civil_from_days (z : Z) : Z * Z * Z :=
  let z' := (z + 719468)%Z in
  let era := (z' / 146097)%Z in
  let doe := (z' - era * 146097)%Z in
  let yoe := ((doe - doe / 1460 + doe / 36524 - doe / 146096) / 365)%Z in
  let doy := (doe - (365 * yoe + yoe / 4 - yoe / 100))%Z in
  let mp := ((5 * doy + 2) / 153)%Z in
  let d := (doy - (153 * mp + 2) / 5 + 1)%Z in
  let m := (if mp <? 10 then mp + 3 else mp - 9)%Z in
  let y := (yoe + era * 400)%Z in
  ((if m <=? 2 then y + 1 else y)%Z, m, d).

Definition year (z : Z) : Z := fst (fst (civil_from_days z)).
Definition month (z : Z) : Z := snd (fst (civil_from_days z)).
Definition day (z : Z) : Z := snd (civil_from_days z).

Fixpoint digits_go (acc : Z) (s : string) : option Z :=
  match s with
  | "" => Some acc
  | String c s' =>
      match Ascii.is_nat c with
      | Some n => digits_go (10 * acc + Z.of_nat n)%Z s'
      | None => None
      end
  end.

(** A non-empty run of decimal digits. *)
Definition digits (s : string) : option Z :=
  match s with
  | "" => None
  | _ => digits_go 0 s
  end.

(** [n] in decimal, left-padded with zeros to [width] characters. *)
Definition zero_pad (width : nat) (n : Z) : string :=
  let s := pretty n in
  String.string_of_list_ascii (replicate (width - String.length s) "0"%char) +:+ s.

(** [d.strftime("%Y")], [("%m")], [("%d")] for the years 1000 to 9999. *)
Definition strftime_Y (z : Z) : string := zero_pad 4 (year z).
Definition strftime_m (z : Z) : string := zero_pad 2 (month z).
Definition strftime_d (z : Z) : string := zero_pad 2 (day z).

(** [d.strftime('%Y-%m-%d')] *)
Definition strftime (z : Z) : string :=
  strftime_Y z +:+ "-" +:+ strftime_m z +:+ "-" +:+ strftime_d z.

(** [datetime.strptime(s, "%Y-%m-%d")]: four digits of year, one or two
    of month and of day, naming a real day of the years 1 to 9999. *)
Definition strptime (s : string) : outcome Z :=
  let bad := Raise (ValueError "time data does not match format '%Y-%m-%d'") in
  match split "-" s with
  | [ys; ms; ds] =>
      match digits ys, digits ms, digits ds with
      | Some y, Some m, Some d =>
          let z := days_from_civil y m d in
          if (String.length ys =? 4)%nat
             && (String.length ms <=? 2)%nat && (String.length ds <=? 2)%nat
             && (1 <=? y)%Z && (1 <=? m)%Z && (m <=? 12)%Z && (1 <=? d)%Z
             && (year z =? y)%Z && (month z =? m)%Z && (day z =? d)%Z
          then Return z else bad
      | _, _, _ => bad
      end
  | _ => bad
  end.

End Date.

(** ** The fetch / transform / upload pipeline ([utils/report_processor.py]) *)

Module ReportProcessor.

(** The library calls of the pipeline.  [None] stands for the call
    raising. *)
Record libs : Type := Libs {
  (** [urlparse(url).path] *)
  urlparse_path : string -> string;
  (** [gzip.open(...).read()] of the given compressed bytes *)
  gunzip : string -> option string;
  (** [json.load] of the given text *)
  json_load : string -> option json;
  (** [pd.json_normalize(j).to_csv(index=False)] *)
  json_normalize_to_csv : json -> option string;
  (** [orc.read_table(buf).to_pandas().to_csv(index=False)] *)
  orc_to_csv : string -> option string;
  (** the name [tempfile] gives its n-th file, without the suffix *)
  tmp_name : nat -> string;
  (** [str.format] on a template that is more than text and plain fields *)
  format_beyond : formatter
}.

Definition read_file (path : string) : M world string :=
  let! w := get in
  match disk w !! path with
  | Some content => ret content
  | None => raise (OSError "FileNotFoundError")
  end.

Definition write_file (path content : string) : M world unit :=
  modify (fun w => set_disk (<[path := content]> (disk w)) w).

(** [tempfile.NamedTemporaryFile(delete=False, suffix=suffix)]: a new
    empty file; its name is returned. *)
Definition NamedTemporaryFile (L : libs) (suffix : string) : M world string :=
  let! w := get in
  let name := tmp_name L (tmp_count w) +:+ suffix in
  modify bump_tmp >>
  write_file name "" >>
  ret name.

Definition decompress_file (L : libs) (file_path : string) : M world string :=
  let decompressed_path := replace file_path ".gz" "" in
  let! _ := read_file file_path in
  write_file decompressed_path "" >>
  let! compressed := read_file file_path in
  match gunzip L compressed with
  | None => raise (OSError "BadGzipFile")
  | Some plain => write_file decompressed_path plain >> ret decompressed_path
  end.

Definition load_json (L : libs) (file_path : string) : M world json :=
  let! text := read_file file_path in
  match json_load L text with
  | Some j => ret j
  | None => raise (ValueError "JSONDecodeError")
  end.

Definition convert_json_to_csv (L : libs) (json_data : json) : M world string :=
  let csv_filename := "/tmp/report.csv" in
  match json_normalize_to_csv L json_data with
  | None => raise (Exception "json_normalize")
  | Some csv => write_file csv_filename csv >> ret csv_filename
  end.

Definition convert_orc_to_csv (L : libs) (file_path : string) : M world string :=
  let! buf := read_file file_path in
  match orc_to_csv L buf with
  | None => raise (Exception "orc.read_table")
  | Some csv =>
      let csv_filename := replace file_path ".orc" ".csv" in
      write_file csv_filename csv >> ret csv_filename
  end.

(** [template.format(report_type=..., country_code=..., year=...,
    month=..., day=...)] *)
Definition format_template (beyond : formatter)
    (template report_type country_code year month day : string) : outcome string :=
  str_format beyond template
    [("report_type", report_type); ("country_code", country_code); ("year", year);
     ("month", month); ("day", day)].

Definition upload_to_destination (beyond : formatter) (file_path report_type
    destination_bucket_name destination_path_template country_code : string) (date : Z)
    : M world unit :=
  let year := Date.strftime_Y date in
  let month := Date.strftime_m date in
  let day := Date.strftime_d date in
  let bucket_name := destination_bucket_name in
  match format_template beyond destination_path_template report_type country_code
          year month day with
  | Raise e => raise e
  | Return s3_key =>
      let! content := read_file file_path in
      let! w := get in
      if s3_refuses w bucket_name s3_key
      then raise (ClientError "S3UploadFailedError")
      else modify (fun w => set_s3 (<[(bucket_name, s3_key) := content]> (s3 w)) w)
  end.

(** [os.path.exists(p)] then [os.remove(p)], for each path in turn. *)
Definition cleanup_files (file_paths : list string) : M world unit :=
  for_each file_paths (fun file_path =>
    let! w := get in
    if decide (is_Some (disk w !! file_path))
    then modify (fun w => set_disk (delete file_path (disk w)) w)
    else ret tt).

Inductive extension : Type := Orc | Gz | Csv.

Definition suffix_of (e : extension) : string :=
  match e with Orc => ".orc" | Gz => ".gz" | Csv => ".csv" end.

(** Step 1 of [fetch_report_data]: the extension read off the URL path. *)
Definition file_extension_of (L : libs) (report_url : string) : option extension :=
  let path := lower (urlparse_path L report_url) in
  if endswith path ".orc" then Some Orc
  else if endswith path ".gz" then Some Gz
  else if endswith path ".csv" then Some Csv
  else None.

Definition fetch_report_data (L : libs) (report_url report_type s3_bucket_name
    destination_path_template country_code : string) (date : Z) : M world unit :=
  match file_extension_of L report_url with
  | None => raise (ValueError "Could not determine file extension from URL")
  | Some file_extension =>
      let! response := send (Request GET report_url JNull) in
      raise_for_status response >>
      let! local_filename_with_extension :=
        NamedTemporaryFile L (suffix_of file_extension) in
      write_file local_filename_with_extension (snd (fst response)) >>
      match file_extension with
      | Gz =>
          let! decompressed_filename := decompress_file L local_filename_with_extension in
          let! report_data := load_json L decompressed_filename in
          let! csv_filename := convert_json_to_csv L report_data in
          upload_to_destination (format_beyond L) csv_filename report_type s3_bucket_name
            destination_path_template country_code date >>
          cleanup_files [local_filename_with_extension; decompressed_filename; csv_filename]
      | Orc =>
          let! csv_filename := convert_orc_to_csv L local_filename_with_extension in
          upload_to_destination (format_beyond L) csv_filename report_type s3_bucket_name
            destination_path_template country_code date >>
          cleanup_files [local_filename_with_extension; csv_filename]
      | Csv =>
          let csv_filename := local_filename_with_extension in
          upload_to_destination (format_beyond L) csv_filename report_type s3_bucket_name
            destination_path_template country_code date >>
          cleanup_files [local_filename_with_extension; csv_filename]
      end
  end.

(** [s3_manual_upload]: [csv] is what [df.to_csv] writes to the buffer,
    [None] when it raises.  The [except] clause logs and does not raise
    again. *)
Definition s3_manual_upload (beyond : formatter)
    (destination_bucket destination_path : string) (csv : option string) (max_date : Z)
    (report_type country_code : string) : M world unit :=
  fun w =>
    let attempt : M world unit :=
      let year := Date.strftime_Y max_date in
      let month := Date.strftime_m max_date in
      let day := Date.strftime_d max_date in
      match format_template beyond destination_path report_type country_code
              year month day with
      | Raise e => raise e
      | Return s3_key =>
          match csv with
          | None => raise (Exception "to_csv")
          | Some body =>
              let! w := get in
              if s3_refuses w destination_bucket s3_key
              then raise (ClientError "PutObject")
              else modify (fun w =>
                             set_s3 (<[(destination_bucket, s3_key) := body]> (s3 w)) w)
          end
      end in
    match attempt w with
    | (Return u, w') => (Return u, w')
    | (Raise _, w') => (Return tt, w')
    end.

(** The local paths an invocation writes for a URL of extension [e],
    started in the world [w]: the downloaded file, then for [.gz] the
    decompressed file and the CSV written from it, for [.orc] the CSV
    written from it. *)
Definition temporary_paths (L : libs) (e : extension) (w : world) : list string :=
  let local_filename_with_extension := tmp_name L (tmp_count w) +:+ suffix_of e in
  match e with
  | Gz => [local_filename_with_extension;
           replace local_filename_with_extension ".gz" ""; "/tmp/report.csv"]
  | Orc => [local_filename_with_extension;
            replace local_filename_with_extension ".orc" ".csv"]
  | Csv => [local_filename_with_extension]
  end.

(** The temporary files an invocation has created by the time it ends:
    the paths on disk afterwards that were not there before. *)
Definition left_behind (before after : world) : gset string :=
  dom (disk after) ∖ dom (disk before).

End ReportProcessor.

(** ** Amazon Ads connector ([AmazonAdvertisingReportProcessor]) *)

Module AmazonAds.

(** The fields of [self] the report calls read, once
    [process_report_config] has resolved the configuration. *)
Record self : Type := Self {
  api_urls : gmap string string;
  bucket_nm : string;
  destination_output_path_template : string;
  country_code : string
}.

Definition max_retries : nat := 15.

Definition create_report_request (me : self) (report_type : option string)
    (start_date end_date : string) (report_config : json) : M world json :=
  match report_type with
  | None => raise (ValueError "Report type parameter is missing.")
  | Some report_type =>
      if String.eqb report_type ""
      then raise (ValueError "Report type parameter is missing.")
      else if negb (truthy report_config)
      then raise (ValueError ("No configuration found for report: " +:+ report_type))
      else
        match api_urls me !! "report_url" with
        | None => raise (KeyError "report_url")
        | Some url =>
            let! name := subscript report_config "name" in
            let! adProduct := subscript report_config "adProduct" in
            let! groupBy := subscript report_config "groupBy" in
            let! columns := subscript report_config "columns" in
            let! reportTypeId := subscript report_config "reportTypeId" in
            let! timeUnit := subscript report_config "timeUnit" in
            let! format := subscript report_config "format" in
            let configuration :=
              [("adProduct", adProduct); ("groupBy", groupBy); ("columns", columns);
               ("reportTypeId", reportTypeId); ("timeUnit", timeUnit); ("format", format)] in
            let! configuration :=
              match report_config with
              | JDict d =>
                  match assoc "filters" d with
                  | Some filters =>
                      if truthy filters
                      then ret (configuration ++ [("filters", filters)])%list
                      else ret configuration
                  | None => ret configuration
                  end
              | _ => ret configuration
              end in
            let payload :=
              JDict [("name", name); ("startDate", JStr start_date);
                     ("endDate", JStr end_date); ("configuration", JDict configuration)] in
            let! response := send (Request POST url payload) in
            raise_for_status response >>
            let! response_json := json_of response in
            let! report_id := dict_get response_json "reportId" JNull in
            if negb (truthy report_id)
            then raise (Exception "Report ID not returned in response.")
            else ret report_id
        end
  end.

(** The [filters] entry [create_report_request] adds to the configuration
    of its payload: there when the report's configuration has filters that
    are not empty. *)
Definition filters_of (d : list (string * json)) : list (string * json) :=
  match assoc "filters" d with
  | Some filters => if truthy filters then [("filters", filters)] else []
  | None => []
  end.

(** One pass through the body of the [while] of [fetch_report_url]. *)
Definition poll_once (url : string) (retries : nat) : M world (option (list json)) :=
  let! response := send (Request GET url JNull) in
  raise_for_status response >>
  let! response_json := json_of response in
  let! status := dict_get response_json "status" JNull in
  if eq_str status "COMPLETED" then
    let! report_urls := dict_get response_json "url" (JList []) in
    match report_urls with
    | JStr u => ret (Some [JStr u])
    | JList [] => raise (Exception "No URLs found in the response.")
    | JList l => ret (Some l)
    | _ => raise (TypeError "Expected 'url' to be a list or a single string.")
    end
  else if eq_str status "FAILURE" then
    raise (Exception "Report generation failed.")
  else ret None.

Definition status_url (base : string) (report_id : json) : string :=
  base +:+ "/" +:+ Json.str report_id.

(** A status answer that leaves the job unfinished: no HTTP error, a JSON
    object, and a [status] that is neither of the two words the poller
    tests for. *)
Definition pending (r : http_response) : bool :=
  match r with
  | Response code _ (Some (JDict d)) =>
      let status := default JNull (assoc "status" d) in
      negb ((400 <=? code)%nat && (code <? 600)%nat)
      && negb (eq_str status "COMPLETED") && negb (eq_str status "FAILURE")
  | _ => false
  end.

(** [fetch_report_url] with its local constant [max_retries] as an
    argument. *)
Definition fetch_report_url_within (budget : nat) (me : self) (report_id : json)
    : M world (list json) :=
  match api_urls me !! "report_url" with
  | None => raise (KeyError "report_url")
  | Some base =>
      let url := status_url base report_id in
      let! found := while_retries budget 0 (poll_once url) (sleep 300) in
      match found with
      | Some report_urls => ret report_urls
      | None => raise (TimeoutError "Timeout: Report not generated within specified retries.")
      end
  end.

Definition fetch_report_url : self -> json -> M world (list json) :=
  fetch_report_url_within max_retries.

Section process.

(** [fetch_report_data], which the module imports from
    [utils.report_processor]; a parameter here, so that a run shows
    whether it was called. *)
Variable fetch_report_data : string -> string -> string -> string -> string -> Z -> M world unit.

(** The report part of [process_report_config] (its inner [try]), with
    the configuration resolved: [key] is the report's configuration key,
    the two dates are in ISO form and [end_date_obj] is the parsed end
    date. *)
Definition process_report_config (me : self) (key : option string)
    (start_date_iso end_date_iso : string) (report_config : json) (end_date_obj : Z)
    : M world unit :=
  let! report_id := create_report_request me key start_date_iso end_date_iso report_config in
  let! report_urls := fetch_report_url me report_id in
  for_each report_urls (fun url =>
    match url with
    | JStr url =>
        fetch_report_data url (default "" key) (bucket_nm me)
          (destination_output_path_template me) (country_code me) end_date_obj
    | _ => raise (AttributeError "urlparse of a non-string")
    end).

End process.

End AmazonAds.

(** ** Instacart connector ([InstaCartReportProcessor]) *)

Module Instacart.

Record self : Type := Self {
  api_urls : gmap string string
}.

Definition max_retries : nat := 15.

(** [s.rsplit('/', 1)[0]] *)
Definition rsplit_head (s : string) : string :=
  match split "/" s with
  | [_] => s
  | parts => join "/" (but_last parts)
  end.

(** One pass through the body of the [while] of [fetch_report_url]. *)
Definition poll_once (url : string) (retries : nat) : M world (option (list json)) :=
  let! response := send (Request GET url JNull) in
  raise_for_status response >>
  let! body := json_of response in
  let! data := dict_get body "data" (JDict []) in
  let! response_json := dict_get data "attributes" (JDict []) in
  let! status := dict_get response_json "status" JNull in
  if eq_str status "completed" then
    let! report_urls := dict_get response_json "s3_location" (JList []) in
    match report_urls with
    | JStr u => ret (Some [JStr u])
    | JList [] => raise (Exception "No URLs found in the response.")
    | JList l => ret (Some l)
    | _ => raise (TypeError "Expected 'url' to be a list or a single string.")
    end
  else if eq_str status "FAILURE" then
    raise (Exception "Report generation failed.")
  else ret None.

Definition status_url (report_url : string) (report_id : json) : string :=
  rsplit_head report_url +:+ "/" +:+ Json.str report_id.

(** [body.get("data", {}).get("attributes", {})] of a well-formed answer. *)
Definition attributes_of (body : json) : option (list (string * json)) :=
  match body with
  | JDict d =>
      match default (JDict []) (assoc "data" d) with
      | JDict data =>
          match default (JDict []) (assoc "attributes" data) with
          | JDict attributes => Some attributes
          | _ => None
          end
      | _ => None
      end
  | _ => None
  end.

(** A status answer that leaves the job unfinished. *)
Definition pending (r : http_response) : bool :=
  match r with
  | Response code _ (Some body) =>
      match attributes_of body with
      | Some attributes =>
          let status := default JNull (assoc "status" attributes) in
          negb ((400 <=? code)%nat && (code <? 600)%nat)
          && negb (eq_str status "completed") && negb (eq_str status "FAILURE")
      | None => false
      end
  | _ => false
  end.

Definition fetch_report_url_within (budget : nat) (me : self) (report_id : json)
    : M world (list json) :=
  match api_urls me !! "report_url" with
  | None => raise (KeyError "report_url")
  | Some report_url =>
      let url := status_url report_url report_id in
      let! found := while_retries budget 0 (poll_once url) (sleep 300) in
      match found with
      | Some report_urls => ret report_urls
      | None => raise (TimeoutError "Timeout: Report not generated within specified retries.")
      end
  end.

Definition fetch_report_url : self -> json -> M world (list json) :=
  fetch_report_url_within max_retries.

End Instacart.

(** ** Amazon Marketing Cloud connector ([AmazonMarketingCloudAPI]) *)

Module AMC.

(** The configuration fields of [self]. *)
Record self : Type := Self {
  api_urls : gmap string string;
  instance_id : string;
  time_window_type : string;
  bucket_nm : string;
  destination_path_template : string;
  country_code : string
}.

(** What a method can change: the world and [self.wf_status]. *)
Record state : Type := State {
  outside : world;
  wf_status : list (string * json)
}.

Definition lift {A} (c : M world A) : M state A :=
  fun st => let (r, w) := c (outside st) in (r, State w (wf_status st)).

Definition set_wf_status (d : list (string * json)) : M state unit :=
  modify (fun st => State (outside st) d).

Definition max_retries : nat := 10.

Definition executions_url (me : self) (base : string) : string :=
  base +:+ "/amc/reporting/" +:+ instance_id me +:+ "/workflowExecutions".

Definition create_report_request (me : self) (report_type start_date end_date : string)
    (report_config : json) : M state json :=
  if String.eqb report_type ""
  then raise (ValueError "Report type parameter is missing.")
  else if negb (truthy report_config)
  then raise (ValueError ("No configuration found for report: " +:+ report_type))
  else
    match api_urls me !! "report_url" with
    | None => raise (KeyError "report_url")
    | Some base =>
        let url := executions_url me base in
        let! query := subscript report_config "query" in
        let payload :=
          JDict [("workflow", JDict [("sqlQuery", query)]);
                 ("timeWindowType", JStr (time_window_type me));
                 ("timeWindowStart", JStr (start_date +:+ "T00:00:00"));
                 ("timeWindowEnd", JStr (end_date +:+ "T00:00:00"));
                 ("ignoreDataGaps", JStr "true");
                 ("workflowExecutionTimeoutSeconds", JStr "86400")] in
        let! response := lift (send (Request POST url payload)) in
        lift (raise_for_status response) >>
        let! response_json := lift (json_of response) in
        let! report_id := dict_get response_json "workflowExecutionId" JNull in
        if negb (truthy report_id)
        then raise (Exception "Report ID not returned in response.")
        else ret report_id
    end.

(** One pass through the body of the [while] of [fetch_report_url]:
    [url] is the job's [downloadUrls] endpoint, [status_url] the one that
    is polled. *)
Definition poll_once (url status_url report_id : string) (retries : nat)
    : M state (option (list string)) :=
  let! response := lift (send (Request GET status_url JNull)) in
  lift (raise_for_status response) >>
  let! response_json := lift (json_of response) in
  let! status := dict_get response_json "status" JNull in
  if eq_str status "SUCCEEDED" then
    ret (Some [url])
  else if eq_str status "FAILURE" || eq_str status "REJECTED" then
    set_wf_status [("workflowID", JStr report_id); ("date", JNull);
                   ("report_type", JNull); ("status", status)] >>
    ret (Some [""])
  else ret None.

(** The row [fetch_report_url] leaves in [wf_status] for a failed job whose
    status word is [s]. *)
Definition failure_row (report_id s : string) : list (string * json) :=
  [("workflowID", JStr report_id); ("date", JNull); ("report_type", JNull);
   ("status", JStr s)].

(** A status answer that leaves the job unfinished. *)
Definition pending (r : http_response) : bool :=
  match r with
  | Response code _ (Some (JDict d)) =>
      let status := default JNull (assoc "status" d) in
      negb ((400 <=? code)%nat && (code <? 600)%nat)
      && negb (eq_str status "SUCCEEDED")
      && negb (eq_str status "FAILURE" || eq_str status "REJECTED")
  | _ => false
  end.

Definition status_url (me : self) (base report_id : string) : string :=
  executions_url me base +:+ "/" +:+ report_id.

Definition fetch_report_url_within (budget : nat) (me : self) (report_id : json)
    : M state (list string) :=
  match api_urls me !! "report_url" with
  | None => raise (KeyError "report_url")
  | Some base =>
      match report_id with
      | JStr report_id =>
          let status_url := status_url me base report_id in
          let url := status_url +:+ "/downloadUrls" in
          let! found :=
            while_retries budget 0 (poll_once url status_url report_id) (lift (sleep 180)) in
          match found with
          | Some report_urls => ret report_urls
          | None =>
              raise (TimeoutError "Timeout: Report not generated within specified retries.")
          end
      | _ => raise (TypeError "can only concatenate str to str")
      end
  end.

Definition fetch_report_url : self -> json -> M state (list string) :=
  fetch_report_url_within max_retries.

Section process.

(** [pd.concat([pd.read_csv(f), pd.DataFrame([row])]).to_csv(index=False)]
    on the text of [f]; [None] when pandas raises. *)
Variable append_row : string -> list (string * json) -> option string.

(** [str.format] on a template that is more than text and plain fields. *)
Variable format_beyond : formatter.

(** The success branch of [process_report_config]: resolve the download
    URL, fetch the file and upload it. *)
Definition download_and_upload (me : self) (report_type key report_urls : string)
    (start_date_obj : Z) : M state unit :=
  let! response := lift (send (Request GET report_urls JNull)) in
  lift (raise_for_status response) >>
  let! json_data :=
    match snd response with
    | Some j => ret j
    | None => raise (ValueError "JSONDecodeError")
    end in
  let! urls := dict_get json_data "downloadUrls" JNull in
  let! download_urls :=
    match urls with
    | JList (u :: _) => ret u
    | JList [] => raise (IndexError "list index out of range")
    | _ => raise (TypeError "object is not subscriptable")
    end in
  let! download_url :=
    match download_urls with
    | JStr u => ret u
    | _ => raise (RequestException "MissingSchema")
    end in
  let! response_url := lift (send (Request GET download_url JNull)) in
  let local_filename := "/tmp/" +:+ report_type +:+ ".csv" in
  lift (ReportProcessor.write_file local_filename (snd (fst response_url))) >>
  lift (ReportProcessor.upload_to_destination format_beyond local_filename key (bucket_nm me)
          (destination_path_template me) (country_code me) start_date_obj).

(** Where the failure log goes: the directory of the destination template,
    then [log/log_{day}{month}{year}.csv] for the day [now]. *)
Definition log_destination (me : self) (now : Z) : string :=
  join "/" (but_last (split "/" (destination_path_template me)))
    +:+ "/log/log_" +:+ Date.strftime_d now +:+ Date.strftime_m now
    +:+ Date.strftime_Y now +:+ ".csv".

(** The S3 key [upload_to_destination] gives the failure log, when the
    template can be formatted. *)
Definition failure_log_key (me : self) (key : string) (start_date_obj now : Z)
    : outcome string :=
  ReportProcessor.format_template format_beyond (log_destination me now) key (country_code me)
    (Date.strftime_Y start_date_obj) (Date.strftime_m start_date_obj)
    (Date.strftime_d start_date_obj).

(** The failure branch: complete the status row, append it to
    [workflow_status.csv] and upload that file as the failure log. *)
Definition record_failure (me : self) (report_type key start_date : string)
    (start_date_obj : Z) : M state unit :=
  let! st := get in
  set_wf_status (dict_set "report_type" (JStr report_type)
                   (dict_set "date" (JStr start_date) (wf_status st))) >>
  let! st := get in
  let! old_log := lift (ReportProcessor.read_file "workflow_status.csv") in
  match append_row old_log (wf_status st) with
  | None => raise (Exception "pandas")
  | Some workflow_log =>
      lift (ReportProcessor.write_file "workflow_status.csv" workflow_log) >>
      lift (ReportProcessor.upload_to_destination format_beyond "workflow_status.csv" key (bucket_nm me)
              (log_destination me (today (outside st))) (country_code me) start_date_obj)
  end.

(** The report part of [process_report_config] (its inner [try]), with
    the configuration resolved: [start_date] is the argument as given,
    [start_date_iso] and [end_date_iso] its ISO forms, [start_date_obj]
    the parsed start date. *)
Definition process_report_config (me : self) (report_type key : string)
    (start_date start_date_iso end_date_iso : string) (report_config : json)
    (start_date_obj : Z) : M state unit :=
  let! report_id :=
    create_report_request me report_type start_date_iso end_date_iso report_config in
  let! urls := fetch_report_url me report_id in
  match urls with
  | [] => raise (IndexError "list index out of range")
  | report_urls :: _ =>
      if negb (String.eqb report_urls "")
      then download_and_upload me report_type key report_urls start_date_obj
      else record_failure me report_type key start_date start_date_obj
  end.

End process.

End AMC.

(** ** S3 housekeeping and signed calls ([utils/aws_connection.py]) *)

Module AWSConnection.

Record self : Type := Self {
  root_folder : string;
  country_code : string
}.

(** The calls [self.client] has completed on the bucket. *)
Inductive s3_call : Type :=
| GetObject (key : string)
| PutObject (key body : string)
| DeleteObject (key : string).

(** The bucket [self.s3_bucket_name]: its objects, and the completed calls,
    newest first. *)
Record bucket : Type := Bucket {
  objects : gmap string string;
  calls : list s3_call
}.

(** [self.resource.objects.all()]: S3 lists keys in ascending byte order. *)
Definition objects_all (b : bucket) : list string :=
  merge_sort String.le (elements (dom (objects b))).

Definition get_object (key : string) : M bucket string :=
  fun b =>
    match objects b !! key with
    | Some body => (Return body, Bucket (objects b) (GetObject key :: calls b))
    | None => (Raise (ClientError "NoSuchKey"), b)
    end.

Definition delete_object (key : string) : M bucket unit :=
  fun b => (Return tt, Bucket (delete key (objects b)) (DeleteObject key :: calls b)).

Definition table_folder (me : self) (source_name table_name : string) : string :=
  root_folder me +:+ "/" +:+ source_name +:+ "/" +:+ country_code me +:+ "/"
    +:+ table_name +:+ "/".

(** [key.split('.')[0].split('_')[-1]] *)
Definition date_of_key (key : string) : string :=
  final (split "_" (first (split "." key))).

(** The condition of the list comprehension that builds [file_list]. *)
Definition to_move (me : self) (date_list : list string) (source_name table_name : string)
    (key : string) : bool :=
  negb (startswith key (table_folder me source_name table_name +:+ "processed"))
  && startswith key (table_folder me source_name table_name)
  && negb (bool_decide (date_of_key key ∈ date_list))
  && endswith key ".csv".

(** ['.'.join(file_to_move.split("/").pop(-1).split('.')[:-1])] *)
Definition csv_name_of (file_to_move : string) : string :=
  join "." (but_last (split "." (final (split "/" file_to_move)))).

(** The key the Parquet copy of [file_to_move] is written to. *)
Definition processed_key (me : self) (source_name table_name file_to_move : string)
    : string :=
  (table_folder me source_name table_name +:+ "processed/" +:+ csv_name_of file_to_move)
    +:+ ".parquet".

(** The key of the daily file of [timestamp]:
    [f'{root_folder}/{source_name}/{country_code}/{table_name}/{table_name}_{timestamp}.csv'] *)
Definition daily_key (me : self) (source_name table_name timestamp : string) : string :=
  table_folder me source_name table_name +:+ table_name +:+ "_" +:+ timestamp +:+ ".csv".

Section rotation.

(** [bytes(pd.read_csv(io.BytesIO(obj)).to_parquet())]; [None] when
    pandas raises. *)
Variable csv_to_parquet : string -> option string.

(** The keys S3 refuses to write. *)
Variable put_refused : string -> bool.

Definition put_object (key body : string) : M bucket unit :=
  fun b =>
    if put_refused key then (Raise (ClientError "PutObject"), b)
    else (Return tt, Bucket (<[key := body]> (objects b)) (PutObject key body :: calls b)).

(** The body of the [for file_to_move in file_list] loop. *)
Definition move_one (me : self) (source_name table_name file_to_move : string)
    : M bucket unit :=
  let! obj := get_object file_to_move in
  match csv_to_parquet obj with
  | None => raise (Exception "pandas")
  | Some parquet =>
      put_object (processed_key me source_name table_name file_to_move) parquet >>
      delete_object file_to_move
  end.

(** [copy_dataframe_as_csv_into_s3_bucket]: [csv] is the text
    [df.to_csv(index=False)] gives for the frame, its columns sorted when
    [sort_cols] is set. *)
Definition copy_dataframe_as_csv_into_s3_bucket (me : self) (csv : string)
    (date_range : list string) (source_name table_name : string) : M bucket unit :=
  match date_range with
  | _ :: timestamp :: _ => put_object (daily_key me source_name table_name timestamp) csv
  | _ => raise (IndexError "list index out of range")
  end.

Definition file_list (me : self) (date_list : list string)
    (source_name table_name : string) (b : bucket) : list string :=
  List.filter (to_move me date_list source_name table_name) (objects_all b).

Definition move_previous_csv_to_processed_folder (me : self) (date_list : list string)
    (source_name table_name : string) : M bucket unit :=
  let! b := get in
  for_each (file_list me date_list source_name table_name b)
           (move_one me source_name table_name).

End rotation.

(** [get_all_available_dates_for_one_table_in_s3] *)
Definition get_all_available_dates_for_one_table_in_s3 (me : self)
    (source_name table_name : string) (b : bucket) : list string :=
  map date_of_key
    (List.filter
       (fun key => startswith key (table_folder me source_name table_name)
                   && (endswith key ".csv" || endswith key ".parquet"))
       (objects_all b)).

(** The candidates of [get_most_recent_flat_file_in_bytes]: the keys that
    start with [path_to_search] and whose last dot-separated part is [xlsx]
    or [csv]. *)
Definition flat_files (path_to_search : string) (b : bucket) : list string :=
  List.filter
    (fun key => startswith key path_to_search
                && bool_decide (final (split "." key) ∈ ["xlsx"; "csv"]))
    (objects_all b).

(** [custom_path or f"de_input/{self.table_name}/{self.country_code}/{self.table_name}_"];
    [table_name] is [self.table_name]. *)
Definition path_to_search (me : self) (table_name : string) (custom_path : option string)
    : string :=
  match custom_path with
  | Some p =>
      if String.eqb p "" then
        "de_input/" +:+ table_name +:+ "/" +:+ country_code me +:+ "/" +:+ table_name +:+ "_"
      else p
  | None =>
      "de_input/" +:+ table_name +:+ "/" +:+ country_code me +:+ "/" +:+ table_name +:+ "_"
  end.

(** [get_most_recent_flat_file_in_bytes]: the bytes, the date and the name
    of the greatest candidate key. *)
Definition get_most_recent_flat_file_in_bytes (me : self) (table_name : string)
    (custom_path : option string) : M bucket (string * string * string) :=
  let! b := get in
  match flat_files (path_to_search me table_name custom_path) b with
  | [] =>
      raise (Exception ("There are no raw flat files to be pre-processed for the table "
                          +:+ table_name))
  | key :: keys =>
      let file_to_move := max_from key keys in
      let file_name := first (split "." (final (split "/" file_to_move))) in
      let! obj := get_object file_to_move in
      let file_date := final (split "_" (first (split "." (final (split "/" file_to_move))))) in
      ret (obj, file_date, file_name)
  end.

(** *** Signed REST calls *)

(** [get_access_token]: the token endpoint's answer is decoded without a
    status check. *)
Definition get_access_token (end_point : string) (request_body : json) : M world json :=
  let! response := send (Request POST end_point request_body) in
  let! decoded := json_of response in
  subscript decoded "access_token".

(** [call_aws_rest_api]: one signed request; the body of the answer is
    decoded whatever the status code. *)
Definition call_aws_rest_api (method : verb) (endpoint : string) (body : json)
    : M world json :=
  let! response := send (Request method endpoint body) in
  match snd response with
  | Some j => ret j
  | None => raise (ValueError "JSONDecodeError")
  end.

(** ['errors' in response.keys()] *)
Definition has_errors (response : json) : M world bool :=
  match response with
  | JDict d => ret (bool_decide (is_Some (assoc "errors" d)))
  | _ => raise (AttributeError "object has no attribute 'keys'")
  end.

(** [response['errors'][0]['code'] == 'QuotaExceeded'] *)
Definition first_error_is_quota (response : json) : M world bool :=
  let! errors := subscript response "errors" in
  match errors with
  | JList (e :: _) =>
      let! code := subscript e "code" in
      ret (eq_str code "QuotaExceeded")
  | JList [] => raise (IndexError "list index out of range")
  | _ => raise (KeyError "0")
  end.

(** An answer that makes [api_call_with_delay] wait and call again: a JSON
    object whose [errors] is a list and whose first error is an object with
    the [code] QuotaExceeded. *)
Definition quota_exceeded (r : http_response) : bool :=
  match r with
  | Response _ _ (Some (JDict d)) =>
      match assoc "errors" d with
      | Some (JList (JDict e :: _)) =>
          match assoc "code" e with
          | Some code => eq_str code "QuotaExceeded"
          | None => false
          end
      | _ => false
      end
  | _ => false
  end.

(** [api_call_with_delay]: the loop is [while True], so the model runs it
    for at most [fuel] rounds; [None] says the loop is still retrying. *)
Fixpoint api_call_with_delay (fuel : nat) (method : verb) (endpoint : string) (body : json)
    (w : world) : option (outcome json) * world :=
  match fuel with
  | O => (None, w)
  | S fuel' =>
      match call_aws_rest_api method endpoint body w with
      | (Raise e, w1) => (Some (Raise e), w1)
      | (Return response, w1) =>
          match has_errors response w1 with
          | (Raise e, w2) => (Some (Raise e), w2)
          | (Return false, w2) => (Some (Return response), w2)
          | (Return true, w2) =>
              match first_error_is_quota response w2 with
              | (Raise e, w3) => (Some (Raise e), w3)
              | (Return true, w3) =>
                  api_call_with_delay fuel' method endpoint body (record_sleep 10 w3)
              | (Return false, w3) => (Some (Raise (Exception (Json.str response))), w3)
              end
          end
      end
  end.

End AWSConnection.

(** ** Amazon Vendor Central connector ([AVCIngestionTask]) *)

Module AVC.

Record self : Type := Self {
  access_token_endpoint : string;
  create_report_path : string;
  table_name : string;
  (** [pipeline_config["create_report_option"]["reportType"]] and
      [["reportOptions"]] *)
  reportType : json;
  reportOptions : json
}.

Record aws_config : Type := AwsConfig {
  access_token_request_body : json;
  base_url : string;
  marketplaceIds : json
}.

Definition is_campaign_table (me : self) : bool :=
  bool_decide (table_name me ∈ ["sp_promotion_performance"; "sp_coupon_performance"]).

Definition create_report_request_body (me : self) (start_date end_date : string)
    (cfg : aws_config) : json :=
  if is_campaign_table me then
    JDict [("reportType", reportType me);
           ("reportOptions", JDict [("campaignStartDateFrom", JStr start_date);
                                    ("campaignStartDateTo", JStr end_date)]);
           ("marketplaceIds", marketplaceIds cfg)]
  else
    JDict [("reportType", reportType me);
           ("reportOptions", reportOptions me);
           ("dataStartTime", JStr start_date);
           ("dataEndTime", JStr end_date);
           ("marketplaceIds", marketplaceIds cfg)].

Definition create_report_endpoint (me : self) (cfg : aws_config) : string :=
  base_url cfg +:+ create_report_path me.

(** [get_report_from_avc] up to [report_id = create_report_response["reportId"]]:
    the access token, then the creation call through
    [api_call_with_delay].  [None] says the creation call is still being
    retried after [fuel] rounds. *)
Definition get_report_from_avc_report_id (fuel : nat) (me : self)
    (start_date end_date : string) (cfg : aws_config) (w : world)
    : option (outcome json) * world :=
  match AWSConnection.get_access_token (access_token_endpoint me)
          (access_token_request_body cfg) w with
  | (Raise e, w1) => (Some (Raise e), w1)
  | (Return access_token, w1) =>
      match AWSConnection.api_call_with_delay fuel POST (create_report_endpoint me cfg)
              (create_report_request_body me start_date end_date cfg) w1 with
      | (None, w2) => (None, w2)
      | (Some (Raise e), w2) => (Some (Raise e), w2)
      | (Some (Return create_report_response), w2) =>
          let (r, w3) := subscript create_report_response "reportId" w2 in (Some r, w3)
      end
  end.

(** The creation calls among the requests sent. *)
Definition creation_calls (me : self) (cfg : aws_config) (l : list request) : nat :=
  length (List.filter
            (fun r => is_post r && String.eqb (url_of r) (create_report_endpoint me cfg)) l).

End AVC.

(** ** Date ranges and the AMC entry point *)

Module CommonUtils.

(** The [while start_date < end_date] loop of [make_api_calls_daily];
    [date_list] is the list built so far. *)
Equations? daily_loop (start_date end_date : Z) (date_list : list (string * string))
    : list (string * string) by wf (Z.to_nat (end_date - start_date)) lt :=
  daily_loop start_date end_date date_list with decide (start_date < end_date)%Z := {
    | left _ =>
        let next_day := (start_date + 1)%Z in
        daily_loop next_day end_date
          (date_list ++ [(Date.strftime start_date, Date.strftime next_day)])%list
    | right _ => date_list }.
Proof. lia. Qed.

Definition make_api_calls_daily (report_start_date report_end_date : string)
    : outcome (list (string * string)) :=
  match Date.strptime report_start_date with
  | Raise e => Raise e
  | Return start_date =>
      match Date.strptime report_end_date with
      | Raise e => Raise e
      | Return end_date => Return (daily_loop start_date end_date [])
      end
  end.

(** What the loop of [generate_intervals] comes to: the list, a date
    outside the years 1 to 9999 ([OverflowError]), or no end within the
    rounds the model ran. *)
Inductive intervals_result : Type :=
| Intervals (l : list (string * string))
| Overflow
| StillRunning.

(** The first and the last day a [datetime] can hold, 0001-01-01 and
    9999-12-31. *)
Definition min_day : Z := -719162.
Definition max_day : Z := 2932896.

Definition in_range (z : Z) : bool := (min_day <=? z)%Z && (z <=? max_day)%Z.

(** The [while start_date <= end_date] loop of [generate_intervals], run
    for at most [fuel] rounds: with [interval_days] below 1 it need not
    end. *)
Fixpoint intervals_loop (fuel : nat) (start_date end_date interval_days : Z)
    (intervals : list (string * string)) : intervals_result :=
  match fuel with
  | O => StillRunning
  | S fuel' =>
      if (start_date <=? end_date)%Z then
        if in_range (start_date + (interval_days - 1)) then
          let interval_end := Z.min (start_date + (interval_days - 1)) end_date in
          if in_range (interval_end + 1) then
            intervals_loop fuel' (interval_end + 1) end_date interval_days
              (intervals ++ [(Date.strftime start_date, Date.strftime interval_end)])
          else Overflow
        else Overflow
      else Intervals intervals
  end.

Definition generate_intervals (fuel : nat) (report_start_date report_end_date : string)
    (interval_days : Z) : outcome intervals_result :=
  match Date.strptime report_start_date with
  | Raise e => Raise e
  | Return start_date =>
      match Date.strptime report_end_date with
      | Raise e => Raise e
      | Return end_date => Return (intervals_loop fuel start_date end_date interval_days [])
      end
  end.

(** [generate_access_token] *)
Definition generate_access_token (client_id client_secret refresh_token : string)
    (api_urls : gmap string string) : M world json :=
  match api_urls !! "access_token_generation" with
  | None => raise (KeyError "access_token_generation")
  | Some url =>
      let payload :=
        JDict [("grant_type", JStr "refresh_token"); ("client_id", JStr client_id);
               ("client_secret", JStr client_secret);
               ("refresh_token", JStr refresh_token)] in
      let! response := send (Request POST url payload) in
      raise_for_status response >>
      let! decoded := json_of response in
      dict_get decoded "access_token" JNull
  end.

(** [profile.get("countryCode") == country and
    profile.get("accountInfo", {}).get("type") == "vendor"] *)
Definition is_vendor_of (country : string) (profile : json) : M world bool :=
  let! code := dict_get profile "countryCode" JNull in
  if eq_str code country then
    let! account := dict_get profile "accountInfo" (JDict []) in
    let! type := dict_get account "type" JNull in
    ret (eq_str type "vendor")
  else ret false.

(** The [for profile in profiles] loop of [fetch_profile_id]. *)
Fixpoint first_vendor_profile (country : string) (profiles : list json) : M world json :=
  match profiles with
  | [] => raise (Exception ("No profile id found for country :" +:+ country))
  | profile :: rest =>
      let! found := is_vendor_of country profile in
      if found then dict_get profile "profileId" JNull
      else first_vendor_profile country rest
  end.

(** [profiles[0]['profileId']] on an answer that is not empty. *)
Definition first_profile (profiles : json) : M world json :=
  match profiles with
  | JList (profile :: _) => subscript profile "profileId"
  | JList [] => raise (IndexError "list index out of range")
  | JDict _ => raise (KeyError "0")
  | _ => raise (TypeError "object is not subscriptable")
  end.

(** [fetch_profile_id] *)
Definition fetch_profile_id (api_urls : gmap string string) (country : option string)
    : M world json :=
  match api_urls !! "profile_fetch" with
  | None => raise (KeyError "profile_fetch")
  | Some profiles_url =>
      let! response := send (Request GET profiles_url JNull) in
      raise_for_status response >>
      let! profiles := json_of response in
      if negb (truthy profiles) then raise (Exception "No profiles found.")
      else
        match country with
        | Some country =>
            if String.eqb country "" then first_profile profiles
            else
              let country := if String.eqb country "GB" then "UK" else country in
              match profiles with
              | JList l => first_vendor_profile country l
              | JDict _ | JStr _ => raise (AttributeError "'str' object has no attribute 'get'")
              | _ => raise (TypeError "object is not iterable")
              end
        | None => first_profile profiles
        end
  end.

End CommonUtils.

Module AmcMain.

Record args : Type := Args {
  report_type : option string;
  start_date : option string;
  end_date : option string;
  country_code : option string
}.

Definition falsy (o : option string) : bool :=
  match o with
  | None => true
  | Some s => String.eqb s ""
  end.

(** [pd.DataFrame(columns=[...]).to_csv(index=False)] *)
Definition workflow_status_header : string :=
  "date,report_type,workflowID,status" +:+ String "010"%char "".

Section main.

(** [datetime.fromisoformat(s)], as the day it falls on. *)
Variable fromisoformat : string -> outcome Z.

(** [amazon_ads_api.process_report_config(report_type, start_date, end_date)] *)
Variable process_report_config : string -> string -> string -> M AMC.state unit.

(** [main], from the validation of the arguments on, with the
    configuration loaded. *)
Definition main (a : args) : M AMC.state unit :=
  if falsy (start_date a) || falsy (end_date a)
  then raise (ValueError "Start date and end date must be provided.")
  else if falsy (country_code a)
  then raise (ValueError "Country code and config name must be provided.")
  else if falsy (report_type a) then ret tt
  else
    let report_type := default "" (report_type a) in
    match fromisoformat (default "" (start_date a)) with
    | Raise e => raise e
    | Return parsed_start_datetime =>
        let start_date_string := Date.strftime parsed_start_datetime in
        match fromisoformat (default "" (end_date a)) with
        | Raise e => raise e
        | Return parsed_end_datetime =>
            let end_date_string := Date.strftime parsed_end_datetime in
            match CommonUtils.make_api_calls_daily start_date_string end_date_string with
            | Raise e => raise e
            | Return date_list =>
                AMC.lift (ReportProcessor.write_file "workflow_status.csv"
                            workflow_status_header) >>
                for_each date_list (fun date_range =>
                  process_report_config report_type (fst date_range) (snd date_range))
            end
        end
    end.

End main.

End AmcMain.

(** ** Mock vendors and sample configurations *)

Module Scenario.

(** A vendor that answers the n-th request it receives with the n-th entry
    of [script], and is unreachable once the script is over. *)
Definition scripted (script : list http_response) : list request -> http_response :=
  fun history => nth (length history - 1) script Unreachable.

(** A vendor that follows [script] and gives every later request the
    answer [r]. *)
Definition then_always (script : list http_response) (r : http_response)
    : list request -> http_response :=
  fun history => nth (length history - 1) script r.

(** A vendor that gives every request the same answer. *)
Definition always (r : http_response) : list request -> http_response :=
  fun _ => r.

(** A world in which nothing has happened yet; today is 2024-01-01. *)
Definition fresh (vendor : list request -> http_response) : world :=
  World vendor [] [] ∅ ∅ (fun _ _ => false) 0 19723.

Definition ok (j : json) : http_response := Response 200 "" (Some j).

Definition status_is (s : string) : http_response :=
  ok (JDict [("status", JStr s)]).

Definition status_with_url (s u : string) : http_response :=
  ok (JDict [("status", JStr s); ("url", JStr u)]).

Definition instacart_status_is (s : string) : http_response :=
  ok (JDict [("data", JDict [("attributes", JDict [("status", JStr s)])])]).

Definition ads : AmazonAds.self :=
  AmazonAds.Self {["report_url" := "https://ads.example/reporting/reports"]}
    "bucket" "de/ads/{country_code}/{report_type}/{report_type}_{year}-{month}-{day}.csv" "US".

Definition ads_report_fields : list (string * json) :=
  [("name", JStr "X"); ("adProduct", JStr "SPONSORED_PRODUCTS");
   ("groupBy", JList [JStr "campaign"]); ("columns", JList [JStr "impressions"]);
   ("reportTypeId", JStr "spCampaigns"); ("timeUnit", JStr "DAILY");
   ("format", JStr "GZIP_JSON")].

Definition ads_report_config : json := JDict ads_report_fields.

Definition instacart : Instacart.self :=
  Instacart.Self {["report_url" := "https://instacart.example/api/reports"]}.

Definition amc : AMC.self :=
  AMC.Self {["report_url" := "https://amc.example"]} "inst" "EXPLICIT" "bucket"
    "de/amc/{country_code}/{report_type}/{report_type}_{year}-{month}-{day}.csv" "US".

Definition amc_fresh (vendor : list request -> http_response) : AMC.state :=
  AMC.State (fresh vendor) [].

Definition amc_report_fields : list (string * json) := [("query", JStr "SELECT 1")].

Definition amc_report_config : json := JDict amc_report_fields.

Definition newline : string := String "010"%char "".

(** The status log before any failure: the header line. *)
Definition log_header : string := "workflowID,date,report_type,status" +:+ newline.

Definition csv_line (row : list (string * json)) : string :=
  join "," (map (fun kv => Json.str (snd kv)) row) +:+ newline.

(** A stand-in for pandas: the log with one more line for [row]. *)
Definition append_line (log : string) (row : list (string * json)) : option string :=
  Some (log +:+ csv_line row).

(** A world that has the status log on disk. *)
Definition amc_with_log (vendor : list request -> http_response) : AMC.state :=
  AMC.State (set_disk {["workflow_status.csv" := log_header]} (fresh vendor)) [].

Definition signed_url : string := "https://signed.example/U".

(** A stand-in for [urlparse(url).path] on absolute URLs: what follows the
    host, up to the query or the fragment. *)
Definition path_of_url (url : string) : string :=
  let cut := fun s => Py.first (split "?" (Py.first (split "#" s))) in
  match String.index 0 "://" url with
  | Some i =>
      let rest := String.substring (i + 3) (String.length url) url in
      match String.index 0 "/" rest with
      | Some j => cut (String.substring j (String.length rest) rest)
      | None => ""
      end
  | None => cut url
  end.

(** The destination templates of the scenarios are text and plain fields;
    on any other this stand-in for [str.format] raises. *)
Definition unformattable : formatter :=
  fun template _ => Raise (ValueError ("cannot format " +:+ template)).

(** Stand-ins for the libraries: gzip data is its content behind the gzip
    magic bytes [\031\139]; JSON text decodes to a one-string document. *)
Definition libraries : ReportProcessor.libs :=
  ReportProcessor.Libs path_of_url
    (fun s => if String.prefix (String "031"%char (String "139"%char "")) s
              then Some (String.substring 2 (String.length s) s) else None)
    (fun s => Some (JList [JDict [("text", JStr s)]]))
    (fun j => Some ("text" +:+ String "010"%char "" +:+ Json.str j))
    (fun s => Some ("column" +:+ String "010"%char "" +:+ s))
    (fun n => "/tmp/tmp" +:+ pretty n)
    unformattable.

(** What [libraries] takes for the gzip form of [s]. *)
Definition gzip_of (s : string) : string :=
  String "031"%char (String "139"%char s).

Definition quota_error : http_response :=
  Response 429 "" (Some (JDict [("errors", JList [JDict [("code", JStr "QuotaExceeded")]])])).

Definition avc : AVC.self :=
  AVC.Self "https://api.amazon.com/auth/o2/token" "/reports/2021-06-30/reports"
    "sp_sales" (JStr "GET_VENDOR_SALES_REPORT") (JDict [("reportPeriod", JStr "DAY")]).

Definition avc_config : AVC.aws_config :=
  AVC.AwsConfig (JDict [("grant_type", JStr "refresh_token")])
    "https://sellingpartnerapi-na.amazon.com" (JList [JStr "ATVPDKIKX0DER"]).

Definition avc_storage : AWSConnection.self := AWSConnection.Self "de" "US".

(** A stand-in for pandas: the Parquet form of [csv] is [csv] behind the
    Parquet magic number; an empty file cannot be read. *)
Definition to_parquet (csv : string) : option string :=
  if String.eqb csv "" then None else Some ("PAR1" +:+ csv).

Definition accepts_all (key : string) : bool := false.

(** The table [T] of the source [avc] with two daily files. *)
Definition two_days : AWSConnection.bucket :=
  AWSConnection.Bucket
    (list_to_map [("de/avc/US/T/T_2024-01-01.csv", "a,b");
                  ("de/avc/US/T/T_2024-01-02.csv", "c,d")]) [].

(** The same, with a Parquet object already in [processed/] and a CSV whose
    name starts with [processed]. *)
Definition crowded : AWSConnection.bucket :=
  AWSConnection.Bucket
    (list_to_map [("de/avc/US/T/T_2024-01-01.csv", "a,b");
                  ("de/avc/US/T/T_2024-01-02.csv", "c,d");
                  ("de/avc/US/T/processed/T_2024-01-01.parquet", "old");
                  ("de/avc/US/T/processed_2023-12-30.csv", "e,f")]) [].

End Scenario.

(** * Properties *)

(** The status-code tests stay folded under [simpl]. *)
#[local] Arguments Nat.leb : simpl never.
#[local] Arguments Nat.ltb : simpl never.

(** ** The monad *)

Lemma bind_Return {W A B} (c : M W A) (k : A -> M W B) w a w' :
  c w = (Return a, w') -> bind c k w = k a w'.
Proof. intros E. unfold bind. now rewrite E. Qed.

Lemma bind_Raise {W A B} (c : M W A) (k : A -> M W B) w e w' :
  c w = (Raise e, w') -> bind c k w = (Raise e, w').
Proof. intros E. unfold bind. now rewrite E. Qed.

(** ** The retry loop *)

Lemma while_retries_step {W A} max_retries retries (body : nat -> M W (option A)) pause w :
  while_retries max_retries retries body pause w =
  if decide (retries < max_retries) then
    match body retries w with
    | (Raise e, w1) => (Raise e, w1)
    | (Return (Some v), w1) => (Return (Some v), w1)
    | (Return None, w1) =>
        match pause w1 with
        | (Raise e, w2) => (Raise e, w2)
        | (Return _, w2) => while_retries max_retries (S retries) body pause w2
        end
    end
  else (Return None, w).
Proof.
  simp while_retries.
  destruct (decide (retries < max_retries)); simpl; [|reflexivity].
  destruct (body retries w) as [[[v|]|e] w1]; simpl; try reflexivity.
  destruct (pause w1) as [[u|e] w2]; reflexivity.
Qed.

Lemma while_retries_again {W A} max_retries retries (body : nat -> M W (option A)) pause w :
  retries < max_retries ->
  while_retries max_retries retries body pause w =
  match body retries w with
  | (Raise e, w1) => (Raise e, w1)
  | (Return (Some v), w1) => (Return (Some v), w1)
  | (Return None, w1) =>
      match pause w1 with
      | (Raise e, w2) => (Raise e, w2)
      | (Return _, w2) => while_retries max_retries (S retries) body pause w2
      end
  end.
Proof.
  intros H. rewrite while_retries_step.
  destruct (decide (retries < max_retries)); [reflexivity | contradiction].
Qed.

Section retry_loop.

Context {W A : Type}.
Variable log : W -> list request.
Variable g : request.
Variable body : nat -> M W (option A).
Variable pause : M W unit.

(** Each pass sends exactly the poll [g]; the pause sends nothing and
    does not raise. *)
Hypothesis body_sends_one : forall n w, log (snd (body n w)) = g :: log w.
Hypothesis pause_sends_none : forall w, log (snd (pause w)) = log w.
Hypothesis pause_returns : forall w, fst (pause w) = Return tt.

Lemma while_retries_log max_retries retries w :
  exists k,
    log (snd (while_retries max_retries retries body pause w)) = replicate k g ++ log w
    /\ k <= max_retries - retries
    /\ (fst (while_retries max_retries retries body pause w) = Return None ->
        k = max_retries - retries).
Proof.
  remember (max_retries - retries) as m eqn:Hm.
  revert retries w Hm.
  induction m as [|m IH]; intros retries w Hm; rewrite while_retries_step.
  - destruct (decide (retries < max_retries)); [lia|].
    exists 0. simpl. auto.
  - destruct (decide (retries < max_retries)); [|lia].
    pose proof (body_sends_one retries w) as Hb.
    destruct (body retries w) as [[[v|]|e] w1]; simpl in Hb.
    + exists 1. simpl. rewrite Hb. repeat split; [lia | discriminate].
    + pose proof (pause_sends_none w1) as Hp.
      pose proof (pause_returns w1) as Hr.
      destruct (pause w1) as [[u|e] w2]; simpl in Hp, Hr; [|discriminate].
      destruct (IH (S retries) w2 ltac:(lia)) as (k & Hk & Hle & Hex).
      exists (S k). rewrite Hk, Hp, Hb.
      repeat split; [| lia | intros E; rewrite (Hex E); lia].
      simpl. change (g :: log w) with ([g] ++ log w).
      rewrite app_assoc. f_equal.
      clear. induction k; simpl; [reflexivity | now f_equal].
    + exists 1. simpl. rewrite Hb. repeat split; [lia | discriminate].
Qed.

(** An invariant [I] under which a pass never ends the loop. *)
Variable I : W -> Prop.
Hypothesis body_pending :
  forall n w, I w -> fst (body n w) = Return None /\ I (snd (pause (snd (body n w)))).

Lemma while_retries_exhausts max_retries retries w :
  I w -> fst (while_retries max_retries retries body pause w) = Return None.
Proof.
  remember (max_retries - retries) as m eqn:Hm.
  revert retries w Hm.
  induction m as [|m IH]; intros retries w Hm Hw; rewrite while_retries_step.
  - destruct (decide (retries < max_retries)); [lia | reflexivity].
  - destruct (decide (retries < max_retries)); [|lia].
    destruct (body_pending retries w Hw) as [Hb Hi].
    destruct (body retries w) as [[[v|]|e] w1]; simpl in Hb, Hi; try discriminate.
    pose proof (pause_returns w1) as Hr.
    destruct (pause w1) as [[u|e] w2]; simpl in Hr, Hi; [|discriminate].
    apply IH; [lia | exact Hi].
Qed.

End retry_loop.

(** ** What one poll does to the world *)

Lemma send_sent r w : sent (snd (send r w)) = r :: sent w.
Proof. unfold send. simpl. destruct (respond w (r :: sent w)); reflexivity. Qed.

Lemma send_respond r w : respond (snd (send r w)) = respond w.
Proof. unfold send. simpl. destruct (respond w (r :: sent w)); reflexivity. Qed.

(** Runs a poll body: unfolds the monad and splits on what the vendor sent. *)
Ltac run_poll :=
  unfold bind, send, raise_for_status, json_of, dict_get, ret, raise, modify,
    AMC.lift, AMC.set_wf_status;
  simpl;
  repeat (match goal with
          | |- context [match ?x with _ => _ end] =>
              lazymatch x with
              | context [match _ with _ => _ end] => fail
              | _ => destruct x eqn:?; simpl
              end
          | |- context [if ?b then _ else _] =>
              lazymatch b with
              | context [if _ then _ else _] => fail
              | context [match _ with _ => _ end] => fail
              | _ => destruct b eqn:?; simpl
              end
          end);
  try reflexivity; try discriminate.

Lemma ads_poll_once_sent url n w :
  sent (snd (AmazonAds.poll_once url n w)) = Request GET url JNull :: sent w.
Proof. unfold AmazonAds.poll_once. run_poll. Qed.

Lemma ads_poll_once_respond url n w :
  respond (snd (AmazonAds.poll_once url n w)) = respond w.
Proof. unfold AmazonAds.poll_once. run_poll. Qed.

Lemma instacart_poll_once_sent url n w :
  sent (snd (Instacart.poll_once url n w)) = Request GET url JNull :: sent w.
Proof. unfold Instacart.poll_once. run_poll. Qed.

Lemma instacart_poll_once_respond url n w :
  respond (snd (Instacart.poll_once url n w)) = respond w.
Proof. unfold Instacart.poll_once. run_poll. Qed.

Lemma amc_poll_once_sent url status_url id n st :
  sent (AMC.outside (snd (AMC.poll_once url status_url id n st)))
  = Request GET status_url JNull :: sent (AMC.outside st).
Proof. unfold AMC.poll_once. run_poll. Qed.

Lemma amc_poll_once_respond url status_url id n st :
  respond (AMC.outside (snd (AMC.poll_once url status_url id n st)))
  = respond (AMC.outside st).
Proof. unfold AMC.poll_once. run_poll. Qed.

(** ** Polling stays within the retry budget *)

Lemma ads_pending_poll url n w :
  AmazonAds.pending (respond w (Request GET url JNull :: sent w)) = true ->
  fst (AmazonAds.poll_once url n w) = Return None.
Proof.
  intros H. unfold AmazonAds.poll_once, bind, send. simpl.
  destruct (respond w (_ :: sent w)) as [|code body [[]|]]; simpl in H; try discriminate.
  apply andb_prop in H as [H Hf]. apply andb_prop in H as [Hc Hs].
  apply negb_true_iff in Hc, Hs, Hf.
  unfold raise_for_status. simpl. rewrite Hc. simpl.
  destruct (assoc "status" d); simpl in *; rewrite ?Hs, ?Hf; reflexivity.
Qed.

Lemma instacart_pending_poll url n w :
  Instacart.pending (respond w (Request GET url JNull :: sent w)) = true ->
  fst (Instacart.poll_once url n w) = Return None.
Proof.
  intros H. unfold Instacart.poll_once, bind, send. simpl.
  destruct (respond w (_ :: sent w)) as [|code body [j|]]; simpl in H; try discriminate.
  destruct j; simpl in H; try discriminate.
  unfold Instacart.attributes_of in H.
  unfold raise_for_status, json_of, dict_get. simpl.
  destruct (assoc "data" d) as [data|]; simpl in *.
  - destruct data; try discriminate.
    destruct (assoc "attributes" d0) as [attrs|]; simpl in *.
    + destruct attrs; try discriminate.
      apply andb_prop in H as [H Hf]. apply andb_prop in H as [Hc Hs].
      apply negb_true_iff in Hc, Hs, Hf. rewrite Hc. simpl.
      destruct (assoc "status" d1); simpl in *; rewrite ?Hs, ?Hf; reflexivity.
    + apply andb_prop in H as [H Hf]. apply andb_prop in H as [Hc Hs].
      apply negb_true_iff in Hc. rewrite Hc. reflexivity.
  - apply andb_prop in H as [H Hf]. apply andb_prop in H as [Hc Hs].
    apply negb_true_iff in Hc. rewrite Hc. reflexivity.
Qed.

Lemma amc_pending_poll url status_url id n st :
  AMC.pending (respond (AMC.outside st) (Request GET status_url JNull :: sent (AMC.outside st)))
    = true ->
  fst (AMC.poll_once url status_url id n st) = Return None.
Proof.
  intros H. unfold AMC.poll_once, bind, AMC.lift, send. simpl.
  destruct (respond _ (_ :: sent _)) as [|code body [[]|]]; simpl in H; try discriminate.
  apply andb_prop in H as [H Hf]. apply andb_prop in H as [Hc Hs].
  apply negb_true_iff in Hc, Hs, Hf.
  unfold raise_for_status. simpl. rewrite Hc. simpl.
  destruct (assoc "status" d); simpl in *; rewrite ?Hs, ?Hf; reflexivity.
Qed.

Lemma ads_fetch_within_budget budget me id w :
  exists k url, k <= budget
    /\ polled k url (sent w) (sent (snd (AmazonAds.fetch_report_url_within budget me id w))).
Proof.
  unfold AmazonAds.fetch_report_url_within.
  destruct (AmazonAds.api_urls me !! "report_url") as [base|].
  2:{ exists 0, "". split; [lia | reflexivity]. }
  set (url := AmazonAds.status_url base id).
  destruct (while_retries_log sent (Request GET url JNull) (AmazonAds.poll_once url) (sleep 300)
              (ads_poll_once_sent url) (fun w => eq_refl) (fun w => eq_refl) budget 0 w)
    as (k & Hk & Hle & _).
  exists k, url. split; [lia|]. unfold polled, bind.
  destruct (while_retries budget 0 _ _ w) as [[[v|]|e] w1]; exact Hk.
Qed.

Lemma ads_fetch_times_out budget me id base w :
  AmazonAds.api_urls me !! "report_url" = Some base ->
  (forall h, AmazonAds.pending (respond w h) = true) ->
  let r := AmazonAds.fetch_report_url_within budget me id w in
  fst r = Raise (TimeoutError "Timeout: Report not generated within specified retries.")
  /\ polled budget (AmazonAds.status_url base id) (sent w) (sent (snd r)).
Proof.
  intros Hbase Hpend. unfold AmazonAds.fetch_report_url_within. rewrite Hbase.
  set (url := AmazonAds.status_url base id).
  destruct (while_retries_log sent (Request GET url JNull) (AmazonAds.poll_once url) (sleep 300)
              (ads_poll_once_sent url) (fun w => eq_refl) (fun w => eq_refl) budget 0 w)
    as (k & Hk & Hle & Hex).
  assert (Hnone : fst (while_retries budget 0 (AmazonAds.poll_once url) (sleep 300) w)
                  = Return None).
  { apply (while_retries_exhausts (AmazonAds.poll_once url) (sleep 300) (fun w => eq_refl)
             (fun w' => respond w' = respond w)); [|reflexivity].
    intros n w' Hw'. split.
    - apply ads_pending_poll. rewrite Hw'. apply Hpend.
    - simpl. rewrite ads_poll_once_respond. exact Hw'. }
  specialize (Hex Hnone). unfold polled, bind. simpl.
  destruct (while_retries budget 0 _ _ w) as [[[v|]|e] w1]; simpl in *; try discriminate.
  split; [reflexivity|]. rewrite Hk, Hex. f_equal. f_equal. lia.
Qed.

Lemma instacart_fetch_within_budget budget me id w :
  exists k url, k <= budget
    /\ polled k url (sent w) (sent (snd (Instacart.fetch_report_url_within budget me id w))).
Proof.
  unfold Instacart.fetch_report_url_within.
  destruct (Instacart.api_urls me !! "report_url") as [base|].
  2:{ exists 0, "". split; [lia | reflexivity]. }
  set (url := Instacart.status_url base id).
  destruct (while_retries_log sent (Request GET url JNull) (Instacart.poll_once url) (sleep 300)
              (instacart_poll_once_sent url) (fun w => eq_refl) (fun w => eq_refl) budget 0 w)
    as (k & Hk & Hle & _).
  exists k, url. split; [lia|]. unfold polled, bind.
  destruct (while_retries budget 0 _ _ w) as [[[v|]|e] w1]; exact Hk.
Qed.

Lemma instacart_fetch_times_out budget me id base w :
  Instacart.api_urls me !! "report_url" = Some base ->
  (forall h, Instacart.pending (respond w h) = true) ->
  let r := Instacart.fetch_report_url_within budget me id w in
  fst r = Raise (TimeoutError "Timeout: Report not generated within specified retries.")
  /\ polled budget (Instacart.status_url base id) (sent w) (sent (snd r)).
Proof.
  intros Hbase Hpend. unfold Instacart.fetch_report_url_within. rewrite Hbase.
  set (url := Instacart.status_url base id).
  destruct (while_retries_log sent (Request GET url JNull) (Instacart.poll_once url) (sleep 300)
              (instacart_poll_once_sent url) (fun w => eq_refl) (fun w => eq_refl) budget 0 w)
    as (k & Hk & Hle & Hex).
  assert (Hnone : fst (while_retries budget 0 (Instacart.poll_once url) (sleep 300) w)
                  = Return None).
  { apply (while_retries_exhausts (Instacart.poll_once url) (sleep 300) (fun w => eq_refl)
             (fun w' => respond w' = respond w)); [|reflexivity].
    intros n w' Hw'. split.
    - apply instacart_pending_poll. rewrite Hw'. apply Hpend.
    - simpl. rewrite instacart_poll_once_respond. exact Hw'. }
  specialize (Hex Hnone). unfold polled, bind. simpl.
  destruct (while_retries budget 0 _ _ w) as [[[v|]|e] w1]; simpl in *; try discriminate.
  split; [reflexivity|]. rewrite Hk, Hex. f_equal. f_equal. lia.
Qed.

Lemma amc_lift_sleep_sent n st :
  sent (AMC.outside (snd (AMC.lift (sleep n) st))) = sent (AMC.outside st).
Proof. reflexivity. Qed.

Lemma amc_fetch_within_budget budget me id st :
  exists k url, k <= budget
    /\ polled k url (sent (AMC.outside st))
         (sent (AMC.outside (snd (AMC.fetch_report_url_within budget me id st)))).
Proof.
  unfold AMC.fetch_report_url_within.
  destruct (AMC.api_urls me !! "report_url") as [base|].
  2:{ exists 0, "". split; [lia | reflexivity]. }
  destruct id as [| | |id| |]; try (exists 0, ""; split; [lia | reflexivity]).
  set (surl := AMC.status_url me base id).
  set (url := surl +:+ "/downloadUrls").
  destruct (while_retries_log (fun st => sent (AMC.outside st)) (Request GET surl JNull)
              (AMC.poll_once url surl id) (AMC.lift (sleep 180))
              (amc_poll_once_sent url surl id) (fun w => eq_refl) (fun w => eq_refl) budget 0 st)
    as (k & Hk & Hle & _).
  exists k, surl. split; [lia|]. unfold polled, bind.
  destruct (while_retries budget 0 _ _ st) as [[[v|]|e] w1]; exact Hk.
Qed.

Lemma amc_fetch_times_out budget me id base st :
  AMC.api_urls me !! "report_url" = Some base ->
  (forall h, AMC.pending (respond (AMC.outside st) h) = true) ->
  let r := AMC.fetch_report_url_within budget me (JStr id) st in
  fst r = Raise (TimeoutError "Timeout: Report not generated within specified retries.")
  /\ polled budget (AMC.status_url me base id) (sent (AMC.outside st))
       (sent (AMC.outside (snd r))).
Proof.
  intros Hbase Hpend. unfold AMC.fetch_report_url_within. rewrite Hbase.
  set (surl := AMC.status_url me base id).
  set (url := surl +:+ "/downloadUrls").
  destruct (while_retries_log (fun st => sent (AMC.outside st)) (Request GET surl JNull)
              (AMC.poll_once url surl id) (AMC.lift (sleep 180))
              (amc_poll_once_sent url surl id) (fun w => eq_refl) (fun w => eq_refl) budget 0 st)
    as (k & Hk & Hle & Hex).
  assert (Hnone : fst (while_retries budget 0 (AMC.poll_once url surl id) (AMC.lift (sleep 180)) st)
                  = Return None).
  { apply (while_retries_exhausts (AMC.poll_once url surl id) (AMC.lift (sleep 180))
             (fun w => eq_refl)
             (fun st' => respond (AMC.outside st') = respond (AMC.outside st))); [|reflexivity].
    intros n st' Hst'. split.
    - apply amc_pending_poll. rewrite Hst'. apply Hpend.
    - simpl. rewrite amc_poll_once_respond. exact Hst'. }
  specialize (Hex Hnone). unfold polled, bind. simpl.
  destruct (while_retries budget 0 _ _ st) as [[[v|]|e] w1]; simpl in *; try discriminate.
  split; [reflexivity|]. rewrite Hk, Hex. f_equal. f_equal. lia.
Qed.

(** C1.  Whatever the job id and the retry budget, each of the three pollers
    (Amazon Ads, Instacart, Amazon Marketing Cloud) sends nothing but status
    GETs and at most [budget] of them; and when every status answer leaves
    the job unfinished, it sends exactly [budget] polls and then raises
    [TimeoutError]. *)
Theorem poller_stays_within_budget :
  (forall budget me id w,
      (exists k url, k <= budget
         /\ polled k url (sent w) (sent (snd (AmazonAds.fetch_report_url_within budget me id w))))
      /\ forall base,
          AmazonAds.api_urls me !! "report_url" = Some base ->
          (forall h, AmazonAds.pending (respond w h) = true) ->
          fst (AmazonAds.fetch_report_url_within budget me id w)
            = Raise (TimeoutError "Timeout: Report not generated within specified retries.")
          /\ polled budget (AmazonAds.status_url base id) (sent w)
               (sent (snd (AmazonAds.fetch_report_url_within budget me id w))))
  /\ (forall budget me id w,
      (exists k url, k <= budget
         /\ polled k url (sent w) (sent (snd (Instacart.fetch_report_url_within budget me id w))))
      /\ forall base,
          Instacart.api_urls me !! "report_url" = Some base ->
          (forall h, Instacart.pending (respond w h) = true) ->
          fst (Instacart.fetch_report_url_within budget me id w)
            = Raise (TimeoutError "Timeout: Report not generated within specified retries.")
          /\ polled budget (Instacart.status_url base id) (sent w)
               (sent (snd (Instacart.fetch_report_url_within budget me id w))))
  /\ (forall budget me id st,
      (exists k url, k <= budget
         /\ polled k url (sent (AMC.outside st))
              (sent (AMC.outside (snd (AMC.fetch_report_url_within budget me (JStr id) st)))))
      /\ forall base,
          AMC.api_urls me !! "report_url" = Some base ->
          (forall h, AMC.pending (respond (AMC.outside st) h) = true) ->
          fst (AMC.fetch_report_url_within budget me (JStr id) st)
            = Raise (TimeoutError "Timeout: Report not generated within specified retries.")
          /\ polled budget (AMC.status_url me base id) (sent (AMC.outside st))
               (sent (AMC.outside (snd (AMC.fetch_report_url_within budget me (JStr id) st))))).
Proof.
  split; [|split]; intros budget me id w; split.
  - apply ads_fetch_within_budget.
  - intros base Hbase Hpend. now apply ads_fetch_times_out.
  - apply instacart_fetch_within_budget.
  - intros base Hbase Hpend. now apply instacart_fetch_times_out.
  - apply amc_fetch_within_budget.
  - intros base Hbase Hpend. now apply amc_fetch_times_out.
Qed.

Lemma poller_stays_within_budget_witness :
  let w := Scenario.fresh (Scenario.always (Scenario.status_is "IN_PROGRESS")) in
  (AmazonAds.api_urls Scenario.ads !! "report_url" = Some "https://ads.example/reporting/reports"
   /\ forall h, AmazonAds.pending (respond w h) = true)
  /\ fst (AmazonAds.fetch_report_url Scenario.ads (JStr "job-1") w)
       = Raise (TimeoutError "Timeout: Report not generated within specified retries.")
  /\ polled 15 "https://ads.example/reporting/reports/job-1" []
       (sent (snd (AmazonAds.fetch_report_url Scenario.ads (JStr "job-1") w))).
Proof.
  intros w.
  assert (Hbase : AmazonAds.api_urls Scenario.ads !! "report_url"
                  = Some "https://ads.example/reporting/reports") by reflexivity.
  assert (Hpend : forall h, AmazonAds.pending (respond w h) = true) by (intros h; reflexivity).
  split; [split; assumption|].
  exact (proj2 (proj1 poller_stays_within_budget 15 Scenario.ads (JStr "job-1") w)
           _ Hbase Hpend).
Defined.

(** ** How a status word is handled *)

Lemma ads_status_handling url n w code body d s :
  respond w (Request GET url JNull :: sent w) = Response code body (Some (JDict d)) ->
  (400 <=? code)%nat && (code <? 600)%nat = false ->
  assoc "status" d = Some (JStr s) ->
  (s = "COMPLETED" -> fst (AmazonAds.poll_once url n w) <> Return None)
  /\ (s = "FAILURE" ->
      fst (AmazonAds.poll_once url n w) = Raise (Exception "Report generation failed."))
  /\ (s <> "COMPLETED" -> s <> "FAILURE" -> fst (AmazonAds.poll_once url n w) = Return None).
Proof.
  intros Hr Hc Hs.
  unfold AmazonAds.poll_once, bind, send, raise_for_status. simpl.
  rewrite Hr. simpl. rewrite Hc. simpl. rewrite Hs. simpl.
  destruct (String.eqb_spec s "COMPLETED") as [->|Hne1]; simpl.
  - split; [|split]; [| discriminate | congruence].
    intros _. destruct (assoc "url" d) as [[| | | |[|]|]|]; simpl; discriminate.
  - destruct (String.eqb_spec s "FAILURE") as [->|Hne2]; simpl.
    + split; [|split]; [discriminate | reflexivity | congruence].
    + split; [|split]; [congruence | congruence | reflexivity].
Qed.

Lemma instacart_status_handling url n w code body j attributes s :
  respond w (Request GET url JNull :: sent w) = Response code body (Some j) ->
  (400 <=? code)%nat && (code <? 600)%nat = false ->
  Instacart.attributes_of j = Some attributes ->
  assoc "status" attributes = Some (JStr s) ->
  (s = "completed" -> fst (Instacart.poll_once url n w) <> Return None)
  /\ (s = "FAILURE" ->
      fst (Instacart.poll_once url n w) = Raise (Exception "Report generation failed."))
  /\ (s <> "completed" -> s <> "FAILURE" -> fst (Instacart.poll_once url n w) = Return None).
Proof.
  intros Hr Hc Ha Hs.
  assert (Hpoll : fst (Instacart.poll_once url n w) =
                  if String.eqb s "completed" then
                    match default (JList []) (assoc "s3_location" attributes) with
                    | JStr u => Return (Some [JStr u])
                    | JList [] => Raise (Exception "No URLs found in the response.")
                    | JList l => Return (Some l)
                    | _ => Raise (TypeError "Expected 'url' to be a list or a single string.")
                    end
                  else if String.eqb s "FAILURE"
                  then Raise (Exception "Report generation failed.")
                  else Return None).
  { unfold Instacart.poll_once, bind, send, raise_for_status. simpl.
    rewrite Hr. simpl. rewrite Hc. simpl.
    unfold Instacart.attributes_of in Ha.
    destruct j as [| | | | |d]; try discriminate. simpl.
    destruct (assoc "data" d) as [[| | | | |data]|]; simpl in *; try discriminate.
    - destruct (assoc "attributes" data) as [[| | | | |attrs]|]; simpl in *; try discriminate;
        injection Ha as <-; simpl in *; try discriminate.
      rewrite Hs. simpl.
      destruct (String.eqb s "completed"); simpl.
      + destruct (assoc "s3_location" attrs) as [[| | | |[|]|]|]; reflexivity.
      + destruct (String.eqb s "FAILURE"); reflexivity.
    - injection Ha as <-. discriminate. }
  rewrite Hpoll.
  destruct (String.eqb_spec s "completed") as [->|Hne1]; simpl.
  - split; [|split]; [| discriminate | congruence].
    intros _. destruct (assoc "s3_location" attributes) as [[| | | |[|]|]|]; simpl; discriminate.
  - destruct (String.eqb_spec s "FAILURE") as [->|Hne2]; simpl.
    + split; [|split]; [discriminate | reflexivity | congruence].
    + split; [|split]; [congruence | congruence | reflexivity].
Qed.

Lemma amc_status_handling url status_url id n st code body d s :
  respond (AMC.outside st) (Request GET status_url JNull :: sent (AMC.outside st))
    = Response code body (Some (JDict d)) ->
  (400 <=? code)%nat && (code <? 600)%nat = false ->
  assoc "status" d = Some (JStr s) ->
  (s = "SUCCEEDED" -> fst (AMC.poll_once url status_url id n st) = Return (Some [url]))
  /\ (s = "FAILURE" \/ s = "REJECTED" ->
      AMC.poll_once url status_url id n st
      = (Return (Some [""]),
         AMC.State (record_request (Request GET status_url JNull) (AMC.outside st))
           [("workflowID", JStr id); ("date", JNull); ("report_type", JNull);
            ("status", JStr s)]))
  /\ (s <> "SUCCEEDED" -> s <> "FAILURE" -> s <> "REJECTED" ->
      fst (AMC.poll_once url status_url id n st) = Return None).
Proof.
  intros Hr Hc Hs.
  unfold AMC.poll_once, bind, AMC.lift, send, raise_for_status. simpl.
  rewrite Hr. simpl. rewrite Hc. simpl. rewrite Hs. simpl.
  destruct (String.eqb_spec s "SUCCEEDED") as [->|Hne1]; simpl.
  - split; [|split]; [reflexivity | intros [?|?]; discriminate | congruence].
  - destruct (String.eqb_spec s "FAILURE") as [->|Hne2]; simpl.
    + split; [|split]; [discriminate | reflexivity | congruence].
    + destruct (String.eqb_spec s "REJECTED") as [->|Hne3]; simpl.
      * split; [|split]; [discriminate | reflexivity | congruence].
      * split; [|split]; [congruence | intros [?|?]; congruence | reflexivity].
Qed.

(** C2, as amended.  A status word received while polling is handled in
    exactly one of three ways, and none of them consults a vocabulary: the
    vendor's word for success (COMPLETED for Amazon Ads, completed for
    Instacart, SUCCEEDED for Amazon Marketing Cloud) ends polling; FAILURE
    (and REJECTED for Amazon Marketing Cloud) ends it as a failure, raised by
    Amazon Ads and Instacart and recorded in [wf_status] by Amazon Marketing
    Cloud; every other word, known to the vendor or not, raises nothing and
    leaves the job to be polled again. *)
Theorem status_words_handled :
  (forall url n w code body d s,
      respond w (Request GET url JNull :: sent w) = Response code body (Some (JDict d)) ->
      (400 <=? code)%nat && (code <? 600)%nat = false ->
      assoc "status" d = Some (JStr s) ->
      (s = "COMPLETED" -> fst (AmazonAds.poll_once url n w) <> Return None)
      /\ (s = "FAILURE" ->
          fst (AmazonAds.poll_once url n w) = Raise (Exception "Report generation failed."))
      /\ (s <> "COMPLETED" -> s <> "FAILURE" ->
          fst (AmazonAds.poll_once url n w) = Return None))
  /\ (forall url n w code body j attributes s,
      respond w (Request GET url JNull :: sent w) = Response code body (Some j) ->
      (400 <=? code)%nat && (code <? 600)%nat = false ->
      Instacart.attributes_of j = Some attributes ->
      assoc "status" attributes = Some (JStr s) ->
      (s = "completed" -> fst (Instacart.poll_once url n w) <> Return None)
      /\ (s = "FAILURE" ->
          fst (Instacart.poll_once url n w) = Raise (Exception "Report generation failed."))
      /\ (s <> "completed" -> s <> "FAILURE" ->
          fst (Instacart.poll_once url n w) = Return None))
  /\ (forall url status_url id n st code body d s,
      respond (AMC.outside st) (Request GET status_url JNull :: sent (AMC.outside st))
        = Response code body (Some (JDict d)) ->
      (400 <=? code)%nat && (code <? 600)%nat = false ->
      assoc "status" d = Some (JStr s) ->
      (s = "SUCCEEDED" -> fst (AMC.poll_once url status_url id n st) = Return (Some [url]))
      /\ (s = "FAILURE" \/ s = "REJECTED" ->
          AMC.poll_once url status_url id n st
          = (Return (Some [""]),
             AMC.State (record_request (Request GET status_url JNull) (AMC.outside st))
               [("workflowID", JStr id); ("date", JNull); ("report_type", JNull);
                ("status", JStr s)]))
      /\ (s <> "SUCCEEDED" -> s <> "FAILURE" -> s <> "REJECTED" ->
          fst (AMC.poll_once url status_url id n st) = Return None)).
Proof.
  split; [|split].
  - intros. eapply ads_status_handling; eassumption.
  - intros. eapply instacart_status_handling; eassumption.
  - intros. eapply amc_status_handling; eassumption.
Qed.

Lemma status_words_handled_witness :
  let w := Scenario.fresh (Scenario.always (Scenario.status_is "BOGUS")) in
  let url := "https://ads.example/reporting/reports/job-1" in
  (respond w (Request GET url JNull :: sent w)
     = Response 200 "" (Some (JDict [("status", JStr "BOGUS")]))
   /\ (400 <=? 200)%nat && (200 <? 600)%nat = false
   /\ assoc "status" [("status", JStr "BOGUS")] = Some (JStr "BOGUS")
   /\ "BOGUS" <> "COMPLETED" /\ "BOGUS" <> "FAILURE")
  /\ fst (AmazonAds.poll_once url 0 w) = Return None.
Proof.
  intros w url.
  assert (H1 : respond w (Request GET url JNull :: sent w)
               = Response 200 "" (Some (JDict [("status", JStr "BOGUS")]))) by reflexivity.
  assert (H2 : (400 <=? 200)%nat && (200 <? 600)%nat = false) by reflexivity.
  assert (H3 : assoc "status" [("status", JStr "BOGUS")] = Some (JStr "BOGUS")) by reflexivity.
  assert (H4 : "BOGUS" <> "COMPLETED") by discriminate.
  assert (H5 : "BOGUS" <> "FAILURE") by discriminate.
  split; [repeat split; assumption|].
  exact (proj2 (proj2 (proj1 status_words_handled url 0 w 200 "" _ "BOGUS" H1 H2 H3)) H4 H5).
Defined.

(** C2, the claim as first stated, fails: an Amazon Ads job whose first
    status answer is the unknown word BOGUS and whose second is COMPLETED is
    polled twice and its URL returned; the unknown word raised nothing. *)
Lemma unknown_status_word_is_polled_again :
  let w := Scenario.fresh (Scenario.scripted
             [Scenario.status_is "BOGUS";
              Scenario.status_with_url "COMPLETED" Scenario.signed_url]) in
  fst (AmazonAds.poll_once "https://ads.example/reporting/reports/job-1" 0 w) = Return None
  /\ fst (AmazonAds.fetch_report_url Scenario.ads (JStr "job-1") w)
       = Return [JStr Scenario.signed_url]
  /\ polled 2 "https://ads.example/reporting/reports/job-1" []
       (sent (snd (AmazonAds.fetch_report_url Scenario.ads (JStr "job-1") w))).
Proof. vm_compute. repeat split. Qed.

(** ** Two unfinished answers, then success *)

Lemma ads_poll_once_world url n w :
  snd (AmazonAds.poll_once url n w) = record_request (Request GET url JNull) w.
Proof. unfold AmazonAds.poll_once. run_poll. Qed.

Lemma ads_poll_pending url n w :
  AmazonAds.pending (respond w (Request GET url JNull :: sent w)) = true ->
  AmazonAds.poll_once url n w = (Return None, record_request (Request GET url JNull) w).
Proof.
  intros H. rewrite (surjective_pairing (AmazonAds.poll_once url n w)).
  now rewrite ads_pending_poll, ads_poll_once_world.
Qed.

Lemma ads_poll_completed url n w code body d u :
  respond w (Request GET url JNull :: sent w) = Response code body (Some (JDict d)) ->
  (400 <=? code)%nat && (code <? 600)%nat = false ->
  assoc "status" d = Some (JStr "COMPLETED") ->
  assoc "url" d = Some (JStr u) ->
  AmazonAds.poll_once url n w
  = (Return (Some [JStr u]), record_request (Request GET url JNull) w).
Proof.
  intros Hr Hc Hs Hu.
  unfold AmazonAds.poll_once, bind, send, raise_for_status. simpl.
  rewrite Hr. simpl. rewrite Hc. simpl. rewrite Hs. simpl. rewrite Hu. reflexivity.
Qed.

Lemma amc_poll_pending url status_url id n st :
  AMC.pending (respond (AMC.outside st) (Request GET status_url JNull :: sent (AMC.outside st)))
    = true ->
  AMC.poll_once url status_url id n st
  = (Return None,
     AMC.State (record_request (Request GET status_url JNull) (AMC.outside st))
       (AMC.wf_status st)).
Proof.
  intros H. unfold AMC.poll_once, bind, AMC.lift, send. simpl.
  destruct (respond _ (_ :: sent _)) as [|code body [[]|]]; simpl in H; try discriminate.
  apply andb_prop in H as [H Hf]. apply andb_prop in H as [Hc Hs].
  apply negb_true_iff in Hc, Hs, Hf.
  unfold raise_for_status. simpl. rewrite Hc. simpl.
  destruct (assoc "status" d); simpl in *; rewrite ?Hs, ?Hf; reflexivity.
Qed.

Lemma amc_poll_succeeded url status_url id n st code body d :
  respond (AMC.outside st) (Request GET status_url JNull :: sent (AMC.outside st))
    = Response code body (Some (JDict d)) ->
  (400 <=? code)%nat && (code <? 600)%nat = false ->
  assoc "status" d = Some (JStr "SUCCEEDED") ->
  AMC.poll_once url status_url id n st
  = (Return (Some [url]),
     AMC.State (record_request (Request GET status_url JNull) (AMC.outside st))
       (AMC.wf_status st)).
Proof.
  intros Hr Hc Hs.
  unfold AMC.poll_once, bind, AMC.lift, send, raise_for_status. simpl.
  rewrite Hr. simpl. rewrite Hc. simpl. rewrite Hs. reflexivity.
Qed.

(** The world after three polls of [g] with a pause of [n] seconds between
    them. *)
Lemma ads_three_polls me base id w code body d u :
  AmazonAds.api_urls me !! "report_url" = Some base ->
  let g := Request GET (AmazonAds.status_url base id) JNull in
  AmazonAds.pending (respond w (g :: sent w)) = true ->
  AmazonAds.pending (respond w (g :: g :: sent w)) = true ->
  respond w (g :: g :: g :: sent w) = Response code body (Some (JDict d)) ->
  (400 <=? code)%nat && (code <? 600)%nat = false ->
  assoc "status" d = Some (JStr "COMPLETED") ->
  assoc "url" d = Some (JStr u) ->
  AmazonAds.fetch_report_url me id w
  = (Return [JStr u], three_polls g 300 w).
Proof.
  intros Hbase g H1 H2 H3 Hc Hs Hu. subst g.
  unfold AmazonAds.fetch_report_url, AmazonAds.fetch_report_url_within, AmazonAds.max_retries.
  rewrite Hbase. unfold bind.
  rewrite while_retries_again by lia.
  erewrite ads_poll_pending by exact H1. cbn [sleep modify].
  rewrite while_retries_again by lia.
  erewrite ads_poll_pending by exact H2. cbn [sleep modify].
  rewrite while_retries_again by lia.
  erewrite ads_poll_completed by (try exact H3; eassumption).
  reflexivity.
Qed.

Lemma amc_three_polls me base id st code body d :
  AMC.api_urls me !! "report_url" = Some base ->
  let g := Request GET (AMC.status_url me base id) JNull in
  let w := AMC.outside st in
  AMC.pending (respond w (g :: sent w)) = true ->
  AMC.pending (respond w (g :: g :: sent w)) = true ->
  respond w (g :: g :: g :: sent w) = Response code body (Some (JDict d)) ->
  (400 <=? code)%nat && (code <? 600)%nat = false ->
  assoc "status" d = Some (JStr "SUCCEEDED") ->
  AMC.fetch_report_url me (JStr id) st
  = (Return [AMC.status_url me base id +:+ "/downloadUrls"],
     AMC.State (three_polls g 180 w) (AMC.wf_status st)).
Proof.
  intros Hbase g w H1 H2 H3 Hc Hs. subst g w.
  unfold AMC.fetch_report_url, AMC.fetch_report_url_within, AMC.max_retries.
  rewrite Hbase. unfold bind.
  rewrite while_retries_again by lia.
  erewrite amc_poll_pending by exact H1.
  cbn [AMC.lift sleep modify AMC.outside AMC.wf_status].
  rewrite while_retries_again by lia.
  erewrite amc_poll_pending by exact H2.
  cbn [AMC.lift sleep modify AMC.outside AMC.wf_status].
  rewrite while_retries_again by lia.
  erewrite amc_poll_succeeded by (try exact H3; eassumption).
  reflexivity.
Qed.

(** C3, as amended.  When the first two status answers leave the job
    unfinished (IN_PROGRESS, say) and the third carries the vendor's word for
    success, the poller sends exactly three status polls, pausing after each of
    the first two, and returns a one-element list: for Amazon Ads (word
    COMPLETED) the URL [u] of the answer's [url] field; for Amazon Marketing
    Cloud (word SUCCEEDED) the job's own [downloadUrls] endpoint, whatever
    the answer carries. *)
Theorem three_polls_then_success :
  (forall me base id w code body d u,
      AmazonAds.api_urls me !! "report_url" = Some base ->
      let g := Request GET (AmazonAds.status_url base id) JNull in
      AmazonAds.pending (respond w (g :: sent w)) = true ->
      AmazonAds.pending (respond w (g :: g :: sent w)) = true ->
      respond w (g :: g :: g :: sent w) = Response code body (Some (JDict d)) ->
      (400 <=? code)%nat && (code <? 600)%nat = false ->
      assoc "status" d = Some (JStr "COMPLETED") ->
      assoc "url" d = Some (JStr u) ->
      AmazonAds.fetch_report_url me id w = (Return [JStr u], three_polls g 300 w))
  /\ (forall me base id st code body d,
      AMC.api_urls me !! "report_url" = Some base ->
      let g := Request GET (AMC.status_url me base id) JNull in
      let w := AMC.outside st in
      AMC.pending (respond w (g :: sent w)) = true ->
      AMC.pending (respond w (g :: g :: sent w)) = true ->
      respond w (g :: g :: g :: sent w) = Response code body (Some (JDict d)) ->
      (400 <=? code)%nat && (code <? 600)%nat = false ->
      assoc "status" d = Some (JStr "SUCCEEDED") ->
      AMC.fetch_report_url me (JStr id) st
      = (Return [AMC.status_url me base id +:+ "/downloadUrls"],
         AMC.State (three_polls g 180 w) (AMC.wf_status st))).
Proof.
  split.
  - intros. eapply ads_three_polls; eassumption.
  - intros. eapply amc_three_polls; eassumption.
Qed.

Lemma three_polls_then_success_witness :
  let w := Scenario.fresh (Scenario.scripted
             [Scenario.status_is "IN_PROGRESS"; Scenario.status_is "IN_PROGRESS";
              Scenario.status_with_url "COMPLETED" Scenario.signed_url]) in
  let g := Request GET "https://ads.example/reporting/reports/job-1" JNull in
  (AmazonAds.api_urls Scenario.ads !! "report_url"
     = Some "https://ads.example/reporting/reports"
   /\ AmazonAds.pending (respond w [g]) = true
   /\ AmazonAds.pending (respond w [g; g]) = true
   /\ respond w [g; g; g] = Scenario.status_with_url "COMPLETED" Scenario.signed_url)
  /\ AmazonAds.fetch_report_url Scenario.ads (JStr "job-1") w
     = (Return [JStr Scenario.signed_url], three_polls g 300 w).
Proof.
  intros w g.
  assert (H0 : AmazonAds.api_urls Scenario.ads !! "report_url"
               = Some "https://ads.example/reporting/reports") by reflexivity.
  assert (H1 : AmazonAds.pending (respond w [g]) = true) by reflexivity.
  assert (H2 : AmazonAds.pending (respond w [g; g]) = true) by reflexivity.
  assert (H3 : respond w [g; g; g]
               = Scenario.status_with_url "COMPLETED" Scenario.signed_url) by reflexivity.
  split; [repeat split; assumption|].
  exact (proj1 three_polls_then_success Scenario.ads _ (JStr "job-1") w 200 ""
           [("status", JStr "COMPLETED"); ("url", JStr Scenario.signed_url)]
           Scenario.signed_url H0 H1 H2 H3 eq_refl eq_refl eq_refl).
Defined.

(** C3, the claim as first stated, fails on both pollers it names.  With
    IN_PROGRESS twice and then SUCCEEDED with [url = U]: the Amazon Marketing
    Cloud poller does stop after three polls, but what it returns is the
    job's [downloadUrls] endpoint and not [U]; the Amazon Ads poller does not
    know the word SUCCEEDED, uses up its fifteen polls and raises
    [TimeoutError]. *)
Lemma succeeded_with_url_is_not_returned :
  let vendor := Scenario.then_always
                  [Scenario.status_is "IN_PROGRESS"; Scenario.status_is "IN_PROGRESS"]
                  (Scenario.status_with_url "SUCCEEDED" Scenario.signed_url) in
  let amc_run := AMC.fetch_report_url Scenario.amc (JStr "job-1") (Scenario.amc_fresh vendor) in
  let ads_run := AmazonAds.fetch_report_url Scenario.ads (JStr "job-1") (Scenario.fresh vendor) in
  fst amc_run
    = Return ["https://amc.example/amc/reporting/inst/workflowExecutions/job-1/downloadUrls"]
  /\ String.eqb "https://amc.example/amc/reporting/inst/workflowExecutions/job-1/downloadUrls"
       Scenario.signed_url = false
  /\ polled 3 "https://amc.example/amc/reporting/inst/workflowExecutions/job-1" []
       (sent (AMC.outside (snd amc_run)))
  /\ fst ads_run
     = Raise (TimeoutError "Timeout: Report not generated within specified retries.")
  /\ polled 15 "https://ads.example/reporting/reports/job-1" [] (sent (snd ads_run)).
Proof. vm_compute. repeat split. Qed.

(** ** An unfinished answer, then a failure *)

Lemma ads_poll_failure url n w code body d :
  respond w (Request GET url JNull :: sent w) = Response code body (Some (JDict d)) ->
  (400 <=? code)%nat && (code <? 600)%nat = false ->
  assoc "status" d = Some (JStr "FAILURE") ->
  AmazonAds.poll_once url n w
  = (Raise (Exception "Report generation failed."), record_request (Request GET url JNull) w).
Proof.
  intros Hr Hc Hs.
  unfold AmazonAds.poll_once, bind, send, raise_for_status. simpl.
  rewrite Hr. simpl. rewrite Hc. simpl. rewrite Hs. reflexivity.
Qed.

Lemma ads_failure_raises fetch_report_data me base key start_date_iso end_date_iso
    report_config end_date_obj w report_id w1 code body d :
  AmazonAds.create_report_request me key start_date_iso end_date_iso report_config w
    = (Return report_id, w1) ->
  AmazonAds.api_urls me !! "report_url" = Some base ->
  let g := Request GET (AmazonAds.status_url base report_id) JNull in
  AmazonAds.pending (respond w1 (g :: sent w1)) = true ->
  respond w1 (g :: g :: sent w1) = Response code body (Some (JDict d)) ->
  (400 <=? code)%nat && (code <? 600)%nat = false ->
  assoc "status" d = Some (JStr "FAILURE") ->
  AmazonAds.process_report_config fetch_report_data me key start_date_iso end_date_iso
    report_config end_date_obj w
  = (Raise (Exception "Report generation failed."),
     record_request g (record_sleep 300 (record_request g w1))).
Proof.
  intros Hcreate Hbase g H1 H2 Hc Hs. subst g.
  unfold AmazonAds.process_report_config.
  rewrite (bind_Return _ _ _ _ _ Hcreate).
  apply bind_Raise.
  unfold AmazonAds.fetch_report_url, AmazonAds.fetch_report_url_within, AmazonAds.max_retries.
  rewrite Hbase. apply bind_Raise.
  rewrite while_retries_again by lia.
  erewrite ads_poll_pending by exact H1. cbn [sleep modify].
  rewrite while_retries_again by lia.
  erewrite ads_poll_failure by (try exact H2; eassumption).
  reflexivity.
Qed.

Lemma amc_poll_failure url status_url id n st code body d s :
  respond (AMC.outside st) (Request GET status_url JNull :: sent (AMC.outside st))
    = Response code body (Some (JDict d)) ->
  (400 <=? code)%nat && (code <? 600)%nat = false ->
  assoc "status" d = Some (JStr s) ->
  s = "FAILURE" \/ s = "REJECTED" ->
  AMC.poll_once url status_url id n st
  = (Return (Some [""]),
     AMC.State (record_request (Request GET status_url JNull) (AMC.outside st))
       (AMC.failure_row id s)).
Proof.
  intros Hr Hc Hs Hf.
  exact (proj1 (proj2 (amc_status_handling url status_url id n st code body d s Hr Hc Hs)) Hf).
Qed.

Lemma amc_failure_recorded append_row format_beyond me base report_type key start_date
    start_date_iso end_date_iso report_config start_date_obj st id st1 code body d s
    old_log new_log log_key :
  AMC.create_report_request me report_type start_date_iso end_date_iso report_config st
    = (Return (JStr id), st1) ->
  AMC.api_urls me !! "report_url" = Some base ->
  let g := Request GET (AMC.status_url me base id) JNull in
  let w1 := AMC.outside st1 in
  AMC.pending (respond w1 (g :: sent w1)) = true ->
  respond w1 (g :: g :: sent w1) = Response code body (Some (JDict d)) ->
  (400 <=? code)%nat && (code <? 600)%nat = false ->
  assoc "status" d = Some (JStr s) ->
  s = "FAILURE" \/ s = "REJECTED" ->
  let row := dict_set "report_type" (JStr report_type)
               (dict_set "date" (JStr start_date) (AMC.failure_row id s)) in
  disk w1 !! "workflow_status.csv" = Some old_log ->
  append_row old_log row = Some new_log ->
  AMC.failure_log_key format_beyond me key start_date_obj (today w1) = Return log_key ->
  s3_refuses w1 (AMC.bucket_nm me) log_key = false ->
  AMC.process_report_config append_row format_beyond me report_type key start_date
    start_date_iso end_date_iso report_config start_date_obj st
  = (Return tt,
     AMC.State
       (World (respond w1) (g :: g :: sent w1) (180 :: slept w1)
          (<["workflow_status.csv" := new_log]> (disk w1))
          (<[(AMC.bucket_nm me, log_key) := new_log]> (s3 w1))
          (s3_refuses w1) (tmp_count w1) (today w1))
       row).
Proof.
  intros Hcreate Hbase g w1 H1 H2 Hc Hs Hf row Hdisk Happend Hkey Hs3.
  unfold AMC.process_report_config.
  rewrite (bind_Return _ _ _ _ _ Hcreate).
  assert (Hfetch : AMC.fetch_report_url me (JStr id) st1
                   = (Return [""],
                      AMC.State (record_request g (record_sleep 180 (record_request g w1)))
                        (AMC.failure_row id s))).
  { unfold AMC.fetch_report_url, AMC.fetch_report_url_within, AMC.max_retries.
    rewrite Hbase. unfold bind.
    rewrite while_retries_again by lia.
    erewrite amc_poll_pending by exact H1.
    cbn [AMC.lift sleep modify AMC.outside AMC.wf_status].
    rewrite while_retries_again by lia.
    erewrite amc_poll_failure by (try exact H2; eassumption).
    reflexivity. }
  rewrite (bind_Return _ _ _ _ _ Hfetch).
  subst g w1 row. unfold AMC.failure_log_key in Hkey.
  cbn [negb String.eqb].
  unfold AMC.record_failure, bind, get, AMC.set_wf_status, modify, AMC.lift,
    ReportProcessor.read_file, ReportProcessor.upload_to_destination,
    ReportProcessor.write_file, bind, get, modify, ret, raise.
  cbn [AMC.outside AMC.wf_status disk record_request record_sleep set_disk set_s3
       s3 s3_refuses today fst snd].
  rewrite Hdisk, Happend.
  cbn [AMC.outside AMC.wf_status disk record_request record_sleep set_disk set_s3
       s3 s3_refuses today fst snd].
  rewrite Hkey.
  unfold ReportProcessor.read_file, bind, get, ret, raise.
  cbn [AMC.outside AMC.wf_status disk record_request record_sleep set_disk set_s3
       s3 s3_refuses today fst snd].
  rewrite lookup_insert_eq.
  cbn [AMC.outside AMC.wf_status disk record_request record_sleep set_disk set_s3
       s3 s3_refuses today fst snd].
  rewrite Hs3. reflexivity.
Qed.

(** C4, as amended.  A job whose first status answer leaves it unfinished
    and whose second carries the word the poller tests for a failed job:
    FAILURE, and for Amazon Marketing Cloud also REJECTED.  What follows is
    fixed for each vendor in its code.  Amazon Ads raises: the run ends in
    the exception, two polls after the creation call, and since this holds
    for every [fetch_report_data], that pipeline is not called.  Amazon
    Marketing Cloud records: the completed status row is appended to
    [workflow_status.csv] and, when the key of the failure log can be
    formatted and S3 takes the upload, that file is uploaded as the failure
    log; nothing is downloaded, and the run returns without an exception. *)
Theorem failed_job_raises_or_is_recorded :
  (forall fetch_report_data me base key start_date_iso end_date_iso report_config
          end_date_obj w report_id w1 code body d,
      AmazonAds.create_report_request me key start_date_iso end_date_iso report_config w
        = (Return report_id, w1) ->
      AmazonAds.api_urls me !! "report_url" = Some base ->
      let g := Request GET (AmazonAds.status_url base report_id) JNull in
      AmazonAds.pending (respond w1 (g :: sent w1)) = true ->
      respond w1 (g :: g :: sent w1) = Response code body (Some (JDict d)) ->
      (400 <=? code)%nat && (code <? 600)%nat = false ->
      assoc "status" d = Some (JStr "FAILURE") ->
      AmazonAds.process_report_config fetch_report_data me key start_date_iso end_date_iso
        report_config end_date_obj w
      = (Raise (Exception "Report generation failed."),
         record_request g (record_sleep 300 (record_request g w1))))
  /\ (forall append_row format_beyond me base report_type key start_date start_date_iso
             end_date_iso report_config start_date_obj st id st1 code body d s old_log
             new_log log_key,
      AMC.create_report_request me report_type start_date_iso end_date_iso report_config st
        = (Return (JStr id), st1) ->
      AMC.api_urls me !! "report_url" = Some base ->
      let g := Request GET (AMC.status_url me base id) JNull in
      let w1 := AMC.outside st1 in
      AMC.pending (respond w1 (g :: sent w1)) = true ->
      respond w1 (g :: g :: sent w1) = Response code body (Some (JDict d)) ->
      (400 <=? code)%nat && (code <? 600)%nat = false ->
      assoc "status" d = Some (JStr s) ->
      s = "FAILURE" \/ s = "REJECTED" ->
      let row := dict_set "report_type" (JStr report_type)
                   (dict_set "date" (JStr start_date) (AMC.failure_row id s)) in
      disk w1 !! "workflow_status.csv" = Some old_log ->
      append_row old_log row = Some new_log ->
      AMC.failure_log_key format_beyond me key start_date_obj (today w1)
        = Return log_key ->
      s3_refuses w1 (AMC.bucket_nm me) log_key = false ->
      AMC.process_report_config append_row format_beyond me report_type key start_date
        start_date_iso end_date_iso report_config start_date_obj st
      = (Return tt,
         AMC.State
           (World (respond w1) (g :: g :: sent w1) (180 :: slept w1)
              (<["workflow_status.csv" := new_log]> (disk w1))
              (<[(AMC.bucket_nm me, log_key) := new_log]> (s3 w1))
              (s3_refuses w1) (tmp_count w1) (today w1))
           row)).
Proof.
  split.
  - intros. eapply ads_failure_raises; eassumption.
  - intros. eapply amc_failure_recorded; eassumption.
Qed.

Lemma failed_job_raises_or_is_recorded_witness :
  (let w := Scenario.fresh (Scenario.scripted
              [Scenario.ok (JDict [("reportId", JStr "job-1")]);
               Scenario.status_is "IN_PROGRESS"; Scenario.status_is "FAILURE"]) in
   let spy := fun (_ _ _ _ _ : string) (_ : Z) =>
                raise (W := world) (A := unit) (Exception "fetch_report_data was called") in
   let g := Request GET "https://ads.example/reporting/reports/job-1" JNull in
   let w1 := snd (AmazonAds.create_report_request Scenario.ads (Some "x") "2024-01-01"
                    "2024-01-01" Scenario.ads_report_config w) in
   (fst (AmazonAds.create_report_request Scenario.ads (Some "x") "2024-01-01" "2024-01-01"
           Scenario.ads_report_config w) = Return (JStr "job-1")
    /\ AmazonAds.pending (respond w1 (g :: sent w1)) = true
    /\ respond w1 (g :: g :: sent w1) = Scenario.status_is "FAILURE")
   /\ AmazonAds.process_report_config spy Scenario.ads (Some "x") "2024-01-01" "2024-01-01"
        Scenario.ads_report_config 19723%Z w
      = (Raise (Exception "Report generation failed."),
         record_request g (record_sleep 300 (record_request g w1))))
  /\ (let st := Scenario.amc_with_log (Scenario.scripted
                  [Scenario.ok (JDict [("workflowExecutionId", JStr "job-1")]);
                   Scenario.status_is "IN_PROGRESS"; Scenario.status_is "REJECTED"]) in
      let g := Request GET "https://amc.example/amc/reporting/inst/workflowExecutions/job-1"
                 JNull in
      let st1 := snd (AMC.create_report_request Scenario.amc "x" "2024-01-01" "2024-01-01"
                        Scenario.amc_report_config st) in
      let w1 := AMC.outside st1 in
      let row := [("workflowID", JStr "job-1"); ("date", JStr "20240101");
                  ("report_type", JStr "x"); ("status", JStr "REJECTED")] in
      let new_log := Scenario.log_header +:+ Scenario.csv_line row in
      let log_key := "de/amc/US/k/log/log_01012024.csv" in
      (fst (AMC.create_report_request Scenario.amc "x" "2024-01-01" "2024-01-01"
              Scenario.amc_report_config st) = Return (JStr "job-1")
       /\ AMC.pending (respond w1 (g :: sent w1)) = true
       /\ respond w1 (g :: g :: sent w1) = Scenario.status_is "REJECTED"
       /\ disk w1 !! "workflow_status.csv" = Some Scenario.log_header
       /\ AMC.failure_log_key Scenario.unformattable Scenario.amc "k" 19723%Z (today w1)
          = Return log_key)
      /\ AMC.process_report_config Scenario.append_line Scenario.unformattable Scenario.amc
           "x" "k" "20240101" "2024-01-01" "2024-01-01" Scenario.amc_report_config
           19723%Z st
         = (Return tt,
            AMC.State
              (World (respond w1) (g :: g :: sent w1) (180 :: slept w1)
                 (<["workflow_status.csv" := new_log]> (disk w1))
                 (<[("bucket", log_key) := new_log]> (s3 w1))
                 (s3_refuses w1) (tmp_count w1) (today w1))
              row)).
Proof.
  split.
  - intros w spy g w1.
    assert (H0 : AmazonAds.create_report_request Scenario.ads (Some "x") "2024-01-01"
                   "2024-01-01" Scenario.ads_report_config w = (Return (JStr "job-1"), w1))
      by reflexivity.
    assert (H1 : AmazonAds.pending (respond w1 (g :: sent w1)) = true) by reflexivity.
    assert (H2 : respond w1 (g :: g :: sent w1) = Scenario.status_is "FAILURE")
      by reflexivity.
    split; [split; [reflexivity | split; assumption]|].
    exact (proj1 failed_job_raises_or_is_recorded spy Scenario.ads
             "https://ads.example/reporting/reports" (Some "x") "2024-01-01" "2024-01-01"
             Scenario.ads_report_config 19723%Z w (JStr "job-1") w1 200 ""
             [("status", JStr "FAILURE")] H0 eq_refl H1 H2 eq_refl eq_refl).
  - intros st g st1 w1 row new_log log_key.
    assert (H0 : AMC.create_report_request Scenario.amc "x" "2024-01-01" "2024-01-01"
                   Scenario.amc_report_config st = (Return (JStr "job-1"), st1))
      by reflexivity.
    assert (H1 : AMC.pending (respond w1 (g :: sent w1)) = true) by reflexivity.
    assert (H2 : respond w1 (g :: g :: sent w1) = Scenario.status_is "REJECTED")
      by reflexivity.
    assert (H3 : disk w1 !! "workflow_status.csv" = Some Scenario.log_header)
      by reflexivity.
    assert (H4 : AMC.failure_log_key Scenario.unformattable Scenario.amc "k" 19723%Z
                   (today w1) = Return log_key) by reflexivity.
    split; [split; [reflexivity | repeat split; assumption]|].
    exact (proj2 failed_job_raises_or_is_recorded Scenario.append_line
             Scenario.unformattable Scenario.amc "https://amc.example" "x" "k" "20240101"
             "2024-01-01" "2024-01-01" Scenario.amc_report_config 19723%Z st "job-1" st1
             200 "" [("status", JStr "REJECTED")] "REJECTED" Scenario.log_header new_log
             log_key H0 eq_refl H1 H2 eq_refl eq_refl (or_intror eq_refl) H3 eq_refl H4
             eq_refl).
Defined.

(** C4, the claim as first stated, fails: neither poller knows the word
    FAILED, and a job that answers IN_PROGRESS and then FAILED is polled
    again as if it were unfinished.  Amazon Ads raises nothing at FAILED,
    and when a later answer is COMPLETED the run goes on to
    [fetch_report_data].  Amazon Marketing Cloud, with FAILED for every
    later answer, uses up its ten polls and ends in [TimeoutError]: no row
    is recorded and no failure log is uploaded. *)
Lemma failed_word_is_polled_again :
  let materialize := fun (url _ _ _ _ : string) (_ : Z) =>
                       ReportProcessor.write_file "fetch_report_data was given" url in
  let ads_run :=
    AmazonAds.process_report_config materialize Scenario.ads (Some "x") "2024-01-01"
      "2024-01-01" Scenario.ads_report_config 19723%Z
      (Scenario.fresh (Scenario.scripted
         [Scenario.ok (JDict [("reportId", JStr "job-1")]);
          Scenario.status_is "IN_PROGRESS"; Scenario.status_is "FAILED";
          Scenario.status_with_url "COMPLETED" Scenario.signed_url])) in
  let amc_run :=
    AMC.process_report_config Scenario.append_line Scenario.unformattable Scenario.amc
      "x" "k" "20240101" "2024-01-01" "2024-01-01" Scenario.amc_report_config 19723%Z
      (Scenario.amc_with_log (Scenario.then_always
         [Scenario.ok (JDict [("workflowExecutionId", JStr "job-1")]);
          Scenario.status_is "IN_PROGRESS"]
         (Scenario.status_is "FAILED"))) in
  fst ads_run = Return tt
  /\ disk (snd ads_run) !! "fetch_report_data was given" = Some Scenario.signed_url
  /\ polls_of "https://ads.example/reporting/reports/job-1" (sent (snd ads_run)) = 3
  /\ fst amc_run
     = Raise (TimeoutError "Timeout: Report not generated within specified retries.")
  /\ polls_of "https://amc.example/amc/reporting/inst/workflowExecutions/job-1"
       (sent (AMC.outside (snd amc_run))) = 10
  /\ AMC.wf_status (snd amc_run) = []
  /\ disk (AMC.outside (snd amc_run)) !! "workflow_status.csv" = Some Scenario.log_header
  /\ s3 (AMC.outside (snd amc_run)) = ∅.
Proof. vm_compute. repeat split. Qed.

(** ** Historical-file rotation *)

Lemma rev_app_append a b c :
  String.rev_app (a +:+ b) c = String.rev_app b (String.rev_app a c).
Proof. revert c. induction a as [|x a IH]; intros c; simpl; [reflexivity | apply IH]. Qed.

(** A Parquet key is no CSV key. *)
Lemma parquet_key_not_csv x : endswith (x +:+ ".parquet") ".csv" = false.
Proof. unfold endswith, String.rev. rewrite rev_app_append. reflexivity. Qed.

Lemma processed_key_not_csv me source_name table_name f :
  endswith (AWSConnection.processed_key me source_name table_name f) ".csv" = false.
Proof. apply parquet_key_not_csv. Qed.

Lemma to_move_csv me date_list source_name table_name k :
  AWSConnection.to_move me date_list source_name table_name k = true ->
  endswith k ".csv" = true.
Proof. unfold AWSConnection.to_move. intros H. now apply andb_prop in H as [_ H]. Qed.

Lemma objects_all_elem (b : AWSConnection.bucket) k :
  k ∈ AWSConnection.objects_all b <-> is_Some (AWSConnection.objects b !! k).
Proof.
  unfold AWSConnection.objects_all.
  rewrite merge_sort_Permutation, elem_of_elements. apply elem_of_dom.
Qed.

Lemma objects_all_NoDup (b : AWSConnection.bucket) : NoDup (AWSConnection.objects_all b).
Proof.
  unfold AWSConnection.objects_all.
  rewrite merge_sort_Permutation. apply NoDup_elements.
Qed.

Lemma file_list_elem me date_list source_name table_name (b : AWSConnection.bucket) k :
  k ∈ AWSConnection.file_list me date_list source_name table_name b
  <-> AWSConnection.to_move me date_list source_name table_name k = true
      /\ is_Some (AWSConnection.objects b !! k).
Proof.
  unfold AWSConnection.file_list.
  rewrite list_elem_of_In, filter_In, <- list_elem_of_In, objects_all_elem. tauto.
Qed.

Lemma file_list_NoDup me date_list source_name table_name (b : AWSConnection.bucket) :
  NoDup (AWSConnection.file_list me date_list source_name table_name b).
Proof.
  unfold AWSConnection.file_list.
  apply NoDup_ListNoDup, List.NoDup_filter, NoDup_ListNoDup, objects_all_NoDup.
Qed.

Section rotation_proofs.

Variable csv_to_parquet : string -> option string.
Variable put_refused : string -> bool.
Variable me : AWSConnection.self.
Variables source_name table_name : string.

#[local] Abbreviation pk := (AWSConnection.processed_key me source_name table_name).
#[local] Abbreviation move_one :=
  (AWSConnection.move_one csv_to_parquet put_refused me source_name table_name).

(** One move that goes through. *)
Lemma move_one_done b f body parquet :
  AWSConnection.objects b !! f = Some body ->
  csv_to_parquet body = Some parquet ->
  put_refused (pk f) = false ->
  move_one f b
  = (Return tt,
     AWSConnection.Bucket
       (delete f (<[pk f := parquet]> (AWSConnection.objects b)))
       (AWSConnection.DeleteObject f :: AWSConnection.PutObject (pk f) parquet
          :: AWSConnection.GetObject f :: AWSConnection.calls b)).
Proof.
  intros Hb Hc Hp.
  unfold AWSConnection.move_one, bind, AWSConnection.get_object,
    AWSConnection.put_object, AWSConnection.delete_object.
  rewrite Hb, Hc. simpl. rewrite Hp. reflexivity.
Qed.

(** One move that does not: the objects are as they were, and at most the
    read was completed. *)
Lemma move_one_failed b f e b' :
  move_one f b = (Raise e, b') ->
  AWSConnection.objects b' = AWSConnection.objects b
  /\ (AWSConnection.calls b' = AWSConnection.calls b
      \/ AWSConnection.calls b' = AWSConnection.GetObject f :: AWSConnection.calls b)
  /\ forall body, AWSConnection.objects b !! f = Some body ->
       csv_to_parquet body = None
       \/ exists parquet, csv_to_parquet body = Some parquet /\ put_refused (pk f) = true.
Proof.
  unfold AWSConnection.move_one, bind, AWSConnection.get_object,
    AWSConnection.put_object, AWSConnection.delete_object.
  destruct (AWSConnection.objects b !! f) as [body|] eqn:Hb.
  - destruct (csv_to_parquet body) as [parquet|] eqn:Hc; simpl.
    + destruct (put_refused (pk f)) eqn:Hp; simpl; [|discriminate].
      intros [= <- <-]. simpl. repeat split; [now right|].
      intros ? [= <-]. right. eauto.
    + unfold raise. intros [= <- <-]. simpl. repeat split; [now right|].
      intros ? [= <-]. now left.
  - intros [= <- <-]. repeat split; [now left | discriminate].
Qed.

Lemma move_one_cases b f :
  (exists body parquet,
      AWSConnection.objects b !! f = Some body /\ csv_to_parquet body = Some parquet
      /\ put_refused (pk f) = false)
  \/ exists e b', move_one f b = (Raise e, b').
Proof.
  destruct (AWSConnection.objects b !! f) as [body|] eqn:Hb.
  - destruct (csv_to_parquet body) as [parquet|] eqn:Hc.
    + destruct (put_refused (pk f)) eqn:Hp.
      * right. unfold AWSConnection.move_one, bind, AWSConnection.get_object,
          AWSConnection.put_object. rewrite Hb, Hc. simpl. rewrite Hp. eauto.
      * left. eauto.
    + right. unfold AWSConnection.move_one, bind, AWSConnection.get_object.
      rewrite Hb, Hc. unfold raise. eauto.
  - right. unfold AWSConnection.move_one, bind, AWSConnection.get_object.
    rewrite Hb. eauto.
Qed.

(** *** When every conversion and every write goes through *)

Lemma rotation_completes l : forall b,
  NoDup l ->
  (forall f, f ∈ l -> endswith f ".csv" = true) ->
  (forall f, f ∈ l -> exists body parquet,
      AWSConnection.objects b !! f = Some body /\ csv_to_parquet body = Some parquet
      /\ put_refused (pk f) = false) ->
  exists b',
    for_each l move_one b = (Return tt, b')
    /\ (forall k, endswith k ".csv" = true ->
          AWSConnection.objects b' !! k
          = if bool_decide (k ∈ l) then None else AWSConnection.objects b !! k)
    /\ (forall k, endswith k ".csv" = false -> (forall f, f ∈ l -> pk f <> k) ->
          AWSConnection.objects b' !! k = AWSConnection.objects b !! k)
    /\ (forall f, f ∈ l -> exists f' body,
          f' ∈ l /\ pk f' = pk f /\ AWSConnection.objects b !! f' = Some body
          /\ AWSConnection.objects b' !! pk f = csv_to_parquet body).
Proof.
  induction l as [|f l IH]; intros b Hnd Hcsv Hok.
  - exists b. simpl. repeat split; try reflexivity.
    intros f Hf. inversion Hf.
  - apply NoDup_cons in Hnd as [Hf Hnd].
    destruct (Hok f ltac:(left)) as (body & parquet & Hb & Hc & Hp).
    pose proof (move_one_done b f body parquet Hb Hc Hp) as Hstep.
    set (b1 := AWSConnection.Bucket
                 (delete f (<[pk f := parquet]> (AWSConnection.objects b)))
                 (AWSConnection.DeleteObject f :: AWSConnection.PutObject (pk f) parquet
                    :: AWSConnection.GetObject f :: AWSConnection.calls b)) in *.
    assert (Hkeep : forall k, k <> f -> endswith k ".csv" = true ->
                      AWSConnection.objects b1 !! k = AWSConnection.objects b !! k).
    { intros k Hk Hend. simpl. rewrite lookup_delete_ne by congruence.
      rewrite lookup_insert_ne; [reflexivity|].
      intros E. rewrite <- E, processed_key_not_csv in Hend. discriminate. }
    destruct (IH b1 Hnd) as (b' & Hrun & Hcsv' & Hother & Hpq).
    { intros g Hg. apply Hcsv. now right. }
    { intros g Hg. destruct (Hok g ltac:(now right)) as (bd & p & Hbd & Hcp & Hpr).
      exists bd, p. repeat split; try assumption.
      rewrite Hkeep; [assumption | intros ->; contradiction | apply Hcsv; now right]. }
    exists b'. split; [|split; [|split]].
    + simpl. rewrite (bind_Return _ _ _ _ _ Hstep). exact Hrun.
    + intros k Hend. rewrite (Hcsv' k Hend).
      destruct (decide (k = f)) as [->|Hne].
      * rewrite (bool_decide_eq_true_2 (f ∈ f :: l)) by left.
        rewrite (bool_decide_eq_false_2 (f ∈ l)) by assumption.
        simpl. apply lookup_delete_eq.
      * destruct (decide (k ∈ l)) as [Hin|Hnin].
        -- rewrite !bool_decide_eq_true_2; [reflexivity | now right | assumption].
        -- rewrite !bool_decide_eq_false_2; [now apply Hkeep | | assumption].
           intros [->|?]%elem_of_cons; contradiction.
    + intros k Hend Hnk. rewrite Hother; [|assumption | intros g Hg; apply Hnk; now right].
      simpl. rewrite lookup_delete_ne.
      * rewrite lookup_insert_ne; [reflexivity | apply Hnk; left].
      * intros <-. rewrite (Hcsv f ltac:(left)) in Hend. discriminate.
    + intros g Hg.
      destruct (decide (Exists (fun g' => pk g' = pk g) l)) as [Hsome|Hnone];
        rewrite Exists_exists in *.
      * destruct Hsome as (g' & Hg' & Epk).
        destruct (Hpq g' Hg') as (f' & bd & Hf' & Ef' & Hbd & Hfin).
        exists f', bd. repeat split; [now right | congruence | | congruence].
        rewrite <- Hbd. symmetry. apply Hkeep; [intros ->; contradiction|].
        apply Hcsv. now right.
      * assert (g = f) as ->.
        { apply elem_of_cons in Hg as [->|Hg]; [reflexivity|].
          exfalso. apply Hnone. eauto. }
        exists f, body. repeat split; [left | assumption |].
        rewrite Hother; [| apply processed_key_not_csv |].
        -- simpl. rewrite lookup_delete_ne, lookup_insert_eq; [congruence|].
           intros E. pose proof (processed_key_not_csv me source_name table_name f) as Hn.
           rewrite <- E, (Hcsv f ltac:(left)) in Hn. discriminate.
        -- intros g' Hg' E. apply Hnone. eauto.
Qed.

End rotation_proofs.

(** C5, as amended.  When every conversion and every write goes through,
    rotation leaves the bucket like this: a [.csv] object is removed exactly
    when its key starts with the table's folder, does not start with that
    folder followed by [processed], and has a date component outside the
    batch's list, and every other [.csv] object is as it was; an object that
    is no [.csv] is as it was unless its key is the [processed/...parquet] key
    of a rotated file; and that key holds the Parquet form of a rotated file
    with that key, whether or not an object was there before. *)
Theorem rotation_moves_the_selected_csv :
  forall csv_to_parquet put_refused me date_list source_name table_name b,
    let l := AWSConnection.file_list me date_list source_name table_name b in
    let pk := AWSConnection.processed_key me source_name table_name in
    (forall f body, f ∈ l -> AWSConnection.objects b !! f = Some body ->
       is_Some (csv_to_parquet body)) ->
    (forall f, f ∈ l -> put_refused (pk f) = false) ->
    exists b',
      AWSConnection.move_previous_csv_to_processed_folder csv_to_parquet put_refused
        me date_list source_name table_name b = (Return tt, b')
      /\ (forall k, endswith k ".csv" = true ->
            AWSConnection.objects b' !! k
            = if AWSConnection.to_move me date_list source_name table_name k
              then None else AWSConnection.objects b !! k)
      /\ (forall k, endswith k ".csv" = false -> (forall f, f ∈ l -> pk f <> k) ->
            AWSConnection.objects b' !! k = AWSConnection.objects b !! k)
      /\ (forall f, f ∈ l -> exists f' body,
            f' ∈ l /\ pk f' = pk f /\ AWSConnection.objects b !! f' = Some body
            /\ AWSConnection.objects b' !! pk f = csv_to_parquet body).
Proof.
  intros csv_to_parquet put_refused me date_list source_name table_name b l pk Hconv Hput.
  destruct (rotation_completes csv_to_parquet put_refused me source_name table_name l b)
    as (b' & Hrun & Hcsv & Hother & Hpq).
  - apply file_list_NoDup.
  - intros f Hf. apply file_list_elem in Hf as [Hf _]. eapply to_move_csv, Hf.
  - intros f Hf. pose proof Hf as Hf'. apply file_list_elem in Hf' as [_ [body Hb]].
    destruct (Hconv f body Hf Hb) as [parquet Hp]. exists body, parquet. auto.
  - exists b'. split; [exact Hrun|]. split; [|split; assumption].
    intros k Hend. rewrite (Hcsv k Hend).
    destruct (AWSConnection.to_move me date_list source_name table_name k) eqn:Hmv.
    + destruct (AWSConnection.objects b !! k) as [body|] eqn:Hb.
      * rewrite bool_decide_eq_true_2; [reflexivity|].
        apply file_list_elem. rewrite Hb. eauto.
      * destruct (bool_decide (k ∈ l)); reflexivity.
    + rewrite bool_decide_eq_false_2; [reflexivity|].
      intros Hin. apply file_list_elem in Hin as [Hin _]. congruence.
Qed.

Lemma rotation_moves_the_selected_csv_witness :
  let l := AWSConnection.file_list Scenario.avc_storage ["2024-01-02"] "avc" "T"
             Scenario.two_days in
  let pk := AWSConnection.processed_key Scenario.avc_storage "avc" "T" in
  ((forall f body, f ∈ l -> AWSConnection.objects Scenario.two_days !! f = Some body ->
      is_Some (Scenario.to_parquet body))
   /\ (forall f, f ∈ l -> Scenario.accepts_all (pk f) = false))
  /\ exists b',
      AWSConnection.move_previous_csv_to_processed_folder Scenario.to_parquet
        Scenario.accepts_all Scenario.avc_storage ["2024-01-02"] "avc" "T" Scenario.two_days
      = (Return tt, b')
      /\ AWSConnection.objects b' !! "de/avc/US/T/T_2024-01-01.csv" = None
      /\ AWSConnection.objects b' !! "de/avc/US/T/T_2024-01-02.csv" = Some "c,d".
Proof.
  intros l pk.
  assert (Hl : l = ["de/avc/US/T/T_2024-01-01.csv"]) by (vm_compute; reflexivity).
  assert (Hconv : forall f body, f ∈ l ->
                    AWSConnection.objects Scenario.two_days !! f = Some body ->
                    is_Some (Scenario.to_parquet body)).
  { intros f body Hf Hb. rewrite Hl in Hf. apply list_elem_of_singleton in Hf as ->.
    vm_compute in Hb. injection Hb as <-. eexists. reflexivity. }
  assert (Hput : forall f, f ∈ l -> Scenario.accepts_all (pk f) = false)
    by (intros; reflexivity).
  split; [split; assumption|].
  destruct (rotation_moves_the_selected_csv Scenario.to_parquet Scenario.accepts_all
              Scenario.avc_storage ["2024-01-02"] "avc" "T" Scenario.two_days Hconv Hput)
    as (b' & Hrun & Hcsv & _).
  exists b'. split; [exact Hrun|]. split.
  - rewrite Hcsv by reflexivity. reflexivity.
  - rewrite Hcsv by reflexivity. reflexivity.
Defined.

(** C5, the claim as first stated, fails on a bucket that also holds
    [processed/T_2024-01-01.parquet] and [processed_2023-12-30.csv]: the
    latter is a [.csv] object of the table, outside [processed/], dated
    outside the batch, and it is not rotated; the former is no [.csv] object,
    and it is overwritten. *)
Lemma rotation_skips_and_overwrites :
  let folder := AWSConnection.table_folder Scenario.avc_storage "avc" "T" in
  let skipped := "de/avc/US/T/processed_2023-12-30.csv" in
  let parquet := "de/avc/US/T/processed/T_2024-01-01.parquet" in
  let run := AWSConnection.move_previous_csv_to_processed_folder Scenario.to_parquet
               Scenario.accepts_all Scenario.avc_storage ["2024-01-02"] "avc" "T"
               Scenario.crowded in
  fst run = Return tt
  /\ (startswith skipped folder = true
      /\ startswith skipped (folder +:+ "processed/") = false
      /\ endswith skipped ".csv" = true
      /\ AWSConnection.date_of_key skipped = "2023-12-30"
      /\ AWSConnection.objects (snd run) !! skipped = Some "e,f")
  /\ (endswith parquet ".csv" = false
      /\ AWSConnection.objects Scenario.crowded !! parquet = Some "old"
      /\ AWSConnection.objects (snd run) !! parquet = Some "PAR1a,b").
Proof. vm_compute. repeat split. Qed.

(** ** Convert, then delete *)

Section rotation_order.

Variable csv_to_parquet : string -> option string.
Variable put_refused : string -> bool.
Variable me : AWSConnection.self.
Variables source_name table_name : string.

#[local] Abbreviation pk' := (AWSConnection.processed_key me source_name table_name).
#[local] Abbreviation move_one' :=
  (AWSConnection.move_one csv_to_parquet put_refused me source_name table_name).

(** The calls a rotation over [l] completes, newest first, and what they
    leave of the CSV objects. *)
Lemma rotation_order l : forall b,
  (forall f, f ∈ l -> endswith f ".csv" = true) ->
  exists new,
    AWSConnection.calls (snd (for_each l move_one' b)) = new ++ AWSConnection.calls b
    /\ (forall i g, new !! i = Some (AWSConnection.DeleteObject g) ->
          g ∈ l
          /\ exists body parquet,
               AWSConnection.objects b !! g = Some body
               /\ csv_to_parquet body = Some parquet
               /\ put_refused (pk' g) = false
               /\ new !! S i = Some (AWSConnection.PutObject (pk' g) parquet))
    /\ (forall k, endswith k ".csv" = true ->
          AWSConnection.objects (snd (for_each l move_one' b)) !! k
            = AWSConnection.objects b !! k
          \/ (AWSConnection.objects (snd (for_each l move_one' b)) !! k = None
              /\ exists i, new !! i = Some (AWSConnection.DeleteObject k))).
Proof.
  induction l as [|f l IH]; intros b Hcsv.
  - exists []. simpl. split; [reflexivity|]. split; [|now left].
    intros i g H. rewrite lookup_nil in H. discriminate.
  - simpl.
    destruct (move_one_cases csv_to_parquet put_refused me source_name table_name b f)
      as [(body & parquet & Hb & Hc & Hp)|(e & b1 & Hfail)].
    + rewrite (bind_Return _ _ _ _ _
                 (move_one_done csv_to_parquet put_refused me source_name table_name
                    b f body parquet Hb Hc Hp)).
      set (b1 := AWSConnection.Bucket _ _).
      destruct (IH b1) as (new & Hnew & Hord & Hobj).
      { intros g Hg. apply Hcsv. now right. }
      assert (Hgone : AWSConnection.objects b1 !! f = None) by apply lookup_delete_eq.
      assert (Hkeep : forall k, k <> f -> endswith k ".csv" = true ->
                        AWSConnection.objects b1 !! k = AWSConnection.objects b !! k).
      { intros k Hk Hend. simpl. rewrite lookup_delete_ne by congruence.
        rewrite lookup_insert_ne; [reflexivity|].
        intros E. rewrite <- E, processed_key_not_csv in Hend. discriminate. }
      exists (new ++ [AWSConnection.DeleteObject f; AWSConnection.PutObject (pk' f) parquet;
                      AWSConnection.GetObject f]).
      split; [|split].
      * rewrite Hnew. simpl. now rewrite <- app_assoc.
      * intros i g Hi.
        destruct (decide (i < length new)) as [Hlt|Hge].
        -- rewrite lookup_app_l in Hi by assumption.
           destruct (Hord i g Hi) as (Hg & bd & pq & Hbd & Hcq & Hpr & Hnext).
           split; [now right|]. exists bd, pq. repeat split; try assumption.
           ++ rewrite <- Hbd. symmetry. apply Hkeep; [|apply Hcsv; now right].
              intros ->. rewrite Hgone in Hbd. discriminate.
           ++ apply lookup_app_l_Some. exact Hnext.
        -- rewrite lookup_app_r in Hi by lia.
           destruct (i - length new) as [|[|[|n]]] eqn:En; simpl in Hi; try discriminate.
           injection Hi as <-. split; [left|].
           exists body, parquet. repeat split; try assumption.
           rewrite lookup_app_r by lia.
           replace (S i - length new) with 1 by lia. reflexivity.
      * intros k Hend.
        destruct (decide (k = f)) as [->|Hne].
        -- right. destruct (Hobj f Hend) as [E|[E (i & Hi)]].
           ++ split; [rewrite E; exact Hgone|]. exists (length new).
              rewrite lookup_app_r by lia. now rewrite Nat.sub_diag.
           ++ split; [exact E|]. exists i. now apply lookup_app_l_Some.
        -- destruct (Hobj k Hend) as [E|[E (i & Hi)]].
           ++ left. rewrite E. now apply Hkeep.
           ++ right. split; [exact E|]. exists i. now apply lookup_app_l_Some.
    + rewrite (bind_Raise _ _ _ _ _ Hfail). simpl.
      destruct (move_one_failed csv_to_parquet put_refused me source_name table_name
                  b f e b1 Hfail) as (Hobjs & Hcalls & _).
      destruct Hcalls as [Hcalls|Hcalls].
      * exists []. rewrite Hcalls, Hobjs. split; [reflexivity|]. split; [|now left].
        intros i g H. rewrite lookup_nil in H. discriminate.
      * exists [AWSConnection.GetObject f]. rewrite Hcalls, Hobjs.
        split; [reflexivity|]. split; [|now left].
        intros [|i] g H; simpl in H; [discriminate|].
        rewrite lookup_nil in H. discriminate.
Qed.

End rotation_order.

(** C6.  In the calls a rotation completes, every deletion of a source CSV
    comes directly after the completed write of that file's Parquet copy
    under [processed/], converted from the body the file had; and a CSV whose
    conversion fails or whose Parquet write is refused is still in the bucket
    with its body when the rotation ends, however it ends. *)
Theorem rotation_converts_then_deletes :
  forall csv_to_parquet put_refused me date_list source_name table_name b,
    let pk := AWSConnection.processed_key me source_name table_name in
    let b' := snd (AWSConnection.move_previous_csv_to_processed_folder csv_to_parquet
                     put_refused me date_list source_name table_name b) in
    exists new,
      AWSConnection.calls b' = new ++ AWSConnection.calls b
      /\ (forall i f, new !! i = Some (AWSConnection.DeleteObject f) ->
            exists body parquet,
              AWSConnection.objects b !! f = Some body
              /\ csv_to_parquet body = Some parquet
              /\ put_refused (pk f) = false
              /\ new !! S i = Some (AWSConnection.PutObject (pk f) parquet))
      /\ (forall f body,
            endswith f ".csv" = true ->
            AWSConnection.objects b !! f = Some body ->
            csv_to_parquet body = None \/ put_refused (pk f) = true ->
            AWSConnection.objects b' !! f = Some body).
Proof.
  intros csv_to_parquet put_refused me date_list source_name table_name b pk b'.
  unfold AWSConnection.move_previous_csv_to_processed_folder, bind, get in b'.
  simpl in b'.
  destruct (rotation_order csv_to_parquet put_refused me source_name table_name
              (AWSConnection.file_list me date_list source_name table_name b) b)
    as (new & Hnew & Hord & Hobj).
  { intros f Hf. apply file_list_elem in Hf as [Hf _]. eapply to_move_csv, Hf. }
  exists new. split; [exact Hnew|]. split.
  - intros i f Hi. destruct (Hord i f Hi) as (_ & H). exact H.
  - intros f body Hend Hb Hbad.
    destruct (Hobj f Hend) as [E|[_ (i & Hi)]].
    + subst b'. rewrite E. exact Hb.
    + exfalso. destruct (Hord i f Hi) as (_ & bd & pq & Hbd & Hcq & Hpr & _).
      rewrite Hb in Hbd. injection Hbd as <-.
      subst pk. destruct Hbad as [Hbad|Hbad]; congruence.
Qed.

(** ** How often a creation call is sent *)

Lemma replicate_snoc_cons {A} k (x : A) l :
  replicate k x ++ x :: l = x :: replicate k x ++ l.
Proof. induction k as [|k IH]; simpl; [reflexivity | now rewrite IH]. Qed.

(** A round of [api_call_with_delay] that does not see QuotaExceeded ends
    the call. *)
Lemma api_call_ends fuel method endpoint body w :
  AWSConnection.quota_exceeded (respond w (Request method endpoint body :: sent w)) = false ->
  exists o,
    AWSConnection.api_call_with_delay (S fuel) method endpoint body w
    = (Some o, record_request (Request method endpoint body) w).
Proof.
  intros H. simpl.
  unfold AWSConnection.call_aws_rest_api, bind, send. simpl.
  destruct (respond w (_ :: sent w)) as [|code text [j|]]; simpl in *; eauto.
  destruct j as [| | | | |d]; simpl; eauto.
  unfold AWSConnection.first_error_is_quota, bind, subscript. simpl.
  destruct (assoc "errors" d) as [errors|]; simpl; eauto.
  destruct errors as [| | | |[|e errs]|]; simpl; eauto.
  destruct e as [| | | | |e]; simpl; eauto.
  destruct (assoc "code" e) as [c|]; simpl; eauto.
  rewrite H. eauto.
Qed.

(** A round that does see it sleeps ten seconds and starts over. *)
Lemma api_call_waits fuel method endpoint body w :
  AWSConnection.quota_exceeded (respond w (Request method endpoint body :: sent w)) = true ->
  AWSConnection.api_call_with_delay (S fuel) method endpoint body w
  = AWSConnection.api_call_with_delay fuel method endpoint body
      (record_sleep 10 (record_request (Request method endpoint body) w)).
Proof.
  intros H. simpl.
  unfold AWSConnection.call_aws_rest_api, bind, send. simpl.
  destruct (respond w (_ :: sent w)) as [|code text [j|]]; simpl in *; try discriminate.
  destruct j as [| | | | |d]; simpl; try discriminate.
  unfold AWSConnection.first_error_is_quota, bind, subscript. simpl.
  destruct (assoc "errors" d) as [errors|]; simpl; try discriminate.
  destruct errors as [| | | |[|e errs]|]; simpl; try discriminate.
  destruct e as [| | | | |e]; simpl; try discriminate.
  destruct (assoc "code" e) as [c|]; simpl; try discriminate.
  rewrite H. reflexivity.
Qed.

Lemma api_call_count n : forall fuel method endpoint body w,
  let q := Request method endpoint body in
  (forall k, k < n ->
     AWSConnection.quota_exceeded (respond w (replicate (S k) q ++ sent w)) = true) ->
  AWSConnection.quota_exceeded (respond w (replicate (S n) q ++ sent w)) = false ->
  n < fuel ->
  exists o w',
    AWSConnection.api_call_with_delay fuel method endpoint body w = (Some o, w')
    /\ sent w' = replicate (S n) q ++ sent w
    /\ slept w' = replicate n 10 ++ slept w.
Proof.
  induction n as [|n IH]; intros fuel method endpoint body w q Hq Hlast Hfuel;
    (destruct fuel as [|fuel]; [lia|]).
  - destruct (api_call_ends fuel method endpoint body w Hlast) as [o Ho].
    exists o, (record_request q w). rewrite Ho. repeat split.
  - rewrite api_call_waits by exact (Hq 0 ltac:(lia)).
    destruct (IH fuel method endpoint body (record_sleep 10 (record_request q w)))
      as (o & w' & Hrun & Hsent & Hslept).
    + intros k Hk. simpl. fold q. rewrite replicate_snoc_cons.
      exact (Hq (S k) ltac:(lia)).
    + simpl. fold q. rewrite replicate_snoc_cons. exact Hlast.
    + lia.
    + exists o, w'. split; [exact Hrun|]. split.
      * rewrite Hsent. simpl. fold q. now rewrite replicate_snoc_cons.
      * rewrite Hslept. simpl. now rewrite replicate_snoc_cons.
Qed.

Lemma subscript_world {W} j k (w : W) : snd (subscript j k w) = w.
Proof.
  unfold subscript. destruct j; try reflexivity.
  destruct (assoc k d); reflexivity.
Qed.

(** A step that leaves the world alone, followed by [k]. *)
Lemma bind_quiet {W A B} (c : M W A) (k : A -> M W B) (P : W -> Prop) w :
  snd (c w) = w -> P w -> (forall a, P (snd (k a w))) -> P (snd (bind c k w)).
Proof.
  intros Hc Hw Hk. unfold bind. destruct (c w) as [[a|e] w1]; simpl in Hc; subst w1.
  - apply Hk.
  - exact Hw.
Qed.

(** What the client does with the answer to its POST changes nothing
    outside. *)
Lemma after_the_post (key : string) (resp : nat * string * option json) (w : world) :
  snd ((raise_for_status resp >>
        let! response_json := json_of resp in
        let! report_id := dict_get response_json key JNull in
        if negb (truthy report_id)
        then raise (Exception "Report ID not returned in response.")
        else ret report_id) w) = w.
Proof.
  unfold bind, raise_for_status, json_of, dict_get.
  destruct resp as [[code text] [j|]]; simpl.
  - destruct ((400 <=? code)%nat && (code <? 600)%nat); simpl; [reflexivity|].
    destruct j; simpl; try reflexivity.
    destruct (negb _); reflexivity.
  - destruct ((400 <=? code)%nat && (code <? 600)%nat); reflexivity.
Qed.

Lemma post_sent_once {A} url payload (k : nat * string * option json -> M world A) w :
  (forall resp w1, snd (k resp w1) = w1) ->
  snd ((let! response := send (Request POST url payload) in k response) w)
  = record_request (Request POST url payload) w.
Proof.
  intros Hk. unfold bind, send.
  destruct (respond w _) as [|code text parsed]; [reflexivity|]. apply Hk.
Qed.

Lemma subscript_found {W A} d k v (f : json -> M W A) w :
  assoc k d = Some v -> bind (subscript (JDict d) k) f w = f v w.
Proof. intros E. unfold bind, subscript. now rewrite E. Qed.

Lemma subscript_missing {W A} d k (f : json -> M W A) w :
  assoc k d = None -> bind (subscript (JDict d) k) f w = (Raise (KeyError k), w).
Proof. intros E. unfold bind, subscript. now rewrite E. Qed.

Lemma ads_create_sends_once me report_type start_date end_date d url name adProduct
    groupBy columns reportTypeId timeUnit format w :
  String.eqb report_type "" = false ->
  truthy (JDict d) = true ->
  AmazonAds.api_urls me !! "report_url" = Some url ->
  assoc "name" d = Some name ->
  assoc "adProduct" d = Some adProduct ->
  assoc "groupBy" d = Some groupBy ->
  assoc "columns" d = Some columns ->
  assoc "reportTypeId" d = Some reportTypeId ->
  assoc "timeUnit" d = Some timeUnit ->
  assoc "format" d = Some format ->
  let payload :=
    JDict [("name", name); ("startDate", JStr start_date); ("endDate", JStr end_date);
           ("configuration",
            JDict ([("adProduct", adProduct); ("groupBy", groupBy); ("columns", columns);
                    ("reportTypeId", reportTypeId); ("timeUnit", timeUnit);
                    ("format", format)] ++ AmazonAds.filters_of d))] in
  snd (AmazonAds.create_report_request me (Some report_type) start_date end_date
         (JDict d) w)
  = record_request (Request POST url payload) w.
Proof.
  intros Hrt Hcfg Hurl Hname Had Hgroup Hcols Hid Htime Hformat payload.
  unfold AmazonAds.create_report_request.
  rewrite Hrt, Hcfg, Hurl. cbn [negb].
  unfold subscript at 1 2 3 4 5 6 7.
  rewrite Hname, Had, Hgroup, Hcols, Hid, Htime, Hformat.
  unfold bind at 1 2 3 4 5 6 7. unfold ret at 1 2 3 4 5 6 7.
  subst payload. unfold AmazonAds.filters_of.
  destruct (assoc "filters" d) as [filters|]; [destruct (truthy filters)|];
    unfold bind at 1; unfold ret at 1; rewrite ?app_nil_r;
    (apply post_sent_once; intros resp w1; apply after_the_post).
Qed.

Lemma ads_create_at_most_once me key start_date end_date report_config w :
  let run := AmazonAds.create_report_request me key start_date end_date report_config w in
  (exists e, run = (Raise e, w))
  \/ (exists url payload,
        AmazonAds.api_urls me !! "report_url" = Some url
        /\ snd run = record_request (Request POST url payload) w).
Proof.
  unfold AmazonAds.create_report_request.
  destruct key as [report_type|]; [|left; eauto].
  destruct (String.eqb report_type ""); [left; eauto|].
  destruct (negb (truthy report_config)); [left; eauto|].
  destruct (AmazonAds.api_urls me !! "report_url") as [url|]; [|left; eauto].
  destruct report_config as [| | | | |d]; try (left; eexists; reflexivity).
  destruct (assoc "name" d) eqn:Hname;
    [|left; eexists; apply subscript_missing; exact Hname].
  rewrite (subscript_found _ _ _ _ _ Hname).
  destruct (assoc "adProduct" d) eqn:Had;
    [|left; eexists; apply subscript_missing; exact Had].
  rewrite (subscript_found _ _ _ _ _ Had).
  destruct (assoc "groupBy" d) eqn:Hgroup;
    [|left; eexists; apply subscript_missing; exact Hgroup].
  rewrite (subscript_found _ _ _ _ _ Hgroup).
  destruct (assoc "columns" d) eqn:Hcols;
    [|left; eexists; apply subscript_missing; exact Hcols].
  rewrite (subscript_found _ _ _ _ _ Hcols).
  destruct (assoc "reportTypeId" d) eqn:Hid;
    [|left; eexists; apply subscript_missing; exact Hid].
  rewrite (subscript_found _ _ _ _ _ Hid).
  destruct (assoc "timeUnit" d) eqn:Htime;
    [|left; eexists; apply subscript_missing; exact Htime].
  rewrite (subscript_found _ _ _ _ _ Htime).
  destruct (assoc "format" d) eqn:Hformat;
    [|left; eexists; apply subscript_missing; exact Hformat].
  rewrite (subscript_found _ _ _ _ _ Hformat).
  right. exists url.
  destruct (assoc "filters" d) as [filters|]; [destruct (truthy filters)|];
    unfold bind at 1; unfold ret at 1;
    (eexists; split; [reflexivity|];
     apply post_sent_once; intros resp w1; apply after_the_post).
Qed.

(** The same steps after the POST, in the Amazon Marketing Cloud client. *)
Lemma amc_after_the_post (resp : nat * string * option json) (st : AMC.state) :
  snd ((AMC.lift (raise_for_status resp) >>
        let! response_json := AMC.lift (json_of resp) in
        let! report_id := dict_get response_json "workflowExecutionId" JNull in
        if negb (truthy report_id)
        then raise (Exception "Report ID not returned in response.")
        else ret report_id) st) = st.
Proof.
  destruct st as [w wf].
  unfold bind, AMC.lift, raise_for_status, json_of, dict_get.
  destruct resp as [[code text] [j|]]; simpl.
  - destruct ((400 <=? code)%nat && (code <? 600)%nat); simpl; [reflexivity|].
    destruct j; simpl; try reflexivity.
    destruct (negb _); reflexivity.
  - destruct ((400 <=? code)%nat && (code <? 600)%nat); reflexivity.
Qed.

Lemma amc_post_sent_once {A} url payload (k : nat * string * option json -> M AMC.state A)
    st :
  (forall resp st1, snd (k resp st1) = st1) ->
  snd ((let! response := AMC.lift (send (Request POST url payload)) in k response) st)
  = AMC.State (record_request (Request POST url payload) (AMC.outside st))
      (AMC.wf_status st).
Proof.
  intros Hk. unfold bind, AMC.lift, send.
  destruct (respond (AMC.outside st) _) as [|code text parsed]; [reflexivity|]. apply Hk.
Qed.

Lemma amc_create_sends_once me report_type start_date end_date d base query st :
  String.eqb report_type "" = false ->
  truthy (JDict d) = true ->
  AMC.api_urls me !! "report_url" = Some base ->
  assoc "query" d = Some query ->
  let payload :=
    JDict [("workflow", JDict [("sqlQuery", query)]);
           ("timeWindowType", JStr (AMC.time_window_type me));
           ("timeWindowStart", JStr (start_date +:+ "T00:00:00"));
           ("timeWindowEnd", JStr (end_date +:+ "T00:00:00"));
           ("ignoreDataGaps", JStr "true");
           ("workflowExecutionTimeoutSeconds", JStr "86400")] in
  snd (AMC.create_report_request me report_type start_date end_date (JDict d) st)
  = AMC.State (record_request (Request POST (AMC.executions_url me base) payload)
                 (AMC.outside st))
      (AMC.wf_status st).
Proof.
  intros Hrt Hcfg Hurl Hquery payload.
  unfold AMC.create_report_request.
  rewrite Hrt, Hcfg, Hurl. cbn [negb].
  unfold subscript. rewrite Hquery. unfold bind at 1. unfold ret at 1.
  apply amc_post_sent_once. intros resp st1. apply amc_after_the_post.
Qed.

Lemma amc_create_at_most_once me report_type start_date end_date report_config st :
  let run := AMC.create_report_request me report_type start_date end_date report_config st in
  (exists e, run = (Raise e, st))
  \/ (exists base payload,
        AMC.api_urls me !! "report_url" = Some base
        /\ snd run
           = AMC.State (record_request (Request POST (AMC.executions_url me base) payload)
                          (AMC.outside st))
               (AMC.wf_status st)).
Proof.
  unfold AMC.create_report_request.
  destruct (String.eqb report_type ""); [left; eauto|].
  destruct (negb (truthy report_config)); [left; eauto|].
  destruct (AMC.api_urls me !! "report_url") as [base|]; [|left; eauto].
  destruct report_config as [| | | | |d]; try (left; eexists; reflexivity).
  unfold subscript. destruct (assoc "query" d) as [query|]; [|left; eexists; reflexivity].
  unfold bind at 1. unfold ret at 1.
  right. exists base. eexists. split; [reflexivity|].
  apply amc_post_sent_once. intros resp st1. apply amc_after_the_post.
Qed.

Lemma avc_creation_count n fuel me start_date end_date cfg w access_token w1 :
  AWSConnection.get_access_token (AVC.access_token_endpoint me)
    (AVC.access_token_request_body cfg) w = (Return access_token, w1) ->
  let q := Request POST (AVC.create_report_endpoint me cfg)
             (AVC.create_report_request_body me start_date end_date cfg) in
  (forall k, k < n ->
     AWSConnection.quota_exceeded (respond w1 (replicate (S k) q ++ sent w1)) = true) ->
  AWSConnection.quota_exceeded (respond w1 (replicate (S n) q ++ sent w1)) = false ->
  n < fuel ->
  exists o w',
    AVC.get_report_from_avc_report_id fuel me start_date end_date cfg w = (Some o, w')
    /\ sent w' = replicate (S n) q ++ sent w1
    /\ slept w' = replicate n 10 ++ slept w1.
Proof.
  intros Htoken q Hq Hlast Hfuel.
  unfold AVC.get_report_from_avc_report_id. rewrite Htoken.
  destruct (api_call_count n fuel POST (AVC.create_report_endpoint me cfg)
              (AVC.create_report_request_body me start_date end_date cfg) w1 Hq Hlast Hfuel)
    as (o & w' & Hrun & Hsent & Hslept).
  rewrite Hrun. destruct o as [response|e].
  - pose proof (subscript_world response "reportId" w') as Hw.
    destruct (subscript response "reportId" w') as [r w3]. simpl in Hw. subst w3.
    eauto.
  - eauto.
Qed.

(** C7, as amended.  The Amazon Ads and the Amazon Marketing Cloud client
    send the creation POST exactly once per invocation whose arguments pass
    the client's own checks (a report type, a configuration that is not
    empty and has the fields the payload reads, a configured [report_url]):
    one POST to the creation endpoint with the payload built from the
    configuration, and nothing else, whatever comes back.  An invocation that
    does not send that one POST has raised before sending anything.  The
    Amazon Vendor Central client sends its creation POST through
    [api_call_with_delay]: the POST goes out again, after ten seconds, each
    time the answer's first error is QuotaExceeded, so with [n] such answers
    in a row and then any other answer, [n + 1] identical creation POSTs are
    sent before the call ends. *)
Theorem creation_calls_sent :
  (forall me report_type start_date end_date d url name adProduct groupBy columns
          reportTypeId timeUnit format w,
      String.eqb report_type "" = false ->
      truthy (JDict d) = true ->
      AmazonAds.api_urls me !! "report_url" = Some url ->
      assoc "name" d = Some name ->
      assoc "adProduct" d = Some adProduct ->
      assoc "groupBy" d = Some groupBy ->
      assoc "columns" d = Some columns ->
      assoc "reportTypeId" d = Some reportTypeId ->
      assoc "timeUnit" d = Some timeUnit ->
      assoc "format" d = Some format ->
      let payload :=
        JDict [("name", name); ("startDate", JStr start_date); ("endDate", JStr end_date);
               ("configuration",
                JDict ([("adProduct", adProduct); ("groupBy", groupBy);
                        ("columns", columns); ("reportTypeId", reportTypeId);
                        ("timeUnit", timeUnit); ("format", format)] ++ AmazonAds.filters_of d))] in
      snd (AmazonAds.create_report_request me (Some report_type) start_date end_date
             (JDict d) w)
      = record_request (Request POST url payload) w)
  /\ (forall me key start_date end_date report_config w,
      let run := AmazonAds.create_report_request me key start_date end_date
                   report_config w in
      (exists e, run = (Raise e, w))
      \/ (exists url payload,
            AmazonAds.api_urls me !! "report_url" = Some url
            /\ snd run = record_request (Request POST url payload) w))
  /\ (forall me report_type start_date end_date d base query st,
      String.eqb report_type "" = false ->
      truthy (JDict d) = true ->
      AMC.api_urls me !! "report_url" = Some base ->
      assoc "query" d = Some query ->
      let payload :=
        JDict [("workflow", JDict [("sqlQuery", query)]);
               ("timeWindowType", JStr (AMC.time_window_type me));
               ("timeWindowStart", JStr (start_date +:+ "T00:00:00"));
               ("timeWindowEnd", JStr (end_date +:+ "T00:00:00"));
               ("ignoreDataGaps", JStr "true");
               ("workflowExecutionTimeoutSeconds", JStr "86400")] in
      snd (AMC.create_report_request me report_type start_date end_date (JDict d) st)
      = AMC.State (record_request (Request POST (AMC.executions_url me base) payload)
                     (AMC.outside st))
          (AMC.wf_status st))
  /\ (forall me report_type start_date end_date report_config st,
      let run := AMC.create_report_request me report_type start_date end_date
                   report_config st in
      (exists e, run = (Raise e, st))
      \/ (exists base payload,
            AMC.api_urls me !! "report_url" = Some base
            /\ snd run
               = AMC.State
                   (record_request (Request POST (AMC.executions_url me base) payload)
                      (AMC.outside st))
                   (AMC.wf_status st)))
  /\ (forall n fuel me start_date end_date cfg w access_token w1,
      AWSConnection.get_access_token (AVC.access_token_endpoint me)
        (AVC.access_token_request_body cfg) w = (Return access_token, w1) ->
      let q := Request POST (AVC.create_report_endpoint me cfg)
                 (AVC.create_report_request_body me start_date end_date cfg) in
      (forall k, k < n ->
         AWSConnection.quota_exceeded (respond w1 (replicate (S k) q ++ sent w1)) = true) ->
      AWSConnection.quota_exceeded (respond w1 (replicate (S n) q ++ sent w1)) = false ->
      n < fuel ->
      exists o w',
        AVC.get_report_from_avc_report_id fuel me start_date end_date cfg w = (Some o, w')
        /\ sent w' = replicate (S n) q ++ sent w1
        /\ slept w' = replicate n 10 ++ slept w1).
Proof.
  split; [|split; [|split; [|split]]].
  - intros. eapply ads_create_sends_once; eassumption.
  - intros. apply ads_create_at_most_once.
  - intros. eapply amc_create_sends_once; eassumption.
  - intros. apply amc_create_at_most_once.
  - intros. eapply avc_creation_count; eassumption.
Qed.

(** C7, the claim as first stated, fails for Amazon Vendor Central: when the
    first answer to the creation POST is a QuotaExceeded error and the second
    carries a report id, one invocation sends the creation POST twice. *)
Lemma creation_call_is_sent_again :
  let w := Scenario.fresh (Scenario.scripted
             [Scenario.ok (JDict [("access_token", JStr "token")]);
              Scenario.quota_error;
              Scenario.ok (JDict [("reportId", JStr "report-1")])]) in
  let run := AVC.get_report_from_avc_report_id 5 Scenario.avc "2024-01-01" "2024-01-01"
               Scenario.avc_config w in
  fst run = Some (Return (JStr "report-1"))
  /\ AVC.creation_calls Scenario.avc Scenario.avc_config (sent (snd run)) = 2
  /\ slept (snd run) = [10].
Proof. vm_compute. repeat split. Qed.

Lemma creation_calls_sent_witness :
  (let w := Scenario.fresh (Scenario.always (Response 500 "" None)) in
   snd (AmazonAds.create_report_request Scenario.ads (Some "x") "2024-01-01" "2024-01-01"
          Scenario.ads_report_config w)
   = record_request
       (Request POST "https://ads.example/reporting/reports"
          (JDict [("name", JStr "X"); ("startDate", JStr "2024-01-01");
                  ("endDate", JStr "2024-01-01");
                  ("configuration",
                   JDict [("adProduct", JStr "SPONSORED_PRODUCTS");
                          ("groupBy", JList [JStr "campaign"]);
                          ("columns", JList [JStr "impressions"]);
                          ("reportTypeId", JStr "spCampaigns");
                          ("timeUnit", JStr "DAILY"); ("format", JStr "GZIP_JSON")])])) w)
  /\ (let st := Scenario.amc_fresh (Scenario.always (Response 500 "" None)) in
      snd (AMC.create_report_request Scenario.amc "x" "2024-01-01" "2024-01-01"
             Scenario.amc_report_config st)
      = AMC.State
          (record_request
             (Request POST "https://amc.example/amc/reporting/inst/workflowExecutions"
                (JDict [("workflow", JDict [("sqlQuery", JStr "SELECT 1")]);
                        ("timeWindowType", JStr "EXPLICIT");
                        ("timeWindowStart", JStr "2024-01-01T00:00:00");
                        ("timeWindowEnd", JStr "2024-01-01T00:00:00");
                        ("ignoreDataGaps", JStr "true");
                        ("workflowExecutionTimeoutSeconds", JStr "86400")]))
             (AMC.outside st))
          (AMC.wf_status st))
  /\ (let w := Scenario.fresh (Scenario.scripted
                 [Scenario.ok (JDict [("access_token", JStr "token")]);
                  Scenario.quota_error;
                  Scenario.ok (JDict [("reportId", JStr "report-1")])]) in
      let w1 := snd (AWSConnection.get_access_token (AVC.access_token_endpoint Scenario.avc)
                       (AVC.access_token_request_body Scenario.avc_config) w) in
      let q := Request POST (AVC.create_report_endpoint Scenario.avc Scenario.avc_config)
                 (AVC.create_report_request_body Scenario.avc "2024-01-01" "2024-01-01"
                    Scenario.avc_config) in
      (AWSConnection.quota_exceeded (respond w1 (q :: sent w1)) = true
       /\ AWSConnection.quota_exceeded (respond w1 (q :: q :: sent w1)) = false
       /\ 1 < 5)
      /\ exists o w',
           AVC.get_report_from_avc_report_id 5 Scenario.avc "2024-01-01" "2024-01-01"
             Scenario.avc_config w = (Some o, w')
           /\ sent w' = [q; q] ++ sent w1
           /\ slept w' = [10] ++ slept w1).
Proof.
  split; [|split].
  - intros w.
    exact (proj1 creation_calls_sent Scenario.ads "x" "2024-01-01" "2024-01-01"
             Scenario.ads_report_fields "https://ads.example/reporting/reports"
             _ _ _ _ _ _ _ w
             eq_refl eq_refl eq_refl eq_refl eq_refl eq_refl eq_refl eq_refl eq_refl
             eq_refl).
  - intros st.
    exact (proj1 (proj2 (proj2 creation_calls_sent)) Scenario.amc "x" "2024-01-01"
             "2024-01-01" Scenario.amc_report_fields "https://amc.example" _ st
             eq_refl eq_refl eq_refl eq_refl).
  - intros w w1 q.
    assert (H1 : AWSConnection.quota_exceeded (respond w1 (q :: sent w1)) = true)
      by reflexivity.
    assert (H2 : AWSConnection.quota_exceeded (respond w1 (q :: q :: sent w1)) = false)
      by reflexivity.
    assert (H3 : 1 < 5) by lia.
    split; [repeat split; assumption|].
    refine (proj2 (proj2 (proj2 (proj2 creation_calls_sent))) 1 5 Scenario.avc
              "2024-01-01" "2024-01-01" Scenario.avc_config w (JStr "token") w1 eq_refl _
              H2 H3).
    intros k Hk. assert (k = 0) as -> by lia. exact H1.
Defined.

(** ** The pipeline: unknown extensions and temporary files *)

(** C8, as amended.  For every report URL whose path, in lower case, ends in
    none of [.orc], [.gz] and [.csv], [fetch_report_data] raises [ValueError]
    at once: nothing is downloaded, no file is written and nothing is
    uploaded. *)
Theorem unknown_extension_is_refused :
  forall L report_url report_type s3_bucket_name destination_path_template country_code
         date w,
    endswith (lower (ReportProcessor.urlparse_path L report_url)) ".orc" = false ->
    endswith (lower (ReportProcessor.urlparse_path L report_url)) ".gz" = false ->
    endswith (lower (ReportProcessor.urlparse_path L report_url)) ".csv" = false ->
    ReportProcessor.fetch_report_data L report_url report_type s3_bucket_name
      destination_path_template country_code date w
    = (Raise (ValueError "Could not determine file extension from URL"), w).
Proof.
  intros L report_url report_type s3_bucket_name destination_path_template country_code
    date w Horc Hgz Hcsv.
  unfold ReportProcessor.fetch_report_data, ReportProcessor.file_extension_of.
  rewrite Horc, Hgz, Hcsv. reflexivity.
Qed.

Lemma unknown_extension_is_refused_witness :
  let url := "https://files.example/report.txt?sig=1" in
  let w := Scenario.fresh (Scenario.always (Response 200 "a,b" None)) in
  (endswith (lower (ReportProcessor.urlparse_path Scenario.libraries url)) ".orc" = false
   /\ endswith (lower (ReportProcessor.urlparse_path Scenario.libraries url)) ".gz" = false
   /\ endswith (lower (ReportProcessor.urlparse_path Scenario.libraries url)) ".csv" = false)
  /\ ReportProcessor.fetch_report_data Scenario.libraries url "x" "bucket"
       "de/{report_type}.csv" "US" 19723%Z w
     = (Raise (ValueError "Could not determine file extension from URL"), w).
Proof.
  intros url w. split; [repeat split|].
  exact (unknown_extension_is_refused Scenario.libraries url "x" "bucket"
           "de/{report_type}.csv" "US" 19723%Z w eq_refl eq_refl eq_refl).
Defined.

(** C8, the claim as first stated, fails: a report at [/report.txt] whose
    body is CSV text is not passed through; the call raises before the
    download, with no request sent and nothing uploaded. *)
Lemma text_url_is_not_passed_through :
  let w := Scenario.fresh (Scenario.always (Response 200 "a,b" None)) in
  let run := ReportProcessor.fetch_report_data Scenario.libraries
               "https://files.example/report.txt?sig=1" "x" "bucket"
               "de/{report_type}.csv" "US" 19723%Z w in
  fst run = Raise (ValueError "Could not determine file extension from URL")
  /\ sent (snd run) = []
  /\ s3 (snd run) = ∅.
Proof. vm_compute. repeat split. Qed.

Lemma set_disk_same w : set_disk (disk w) w = w.
Proof. destruct w. reflexivity. Qed.

(** [cleanup_files] removes each path that is there and never raises. *)
Lemma cleanup_files_run l : forall w,
  ReportProcessor.cleanup_files l w
  = (Return tt, set_disk (foldl (fun d p => delete p d) (disk w) l) w).
Proof.
  unfold ReportProcessor.cleanup_files.
  induction l as [|p l IH]; intros w; simpl.
  - unfold ret. now rewrite set_disk_same.
  - unfold bind at 1 2. unfold get. simpl.
    destruct (decide (is_Some (disk w !! p))) as [Hp|Hp].
    + unfold modify. rewrite IH. destruct w. reflexivity.
    + unfold ret. rewrite IH. f_equal.
      rewrite (delete_id (disk w) p); [reflexivity|].
      destruct (disk w !! p) eqn:E; [|reflexivity]. exfalso. apply Hp. eauto.
Qed.

Lemma lookup_deleted (d : gmap string string) l : forall p,
  foldl (fun d p => delete p d) d l !! p
  = if bool_decide (p ∈ l) then None else d !! p.
Proof.
  revert d. induction l as [|q l IH]; intros d p; simpl; [reflexivity|].
  rewrite IH. destruct (decide (p = q)) as [->|Hne].
  - rewrite lookup_delete_eq.
    rewrite (bool_decide_eq_true_2 (q ∈ q :: l)) by left.
    now destruct (bool_decide (q ∈ l)).
  - rewrite lookup_delete_ne by congruence.
    destruct (decide (p ∈ l)) as [Hin|Hnin].
    + rewrite !bool_decide_eq_true_2; [reflexivity | now right | assumption].
    + rewrite !bool_decide_eq_false_2; [reflexivity | | assumption].
      intros [?|?]%elem_of_cons; contradiction.
Qed.

Lemma bind_inv {W A B} (c : M W A) (k : A -> M W B) w b w' :
  bind c k w = (Return b, w') ->
  exists a w1, c w = (Return a, w1) /\ k a w1 = (Return b, w').
Proof.
  unfold bind. destruct (c w) as [[a|e] w1]; [eauto | discriminate].
Qed.

(** [w1] has the files of [w], except perhaps at the paths of [S]. *)
Definition same_outside (S : list string) (w w1 : world) : Prop :=
  forall p, p ∉ S -> disk w1 !! p = disk w !! p.

Lemma same_outside_refl S w : same_outside S w w.
Proof. intros p _. reflexivity. Qed.

Lemma same_outside_trans S w w1 w2 :
  same_outside S w w1 -> same_outside S w1 w2 -> same_outside S w w2.
Proof. intros H1 H2 p Hp. rewrite (H2 p Hp). apply H1, Hp. Qed.

Lemma same_outside_disk S w w1 : disk w1 = disk w -> same_outside S w w1.
Proof. intros E p _. now rewrite E. Qed.

Section pipeline_steps.

Variable L : ReportProcessor.libs.

Lemma send_inv r w resp w1 :
  send r w = (Return resp, w1) -> w1 = record_request r w.
Proof.
  unfold send. destruct (respond w _); intros H; [discriminate|].
  now injection H as _ <-.
Qed.

Lemma raise_for_status_inv resp w u w1 :
  raise_for_status resp w = (Return u, w1) -> w1 = w.
Proof.
  unfold raise_for_status. destruct (_ && _); intros H; [discriminate|].
  now injection H as _ <-.
Qed.

Lemma write_file_run path content w :
  ReportProcessor.write_file path content w
  = (Return tt, set_disk (<[path := content]> (disk w)) w).
Proof. reflexivity. Qed.

Lemma write_file_outside S path content w :
  path ∈ S -> same_outside S w (set_disk (<[path := content]> (disk w)) w).
Proof.
  intros Hin p Hp. simpl. apply lookup_insert_ne. intros ->. contradiction.
Qed.

Lemma read_file_inv path w content w1 :
  ReportProcessor.read_file path w = (Return content, w1) -> w1 = w.
Proof.
  unfold ReportProcessor.read_file, bind, get. simpl.
  destruct (disk w !! path); intros H; [|discriminate]. now injection H as _ <-.
Qed.

Lemma NamedTemporaryFile_inv S suffix w name w1 :
  ReportProcessor.NamedTemporaryFile L suffix w = (Return name, w1) ->
  ReportProcessor.tmp_name L (tmp_count w) +:+ suffix ∈ S ->
  name = ReportProcessor.tmp_name L (tmp_count w) +:+ suffix /\ same_outside S w w1.
Proof.
  unfold ReportProcessor.NamedTemporaryFile, bind, get, modify, ret,
    ReportProcessor.write_file. simpl.
  intros H Hin. injection H as <- <-. split; [reflexivity|].
  intros p Hp. simpl. apply lookup_insert_ne. intros E. subst p. contradiction.
Qed.

Lemma decompress_file_inv S file_path w name w1 :
  ReportProcessor.decompress_file L file_path w = (Return name, w1) ->
  replace file_path ".gz" "" ∈ S ->
  name = replace file_path ".gz" "" /\ same_outside S w w1.
Proof.
  unfold ReportProcessor.decompress_file. intros H Hin.
  apply bind_inv in H as (c0 & w0 & H0 & H). apply read_file_inv in H0 as ->.
  apply bind_inv in H as ([] & w2 & H0 & H). rewrite write_file_run in H0.
  injection H0 as <-.
  apply bind_inv in H as (compressed & w3 & H0 & H). apply read_file_inv in H0 as ->.
  destruct (ReportProcessor.gunzip L compressed) as [plain|]; [|discriminate].
  apply bind_inv in H as ([] & w4 & H0 & H). rewrite write_file_run in H0.
  injection H0 as <-. injection H as <- <-. split; [reflexivity|].
  eapply same_outside_trans; apply write_file_outside; assumption.
Qed.

Lemma load_json_inv file_path w j w1 :
  ReportProcessor.load_json L file_path w = (Return j, w1) -> w1 = w.
Proof.
  unfold ReportProcessor.load_json. intros H.
  apply bind_inv in H as (text & w0 & H0 & H). apply read_file_inv in H0 as ->.
  destruct (ReportProcessor.json_load L text); [|discriminate].
  now injection H as _ <-.
Qed.

Lemma convert_json_to_csv_inv S json_data w name w1 :
  ReportProcessor.convert_json_to_csv L json_data w = (Return name, w1) ->
  "/tmp/report.csv" ∈ S ->
  name = "/tmp/report.csv" /\ same_outside S w w1.
Proof.
  unfold ReportProcessor.convert_json_to_csv. intros H Hin.
  destruct (ReportProcessor.json_normalize_to_csv L json_data) as [csv|]; [|discriminate].
  apply bind_inv in H as ([] & w0 & H0 & H). rewrite write_file_run in H0.
  injection H0 as <-. injection H as <- <-. split; [reflexivity|].
  now apply write_file_outside.
Qed.

Lemma convert_orc_to_csv_inv S file_path w name w1 :
  ReportProcessor.convert_orc_to_csv L file_path w = (Return name, w1) ->
  replace file_path ".orc" ".csv" ∈ S ->
  name = replace file_path ".orc" ".csv" /\ same_outside S w w1.
Proof.
  unfold ReportProcessor.convert_orc_to_csv. intros H Hin.
  apply bind_inv in H as (buf & w0 & H0 & H). apply read_file_inv in H0 as ->.
  destruct (ReportProcessor.orc_to_csv L buf) as [csv|]; [|discriminate].
  apply bind_inv in H as ([] & w2 & H0 & H). rewrite write_file_run in H0.
  injection H0 as <-. injection H as <- <-. split; [reflexivity|].
  now apply write_file_outside.
Qed.

Lemma upload_to_destination_inv beyond file_path report_type bucket template
    country_code date w u w1 :
  ReportProcessor.upload_to_destination beyond file_path report_type bucket template
    country_code date w = (Return u, w1) ->
  disk w1 = disk w.
Proof.
  unfold ReportProcessor.upload_to_destination. intros H.
  destruct (ReportProcessor.format_template _ _ _ _ _ _ _) as [s3_key|e]; [|discriminate].
  apply bind_inv in H as (content & w0 & H0 & H). apply read_file_inv in H0 as ->.
  apply bind_inv in H as (w2 & w3 & H0 & H). injection H0 as <- <-.
  destruct (s3_refuses _ _ _); [discriminate|].
  unfold modify in H. injection H as _ <-. reflexivity.
Qed.

(** The files left when a run over the paths [S] ends in [cleanup_files S]. *)
Lemma cleaned_up S w w1 w' :
  same_outside S w w1 ->
  ReportProcessor.cleanup_files S w1 = (Return tt, w') ->
  forall p, disk w' !! p = if bool_decide (p ∈ S) then None else disk w !! p.
Proof.
  intros Hout H p. rewrite cleanup_files_run in H. injection H as <-.
  simpl. rewrite lookup_deleted.
  destruct (decide (p ∈ S)) as [Hin|Hnin].
  - now rewrite bool_decide_eq_true_2.
  - rewrite bool_decide_eq_false_2 by assumption. now apply Hout.
Qed.

Lemma fetch_report_data_cleans report_url report_type s3_bucket_name
    destination_path_template country_code date w w' e :
  ReportProcessor.file_extension_of L report_url = Some e ->
  ReportProcessor.fetch_report_data L report_url report_type s3_bucket_name
    destination_path_template country_code date w = (Return tt, w') ->
  forall p,
    disk w' !! p
    = if bool_decide (p ∈ ReportProcessor.temporary_paths L e (record_request
                           (Request GET report_url JNull) w))
      then None else disk w !! p.
Proof.
  intros He H. unfold ReportProcessor.fetch_report_data in H. rewrite He in H.
  apply bind_inv in H as (response & w1 & H0 & H). apply send_inv in H0 as ->.
  set (w0 := record_request (Request GET report_url JNull) w) in *.
  change (disk w) with (disk w0).
  apply bind_inv in H as (u & w1 & H0 & H). apply raise_for_status_inv in H0 as ->.
  apply bind_inv in H as (local & w1 & H0 & H).
  set (S := ReportProcessor.temporary_paths L e w0).
  assert (Hlocal : ReportProcessor.tmp_name L (tmp_count w0)
                     +:+ ReportProcessor.suffix_of e ∈ S)
    by (subst S; destruct e; left).
  destruct (NamedTemporaryFile_inv S _ _ _ _ H0 Hlocal) as [-> Hout1]. clear H0.
  apply bind_inv in H as ([] & w2 & H0 & H). rewrite write_file_run in H0.
  injection H0 as <-.
  pose proof (same_outside_trans S _ _ _ Hout1
                (write_file_outside S _ (snd (fst response)) w1 Hlocal)) as Hout2.
  destruct e.
  - apply bind_inv in H as (csv & w3 & H0 & H).
    destruct (convert_orc_to_csv_inv S _ _ _ _ H0) as [-> Hout3];
      [subst S; right; left|]. clear H0.
    apply bind_inv in H as (u' & w4 & H0 & H).
    apply upload_to_destination_inv in H0.
    eapply cleaned_up; [|exact H].
    eapply same_outside_trans; [|apply same_outside_disk, H0].
    eapply same_outside_trans; eassumption.
  - apply bind_inv in H as (plain & w3 & H0 & H).
    destruct (decompress_file_inv S _ _ _ _ H0) as [-> Hout3];
      [subst S; right; left|]. clear H0.
    apply bind_inv in H as (j & w4 & H0 & H). apply load_json_inv in H0 as ->.
    apply bind_inv in H as (csv & w4 & H0 & H).
    destruct (convert_json_to_csv_inv S _ _ _ _ H0) as [-> Hout4];
      [subst S; right; right; left|]. clear H0.
    apply bind_inv in H as (u' & w5 & H0 & H).
    apply upload_to_destination_inv in H0.
    cut (forall p, disk w' !! p = if bool_decide (p ∈ S) then None else disk w0 !! p);
      [intros HS p; apply HS|].
    eapply cleaned_up; [|exact H].
    eapply same_outside_trans; [|apply same_outside_disk, H0].
    eapply same_outside_trans; [|eassumption].
    eapply same_outside_trans; eassumption.
  - apply bind_inv in H as (u' & w3 & H0 & H).
    apply upload_to_destination_inv in H0.
    assert (Hclean : forall p,
              disk w' !! p
              = if bool_decide (p ∈ [ReportProcessor.tmp_name L (tmp_count w0) +:+ ".csv";
                                     ReportProcessor.tmp_name L (tmp_count w0) +:+ ".csv"])
                then None else disk w0 !! p).
    { eapply cleaned_up; [|exact H].
      eapply same_outside_trans; [|apply same_outside_disk, H0].
      intros p Hp. apply Hout2. subst S. simpl.
      intros Hin. apply Hp. apply list_elem_of_singleton in Hin as ->. left. }
    intros p. rewrite Hclean. subst S. simpl.
    destruct (decide (p = ReportProcessor.tmp_name L (tmp_count w0) +:+ ".csv")) as [->|Hne].
    + rewrite !bool_decide_eq_true_2; [reflexivity | left | left].
    + rewrite !bool_decide_eq_false_2; [reflexivity | |].
      * intros Hin. apply list_elem_of_singleton in Hin. contradiction.
      * intros [?|Hin]%elem_of_cons; [contradiction|].
        apply list_elem_of_singleton in Hin. contradiction.
Qed.

End pipeline_steps.

(** C9, as amended.  When [fetch_report_data] returns normally, every
    temporary file it wrote (the downloaded file, the decompressed file and
    the generated CSV) has been removed, and every other local file is as it
    was; an invocation that returns leaves no new file behind. *)
Theorem temporary_files_removed_on_success :
  forall L report_url report_type s3_bucket_name destination_path_template country_code
         date w w' e,
    ReportProcessor.file_extension_of L report_url = Some e ->
    ReportProcessor.fetch_report_data L report_url report_type s3_bucket_name
      destination_path_template country_code date w = (Return tt, w') ->
    (forall p,
        disk w' !! p
        = if bool_decide (p ∈ ReportProcessor.temporary_paths L e w)
          then None else disk w !! p)
    /\ ReportProcessor.left_behind w w' = ∅.
Proof.
  intros L report_url report_type s3_bucket_name destination_path_template country_code
    date w w' e He Hrun.
  pose proof (fetch_report_data_cleans L _ _ _ _ _ _ _ _ _ He Hrun) as Hdisk.
  change (ReportProcessor.temporary_paths L e
            (record_request (Request GET report_url JNull) w))
    with (ReportProcessor.temporary_paths L e w) in Hdisk.
  split; [exact Hdisk|].
  unfold ReportProcessor.left_behind. apply set_eq. intros p.
  rewrite elem_of_difference, !elem_of_dom, Hdisk.
  split; [|intros H; inversion H].
  intros [Hin Hnot]. exfalso. apply Hnot.
  destruct (bool_decide _); [destruct Hin; discriminate | exact Hin].
Qed.

Lemma temporary_files_removed_on_success_witness :
  let url := "https://files.example/report.json.gz?sig=1" in
  let w := Scenario.fresh (Scenario.always
             (Response 200 (Scenario.gzip_of "[1]") None)) in
  let run := ReportProcessor.fetch_report_data Scenario.libraries url "x" "bucket"
               "de/{report_type}.csv" "US" 19723%Z w in
  (ReportProcessor.file_extension_of Scenario.libraries url = Some ReportProcessor.Gz
   /\ fst run = Return tt)
  /\ (forall p,
         disk (snd run) !! p
         = if bool_decide (p ∈ ["/tmp/tmp0.gz"; "/tmp/tmp0"; "/tmp/report.csv"])
           then None else disk w !! p)
  /\ ReportProcessor.left_behind w (snd run) = ∅.
Proof.
  intros url w run.
  assert (He : ReportProcessor.file_extension_of Scenario.libraries url
               = Some ReportProcessor.Gz) by reflexivity.
  assert (Hrun : ReportProcessor.fetch_report_data Scenario.libraries url "x" "bucket"
                   "de/{report_type}.csv" "US" 19723%Z w = (Return tt, snd run))
    by (vm_compute; reflexivity).
  split; [split; [exact He | vm_compute; reflexivity]|].
  exact (temporary_files_removed_on_success Scenario.libraries url "x" "bucket"
           "de/{report_type}.csv" "US" 19723%Z w (snd run) ReportProcessor.Gz He Hrun).
Defined.

(** C9, the claim as first stated, fails when a step raises: for a [.gz]
    report whose body is no gzip data, the call ends in the exception of
    [decompress_file], and both the downloaded file and the file opened for
    the decompressed data are still on disk. *)
Lemma failed_run_leaves_temporary_files :
  let w := Scenario.fresh (Scenario.always (Response 200 "not gzip" None)) in
  let run := ReportProcessor.fetch_report_data Scenario.libraries
               "https://files.example/report.json.gz?sig=1" "x" "bucket"
               "de/{report_type}.csv" "US" 19723%Z w in
  fst run = Raise (OSError "BadGzipFile")
  /\ disk w = ∅
  /\ disk (snd run) !! "/tmp/tmp0.gz" = Some "not gzip"
  /\ disk (snd run) !! "/tmp/tmp0" = Some "".
Proof. vm_compute. repeat split. Qed.

(** ** A run over a single day *)

Lemma daily_loop_done start_date end_date date_list :
  (end_date <= start_date)%Z ->
  CommonUtils.daily_loop start_date end_date date_list = date_list.
Proof.
  intros H. simp daily_loop.
  destruct (decide (start_date < end_date)%Z); [lia | reflexivity].
Qed.

Lemma same_day_no_range s d :
  Date.strptime s = Return d -> CommonUtils.make_api_calls_daily s s = Return [].
Proof.
  intros H. unfold CommonUtils.make_api_calls_daily. rewrite H.
  now rewrite daily_loop_done by lia.
Qed.

Lemma same_day_no_call fromisoformat process process' a st :
  AmcMain.start_date a = AmcMain.end_date a ->
  AmcMain.main fromisoformat process a st = AmcMain.main fromisoformat process' a st
  /\ sent (AMC.outside (snd (AmcMain.main fromisoformat process a st)))
     = sent (AMC.outside st).
Proof.
  intros Hsame. unfold AmcMain.main. rewrite <- Hsame.
  destruct (AmcMain.falsy (AmcMain.start_date a) || AmcMain.falsy (AmcMain.start_date a));
    [split; reflexivity|].
  destruct (AmcMain.falsy (AmcMain.country_code a)); [split; reflexivity|].
  destruct (AmcMain.falsy (AmcMain.report_type a)); [split; reflexivity|].
  destruct (fromisoformat (default "" (AmcMain.start_date a))) as [day|e];
    [|split; reflexivity].
  unfold CommonUtils.make_api_calls_daily.
  destruct (Date.strptime (Date.strftime day)) as [d|e]; [|split; reflexivity].
  rewrite daily_loop_done by lia. split; reflexivity.
Qed.

(** C10.  For a start date equal to the end date, [make_api_calls_daily]
    returns the empty list; and a run of the AMC entry point given equal
    start and end dates calls [process_report_config] for no date range,
    whatever that method is, and sends no request at all. *)
Theorem same_day_submits_nothing :
  (forall s d,
      Date.strptime s = Return d -> CommonUtils.make_api_calls_daily s s = Return [])
  /\ (forall fromisoformat process process' a st,
      AmcMain.start_date a = AmcMain.end_date a ->
      AmcMain.main fromisoformat process a st = AmcMain.main fromisoformat process' a st
      /\ sent (AMC.outside (snd (AmcMain.main fromisoformat process a st)))
         = sent (AMC.outside st)).
Proof.
  split.
  - apply same_day_no_range.
  - apply same_day_no_call.
Qed.

Lemma same_day_submits_nothing_witness :
  Date.strptime "2024-01-01" = Return 19723%Z
  /\ CommonUtils.make_api_calls_daily "2024-01-01" "2024-01-01" = Return [].
Proof.
  assert (H : Date.strptime "2024-01-01" = Return 19723%Z) by (vm_compute; reflexivity).
  split; [exact H|].
  exact (proj1 same_day_submits_nothing "2024-01-01" 19723%Z H).
Defined.

(** ** Date ranges *)

Lemma daily_loop_from start_date end_date : forall date_list,
  CommonUtils.daily_loop start_date end_date date_list
  = date_list ++ map (fun d => (Date.strftime d, Date.strftime (d + 1)))
                   (seqZ start_date (end_date - start_date)).
Proof.
  remember (Z.to_nat (end_date - start_date)) as k eqn:Hk.
  revert start_date Hk. induction k as [|k IH]; intros start_date Hk date_list;
    simp daily_loop; destruct (decide (start_date < end_date)%Z) as [Hlt|Hge]; simpl;
    try lia.
  - unfold seqZ. replace (Z.to_nat (end_date - start_date)) with 0 by lia.
    simpl. now rewrite app_nil_r.
  - rewrite IH by lia. rewrite <- app_assoc. f_equal.
    rewrite (seqZ_cons start_date (end_date - start_date)) by lia. simpl.
    do 3 f_equal; lia.
Qed.

(** X1.  [make_api_calls_daily] on two dates it can parse, from the year
    1000 on (where [strftime] writes the year with four digits), returns one
    range for each day from the start date up to, and without, the end date,
    in order: the range of a day runs from that day to the next.  When the
    end date is not after the start date the list is empty. *)
Theorem daily_ranges_are_consecutive_days :
  forall report_start_date report_end_date start_date end_date,
    Date.strptime report_start_date = Return start_date ->
    Date.strptime report_end_date = Return end_date ->
    (Date.days_from_civil 1000 1 1 <= start_date)%Z ->
    CommonUtils.make_api_calls_daily report_start_date report_end_date
    = Return (map (fun d => (Date.strftime d, Date.strftime (d + 1)))
                (seqZ start_date (end_date - start_date))).
Proof.
  intros report_start_date report_end_date start_date end_date Hs He _.
  unfold CommonUtils.make_api_calls_daily. rewrite Hs, He.
  now rewrite daily_loop_from.
Qed.

Lemma daily_ranges_are_consecutive_days_witness :
  (Date.strptime "2024-02-28" = Return 19781%Z
   /\ Date.strptime "2024-03-01" = Return 19783%Z)
  /\ CommonUtils.make_api_calls_daily "2024-02-28" "2024-03-01"
     = Return [("2024-02-28", "2024-02-29"); ("2024-02-29", "2024-03-01")].
Proof.
  split; [split; reflexivity|].
  exact (daily_ranges_are_consecutive_days "2024-02-28" "2024-03-01" 19781%Z 19783%Z
           eq_refl eq_refl ltac:(vm_compute; discriminate)).
Defined.

Lemma map_seqZ_shift {A} (f : Z -> A) q :
  (0 <= q)%Z -> map f (seqZ 0 (q + 1)) = f 0%Z :: map (fun k => f (k + 1)%Z) (seqZ 0 q).
Proof.
  intros Hq. rewrite (seqZ_cons 0 (q + 1)) by lia.
  replace (Z.pred (q + 1)) with q by lia.
  cbn [map]. f_equal.
  replace (Z.succ 0) with (1 + 0)%Z by reflexivity.
  rewrite <- (fmap_add_seqZ 1 0 q).
  rewrite <- list_fmap_compose. apply map_ext. intros k. simpl. f_equal. lia.
Qed.

Lemma intervals_loop_from fuel : forall a b n acc,
  (1 <= n)%Z -> (CommonUtils.min_day <= a)%Z -> (b + n <= CommonUtils.max_day)%Z ->
  (Z.max 0 (b - a + 1) < Z.of_nat fuel)%Z ->
  CommonUtils.intervals_loop fuel a b n acc
  = CommonUtils.Intervals
      (acc ++ map (fun k => (Date.strftime (a + k * n),
                             Date.strftime (Z.min (a + k * n + (n - 1)) b)))
                (seqZ 0 ((b - a + n) / n))).
Proof.
  induction fuel as [|fuel IH]; intros a b n acc Hn Ha Hb Hfuel.
  - lia.
  - simpl. destruct (a <=? b)%Z eqn:Hab.
    + apply Z.leb_le in Hab.
      unfold CommonUtils.in_range.
      assert (Hr1 : (CommonUtils.min_day <=? a + (n - 1))%Z
                    && (a + (n - 1) <=? CommonUtils.max_day)%Z = true).
      { apply andb_true_intro; split; apply Z.leb_le; lia. }
      rewrite Hr1.
      assert (Hr2 : (CommonUtils.min_day <=? Z.min (a + (n - 1)) b + 1)%Z
                    && (Z.min (a + (n - 1)) b + 1 <=? CommonUtils.max_day)%Z = true).
      { apply andb_true_intro; split; apply Z.leb_le; lia. }
      rewrite Hr2.
      rewrite IH by lia. f_equal. rewrite <- app_assoc. f_equal.
      assert (Hq : ((b - a + n) / n = (b - (Z.min (a + (n - 1)) b + 1) + n) / n + 1)%Z).
      { destruct (Z.le_gt_cases (a + (n - 1)) b) as [Hle|Hgt].
        - rewrite Z.min_l by lia.
          replace (b - a + n)%Z with ((b - (a + (n - 1) + 1) + n) + 1 * n)%Z by lia.
          rewrite Z.div_add by lia. reflexivity.
        - rewrite Z.min_r by lia.
          replace (b - (b + 1) + n)%Z with (n - 1)%Z by lia.
          rewrite (Z.div_small (n - 1) n) by lia.
          replace (b - a + n)%Z with ((b - a) + 1 * n)%Z by lia.
          rewrite Z.div_add by lia. rewrite (Z.div_small (b - a) n) by lia. reflexivity. }
      rewrite Hq.
      assert (Hc : (0 <= (b - (Z.min (a + (n - 1)) b + 1) + n) / n)%Z).
      { apply Z.div_pos; lia. }
      rewrite map_seqZ_shift by exact Hc. simpl.
      f_equal; [do 2 f_equal; lia|].
      destruct (Z.le_gt_cases (a + (n - 1)) b) as [Hle|Hgt].
      * rewrite Z.min_l by lia. apply map_ext. intros k.
        f_equal; f_equal; [lia | f_equal; lia].
      * rewrite Z.min_r by lia.
        replace (b - (b + 1) + n)%Z with (n - 1)%Z by lia.
        rewrite (Z.div_small (n - 1) n) by lia. reflexivity.
    + apply Z.leb_gt in Hab.
      assert (Hz : ((b - a + n) / n <= 0)%Z).
      { assert ((b - a + n) / n < 1)%Z; [|lia].
        apply Z.div_lt_upper_bound; lia. }
      unfold seqZ. replace (Z.to_nat ((b - a + n) / n)) with 0 by lia.
      simpl. now rewrite app_nil_r.
Qed.

(** X2.  [generate_intervals] with at least one day to an interval, on two
    dates it can parse, from the year 1000 on and far enough from the last
    day a [datetime] holds:
    the loop ends, and the intervals it returns split the days from the
    start date to the end date in order, without gap or overlap.  Interval
    [k] starts [k * interval_days] days after the start date and lasts
    [interval_days] days, the last one cut at the end date.  When the end
    date is before the start date the list is empty. *)
Theorem intervals_split_the_range :
  forall fuel report_start_date report_end_date start_date end_date interval_days,
    Date.strptime report_start_date = Return start_date ->
    Date.strptime report_end_date = Return end_date ->
    (1 <= interval_days)%Z ->
    (Date.days_from_civil 1000 1 1 <= start_date)%Z ->
    (end_date + interval_days <= CommonUtils.max_day)%Z ->
    (Z.max 0 (end_date - start_date + 1) < Z.of_nat fuel)%Z ->
    CommonUtils.generate_intervals fuel report_start_date report_end_date interval_days
    = Return (CommonUtils.Intervals
                (map (fun k =>
                        (Date.strftime (start_date + k * interval_days),
                         Date.strftime
                           (Z.min (start_date + k * interval_days + (interval_days - 1))
                              end_date)))
                   (seqZ 0 ((end_date - start_date + interval_days) / interval_days)))).
Proof.
  intros fuel report_start_date report_end_date start_date end_date interval_days
    Hs He Hn Ha Hb Hfuel.
  unfold CommonUtils.generate_intervals. rewrite Hs, He.
  rewrite intervals_loop_from; [reflexivity | assumption | | assumption | assumption].
  etransitivity; [|exact Ha]. vm_compute. discriminate.
Qed.

Lemma intervals_split_the_range_witness :
  (Date.strptime "2024-01-01" = Return 19723%Z
   /\ Date.strptime "2024-01-25" = Return 19747%Z)
  /\ CommonUtils.generate_intervals 30 "2024-01-01" "2024-01-25" 10
     = Return (CommonUtils.Intervals
                 [("2024-01-01", "2024-01-10"); ("2024-01-11", "2024-01-20");
                  ("2024-01-21", "2024-01-25")]).
Proof.
  split; [split; reflexivity|].
  exact (intervals_split_the_range 30 "2024-01-01" "2024-01-25" 19723%Z 19747%Z 10%Z
           eq_refl eq_refl ltac:(lia) ltac:(vm_compute; discriminate)
           ltac:(unfold CommonUtils.max_day; lia) ltac:(lia)).
Defined.

Lemma intervals_loop_stuck fuel : forall a b acc,
  (CommonUtils.min_day < a)%Z -> (a <= b)%Z -> (b <= CommonUtils.max_day)%Z ->
  CommonUtils.intervals_loop fuel a b 0 acc = CommonUtils.StillRunning.
Proof.
  induction fuel as [|fuel IH]; intros a b acc Ha Hab Hb; [reflexivity|].
  simpl. rewrite (proj2 (Z.leb_le a b) Hab).
  unfold CommonUtils.in_range.
  replace (Z.min (a + (0 - 1)) b + 1)%Z with a by lia.
  rewrite (proj2 (Z.leb_le CommonUtils.min_day (a + (0 - 1))) ltac:(lia)).
  rewrite (proj2 (Z.leb_le (a + (0 - 1)) CommonUtils.max_day) ltac:(lia)).
  rewrite (proj2 (Z.leb_le CommonUtils.min_day a) ltac:(lia)).
  rewrite (proj2 (Z.leb_le a CommonUtils.max_day) ltac:(lia)).
  simpl. apply IH; assumption.
Qed.

(** X3.  [generate_intervals] with [interval_days = 0] never returns when
    the start date is not after the end date: each round appends an interval
    that ends the day before it starts and leaves the start date where it
    was, so however many rounds the loop is given, it is still running. *)
Theorem zero_interval_days_never_returns :
  forall fuel report_start_date report_end_date start_date end_date,
    Date.strptime report_start_date = Return start_date ->
    Date.strptime report_end_date = Return end_date ->
    (CommonUtils.min_day < start_date)%Z ->
    (start_date <= end_date)%Z ->
    (end_date <= CommonUtils.max_day)%Z ->
    CommonUtils.generate_intervals fuel report_start_date report_end_date 0
    = Return CommonUtils.StillRunning.
Proof.
  intros fuel report_start_date report_end_date start_date end_date Hs He Ha Hab Hb.
  unfold CommonUtils.generate_intervals. rewrite Hs, He.
  now rewrite intervals_loop_stuck.
Qed.

Lemma zero_interval_days_never_returns_witness :
  (Date.strptime "2024-01-01" = Return 19723%Z
   /\ Date.strptime "2024-01-02" = Return 19724%Z)
  /\ CommonUtils.generate_intervals 1000 "2024-01-01" "2024-01-02" 0
     = Return CommonUtils.StillRunning.
Proof.
  split; [split; reflexivity|].
  exact (zero_interval_days_never_returns 1000 "2024-01-01" "2024-01-02" 19723%Z 19724%Z
           eq_refl eq_refl ltac:(unfold CommonUtils.min_day; lia) ltac:(lia)
           ltac:(unfold CommonUtils.max_day; lia)).
Defined.

(** ** More on the pipeline *)

(** X4.  When the download of a report is answered with an HTTP error
    status, [fetch_report_data] raises at [raise_for_status]: the one GET is
    all that has happened, no temporary file has been created and nothing
    has been uploaded. *)
Theorem http_error_stops_the_download :
  forall L report_url report_type s3_bucket_name destination_path_template country_code
         date w e code body parsed,
    ReportProcessor.file_extension_of L report_url = Some e ->
    respond w (Request GET report_url JNull :: sent w) = Response code body parsed ->
    (400 <=? code)%nat && (code <? 600)%nat = true ->
    ReportProcessor.fetch_report_data L report_url report_type s3_bucket_name
      destination_path_template country_code date w
    = (Raise (RequestException "HTTPError"),
       record_request (Request GET report_url JNull) w).
Proof.
  intros L report_url report_type s3_bucket_name destination_path_template country_code
    date w e code body parsed He Hr Hc.
  unfold ReportProcessor.fetch_report_data. rewrite He.
  unfold bind at 1. unfold send. cbn [sent record_request]. rewrite Hr.
  unfold bind at 1. unfold raise_for_status. cbn [fst]. rewrite Hc. reflexivity.
Qed.

Lemma http_error_stops_the_download_witness :
  let url := "https://files.example/report.csv?sig=1" in
  let w := Scenario.fresh (Scenario.always (Response 403 "denied" None)) in
  ReportProcessor.file_extension_of Scenario.libraries url = Some ReportProcessor.Csv
  /\ ReportProcessor.fetch_report_data Scenario.libraries url "x" "bucket"
       "de/{report_type}.csv" "US" 19723%Z w
     = (Raise (RequestException "HTTPError"), record_request (Request GET url JNull) w).
Proof.
  intros url w. split; [reflexivity|].
  exact (http_error_stops_the_download Scenario.libraries url "x" "bucket"
           "de/{report_type}.csv" "US" 19723%Z w ReportProcessor.Csv 403 "denied" None
           eq_refl eq_refl eq_refl).
Defined.

Lemma csv_report_run L report_url report_type s3_bucket_name destination_path_template
    country_code date w code body parsed s3_key :
  ReportProcessor.file_extension_of L report_url = Some ReportProcessor.Csv ->
  respond w (Request GET report_url JNull :: sent w) = Response code body parsed ->
  (400 <=? code)%nat && (code <? 600)%nat = false ->
  ReportProcessor.format_template (ReportProcessor.format_beyond L)
    destination_path_template report_type country_code (Date.strftime_Y date)
    (Date.strftime_m date) (Date.strftime_d date) = Return s3_key ->
  s3_refuses w s3_bucket_name s3_key = false ->
  exists w',
    ReportProcessor.fetch_report_data L report_url report_type s3_bucket_name
      destination_path_template country_code date w = (Return tt, w')
    /\ s3 w' = <[(s3_bucket_name, s3_key) := body]> (s3 w)
    /\ sent w' = Request GET report_url JNull :: sent w.
Proof.
  intros He Hr Hc Hkey Hs3.
  unfold ReportProcessor.fetch_report_data. rewrite He.
  unfold bind at 1. unfold send. cbn [sent record_request]. rewrite Hr.
  unfold bind at 1. unfold raise_for_status. cbn [fst]. rewrite Hc.
  unfold ret at 1.
  unfold ReportProcessor.NamedTemporaryFile, ReportProcessor.upload_to_destination,
    ReportProcessor.write_file, ReportProcessor.read_file.
  rewrite Hkey.
  unfold bind, get, modify, ret, set_s3, set_disk, bump_tmp, record_request.
  simpl. rewrite lookup_insert_eq. simpl. rewrite Hs3. simpl.
  rewrite cleanup_files_run. eexists. split; [reflexivity|]. split; reflexivity.
Qed.

(** X5.  A report whose URL ends in [.csv] is uploaded as it was
    downloaded: when the download succeeds, the destination key can be
    formatted and S3 takes the upload, [fetch_report_data] returns, the
    object at the formatted key holds the bytes of the response, no other
    object has changed, and the download was the only request. *)
Theorem csv_report_is_uploaded_as_downloaded :
  forall L report_url report_type s3_bucket_name destination_path_template country_code
         date w code body parsed s3_key,
    ReportProcessor.file_extension_of L report_url = Some ReportProcessor.Csv ->
    respond w (Request GET report_url JNull :: sent w) = Response code body parsed ->
    (400 <=? code)%nat && (code <? 600)%nat = false ->
    ReportProcessor.format_template (ReportProcessor.format_beyond L)
      destination_path_template report_type country_code (Date.strftime_Y date)
      (Date.strftime_m date) (Date.strftime_d date) = Return s3_key ->
    s3_refuses w s3_bucket_name s3_key = false ->
    let run := ReportProcessor.fetch_report_data L report_url report_type s3_bucket_name
                 destination_path_template country_code date w in
    fst run = Return tt
    /\ s3 (snd run) = <[(s3_bucket_name, s3_key) := body]> (s3 w)
    /\ sent (snd run) = Request GET report_url JNull :: sent w.
Proof.
  intros L report_url report_type s3_bucket_name destination_path_template country_code
    date w code body parsed s3_key He Hr Hc Hkey Hs3 run. subst run.
  destruct (csv_report_run L report_url report_type s3_bucket_name
              destination_path_template country_code date w code body parsed s3_key
              He Hr Hc Hkey Hs3) as (w' & -> & Hs & Hsent).
  split; [reflexivity|]. split; assumption.
Qed.

Lemma csv_report_is_uploaded_as_downloaded_witness :
  let url := "https://files.example/report.csv?sig=1" in
  let w := Scenario.fresh (Scenario.always (Response 200 "a,b" None)) in
  let run := ReportProcessor.fetch_report_data Scenario.libraries url "x" "bucket"
               "de/{country_code}/{report_type}_{year}{month}{day}.csv" "US" 19723%Z w in
  ReportProcessor.file_extension_of Scenario.libraries url = Some ReportProcessor.Csv
  /\ fst run = Return tt
  /\ s3 (snd run) = <[("bucket", "de/US/x_20240101.csv") := "a,b"]> (s3 w)
  /\ sent (snd run) = Request GET url JNull :: sent w.
Proof.
  intros url w run. split; [reflexivity|].
  exact (csv_report_is_uploaded_as_downloaded Scenario.libraries url "x" "bucket"
           "de/{country_code}/{report_type}_{year}{month}{day}.csv" "US" 19723%Z w 200
           "a,b" None "de/US/x_20240101.csv" eq_refl eq_refl eq_refl eq_refl eq_refl).
Defined.

(** X6.  [cleanup_files] on regular files never raises, whatever the list:
    a path that is not there, or that is listed twice, is passed over.
    Afterwards none of the listed paths exists, every other file is as it
    was, and nothing but the disk has changed. *)
Theorem cleanup_removes_the_listed_files :
  forall file_paths w,
    let run := ReportProcessor.cleanup_files file_paths w in
    fst run = Return tt
    /\ (forall p, disk (snd run) !! p
                  = if bool_decide (p ∈ file_paths) then None else disk w !! p)
    /\ sent (snd run) = sent w
    /\ s3 (snd run) = s3 w.
Proof.
  intros file_paths w run. subst run. rewrite cleanup_files_run.
  split; [reflexivity|]. split; [|split; reflexivity].
  intros p. simpl. apply lookup_deleted.
Qed.

(** X7.  [s3_manual_upload] never raises: its [except] clause logs the
    error and falls through, so the caller gets a normal return whether the
    frame was stored or not.  S3 is either as it was, or holds the frame's
    CSV text at the key formatted from the destination path. *)
Theorem manual_upload_swallows_errors :
  forall beyond destination_bucket destination_path csv max_date report_type country_code
         w,
    let run := ReportProcessor.s3_manual_upload beyond destination_bucket destination_path
                 csv max_date report_type country_code w in
    fst run = Return tt
    /\ (s3 (snd run) = s3 w
        \/ exists s3_key body,
             ReportProcessor.format_template beyond destination_path report_type
               country_code (Date.strftime_Y max_date) (Date.strftime_m max_date)
               (Date.strftime_d max_date) = Return s3_key
             /\ csv = Some body
             /\ s3_refuses w destination_bucket s3_key = false
             /\ s3 (snd run) = <[(destination_bucket, s3_key) := body]> (s3 w)).
Proof.
  intros beyond destination_bucket destination_path csv max_date report_type country_code
    w run. subst run. unfold ReportProcessor.s3_manual_upload.
  destruct (ReportProcessor.format_template _ _ _ _ _ _ _) as [s3_key|e] eqn:Hkey;
    [|split; [reflexivity | left; reflexivity]].
  destruct csv as [body|]; [|split; [reflexivity | left; reflexivity]].
  unfold bind, get. cbn [fst snd].
  destruct (s3_refuses w destination_bucket s3_key) eqn:Hs3;
    [split; [reflexivity | left; reflexivity]|].
  split; [reflexivity|]. right. exists s3_key, body. repeat split. exact Hs3.
Qed.

(** The same upload refused by S3: the call returns as if it had worked,
    and nothing is stored. *)
Lemma refused_manual_upload_returns :
  let w := World (Scenario.always Unreachable) [] [] ∅ ∅ (fun _ _ => true) 0 19723 in
  let run := ReportProcessor.s3_manual_upload Scenario.unformattable "bucket"
               "de/{report_type}_{year}_{month}_{day}.csv" (Some "a,b") 19723%Z "x" "US" w in
  fst run = Return tt /\ s3 (snd run) = ∅.
Proof. vm_compute. repeat split. Qed.

(** ** What a poller that times out has done *)

Section unfinished_job.

Context {W A : Type}.
Variable body : nat -> M W (option A).
Variable pause : M W unit.

(** What one pass and one pause do to the state while the job stays
    unfinished. *)
Variable polled_once paused : W -> W.
Variable I : W -> Prop.
Hypothesis body_pending : forall n w, I w -> body n w = (Return None, polled_once w).
Hypothesis pause_run : forall w, pause w = (Return tt, paused w).
Hypothesis I_kept : forall w, I w -> I (paused (polled_once w)).

Lemma while_retries_unfinished max_retries retries w :
  I w ->
  while_retries max_retries retries body pause w
  = (Return None,
     Nat.iter (max_retries - retries) (fun w => paused (polled_once w)) w).
Proof.
  remember (max_retries - retries) as m eqn:Hm.
  revert retries w Hm.
  induction m as [|m IH]; intros retries w Hm Hw; rewrite while_retries_step.
  - destruct (decide (retries < max_retries)); [lia | reflexivity].
  - destruct (decide (retries < max_retries)); [|lia].
    rewrite (body_pending retries w Hw), pause_run.
    rewrite (IH (S retries)) by (try lia; now apply I_kept).
    now rewrite Nat.iter_succ_r.
Qed.

End unfinished_job.

Lemma rounds_sent g n k w :
  sent (Nat.iter k (fun w => record_sleep n (record_request g w)) w)
  = replicate k g ++ sent w.
Proof.
  induction k as [|k IH]; [reflexivity|]. simpl. now rewrite IH.
Qed.

Lemma rounds_slept g n k w :
  slept (Nat.iter k (fun w => record_sleep n (record_request g w)) w)
  = replicate k n ++ slept w.
Proof.
  induction k as [|k IH]; [reflexivity|]. simpl. now rewrite IH.
Qed.

Lemma rounds_respond g n k w :
  respond (Nat.iter k (fun w => record_sleep n (record_request g w)) w) = respond w.
Proof.
  induction k as [|k IH]; [reflexivity|]. simpl. exact IH.
Qed.

Lemma instacart_poll_once_world url n w :
  snd (Instacart.poll_once url n w) = record_request (Request GET url JNull) w.
Proof. unfold Instacart.poll_once. run_poll. Qed.

Lemma instacart_poll_pending url n w :
  Instacart.pending (respond w (Request GET url JNull :: sent w)) = true ->
  Instacart.poll_once url n w = (Return None, record_request (Request GET url JNull) w).
Proof.
  intros H. rewrite (surjective_pairing (Instacart.poll_once url n w)).
  now rewrite instacart_pending_poll, instacart_poll_once_world.
Qed.

Lemma ads_timeout_run budget me id base w :
  AmazonAds.api_urls me !! "report_url" = Some base ->
  (forall h, AmazonAds.pending (respond w h) = true) ->
  AmazonAds.fetch_report_url_within budget me id w
  = (Raise (TimeoutError "Timeout: Report not generated within specified retries."),
     Nat.iter budget
       (fun w => record_sleep 300
                   (record_request (Request GET (AmazonAds.status_url base id) JNull) w)) w).
Proof.
  intros Hbase Hpend. unfold AmazonAds.fetch_report_url_within. rewrite Hbase.
  unfold bind.
  rewrite (while_retries_unfinished _ (sleep 300)
             (record_request (Request GET (AmazonAds.status_url base id) JNull))
             (record_sleep 300) (fun w' => respond w' = respond w)).
  - now rewrite Nat.sub_0_r.
  - intros n w' Hw'. apply ads_poll_pending. rewrite Hw'. apply Hpend.
  - reflexivity.
  - intros w' Hw'. exact Hw'.
  - reflexivity.
Qed.

Lemma instacart_timeout_run budget me id base w :
  Instacart.api_urls me !! "report_url" = Some base ->
  (forall h, Instacart.pending (respond w h) = true) ->
  Instacart.fetch_report_url_within budget me id w
  = (Raise (TimeoutError "Timeout: Report not generated within specified retries."),
     Nat.iter budget
       (fun w => record_sleep 300
                   (record_request (Request GET (Instacart.status_url base id) JNull) w)) w).
Proof.
  intros Hbase Hpend. unfold Instacart.fetch_report_url_within. rewrite Hbase.
  unfold bind.
  rewrite (while_retries_unfinished _ (sleep 300)
             (record_request (Request GET (Instacart.status_url base id) JNull))
             (record_sleep 300) (fun w' => respond w' = respond w)).
  - now rewrite Nat.sub_0_r.
  - intros n w' Hw'. apply instacart_poll_pending. rewrite Hw'. apply Hpend.
  - reflexivity.
  - intros w' Hw'. exact Hw'.
  - reflexivity.
Qed.

Lemma amc_rounds g n k st :
  Nat.iter k
    (fun st => AMC.State (record_sleep n (record_request g (AMC.outside st)))
                 (AMC.wf_status st)) st
  = AMC.State (Nat.iter k (fun w => record_sleep n (record_request g w)) (AMC.outside st))
      (AMC.wf_status st).
Proof.
  induction k as [|k IH]; simpl; [now destruct st|]. now rewrite IH.
Qed.

Lemma amc_timeout_run budget me id base st :
  AMC.api_urls me !! "report_url" = Some base ->
  (forall h, AMC.pending (respond (AMC.outside st) h) = true) ->
  AMC.fetch_report_url_within budget me (JStr id) st
  = (Raise (TimeoutError "Timeout: Report not generated within specified retries."),
     AMC.State
       (Nat.iter budget
          (fun w => record_sleep 180
                      (record_request (Request GET (AMC.status_url me base id) JNull) w))
          (AMC.outside st))
       (AMC.wf_status st)).
Proof.
  intros Hbase Hpend. unfold AMC.fetch_report_url_within. rewrite Hbase.
  unfold bind.
  set (g := Request GET (AMC.status_url me base id) JNull).
  rewrite (while_retries_unfinished _ (AMC.lift (sleep 180))
             (fun st => AMC.State (record_request g (AMC.outside st)) (AMC.wf_status st))
             (fun st => AMC.State (record_sleep 180 (AMC.outside st)) (AMC.wf_status st))
             (fun st' => respond (AMC.outside st') = respond (AMC.outside st)
                         /\ AMC.wf_status st' = AMC.wf_status st)).
  - rewrite Nat.sub_0_r. cbv beta iota. f_equal. apply (amc_rounds g 180 budget st).
  - intros n st' [Hw' _]. apply amc_poll_pending. rewrite Hw'. apply Hpend.
  - reflexivity.
  - intros st' Hst'. exact Hst'.
  - split; reflexivity.
Qed.

(** X8.  A poller whose every status answer leaves the job unfinished
    pauses after each poll, the last one included: by the time it raises
    [TimeoutError] it has sent [budget] polls and slept [budget] times, 300
    seconds each for Amazon Ads and Instacart and 180 for Amazon Marketing
    Cloud, and Amazon Marketing Cloud has recorded no failure row. *)
Theorem timed_out_poller_slept_after_every_poll :
  (forall budget me id base w,
      AmazonAds.api_urls me !! "report_url" = Some base ->
      (forall h, AmazonAds.pending (respond w h) = true) ->
      let run := AmazonAds.fetch_report_url_within budget me id w in
      fst run = Raise (TimeoutError "Timeout: Report not generated within specified retries.")
      /\ sent (snd run)
         = replicate budget (Request GET (AmazonAds.status_url base id) JNull) ++ sent w
      /\ slept (snd run) = replicate budget 300 ++ slept w)
  /\ (forall budget me id base w,
      Instacart.api_urls me !! "report_url" = Some base ->
      (forall h, Instacart.pending (respond w h) = true) ->
      let run := Instacart.fetch_report_url_within budget me id w in
      fst run = Raise (TimeoutError "Timeout: Report not generated within specified retries.")
      /\ sent (snd run)
         = replicate budget (Request GET (Instacart.status_url base id) JNull) ++ sent w
      /\ slept (snd run) = replicate budget 300 ++ slept w)
  /\ (forall budget me id base st,
      AMC.api_urls me !! "report_url" = Some base ->
      (forall h, AMC.pending (respond (AMC.outside st) h) = true) ->
      let run := AMC.fetch_report_url_within budget me (JStr id) st in
      fst run = Raise (TimeoutError "Timeout: Report not generated within specified retries.")
      /\ sent (AMC.outside (snd run))
         = replicate budget (Request GET (AMC.status_url me base id) JNull)
             ++ sent (AMC.outside st)
      /\ slept (AMC.outside (snd run)) = replicate budget 180 ++ slept (AMC.outside st)
      /\ AMC.wf_status (snd run) = AMC.wf_status st).
Proof.
  split; [|split].
  - intros budget me id base w Hbase Hpend run. subst run.
    rewrite (ads_timeout_run budget me id base w Hbase Hpend).
    split; [reflexivity|]. split; [apply rounds_sent | apply rounds_slept].
  - intros budget me id base w Hbase Hpend run. subst run.
    rewrite (instacart_timeout_run budget me id base w Hbase Hpend).
    split; [reflexivity|]. split; [apply rounds_sent | apply rounds_slept].
  - intros budget me id base st Hbase Hpend run. subst run.
    rewrite (amc_timeout_run budget me id base st Hbase Hpend).
    split; [reflexivity|]. split; [apply rounds_sent|].
    split; [apply rounds_slept | reflexivity].
Qed.

Lemma timed_out_poller_slept_after_every_poll_witness :
  let w := Scenario.fresh (Scenario.always (Scenario.status_is "IN_PROGRESS")) in
  let run := AmazonAds.fetch_report_url Scenario.ads (JStr "job-1") w in
  fst run = Raise (TimeoutError "Timeout: Report not generated within specified retries.")
  /\ sent (snd run)
     = replicate 15 (Request GET "https://ads.example/reporting/reports/job-1" JNull)
  /\ slept (snd run) = replicate 15 300.
Proof.
  intros w run.
  destruct (proj1 timed_out_poller_slept_after_every_poll 15 Scenario.ads (JStr "job-1")
              "https://ads.example/reporting/reports" w eq_refl (fun h => eq_refl))
    as (H1 & H2 & H3).
  split; [exact H1|]. split.
  - etransitivity; [exact H2|]. apply app_nil_r.
  - etransitivity; [exact H3|]. apply app_nil_r.
Defined.

(** ** What the signed call hands back *)

(** X9.  [api_call_with_delay] hands back only an answer that is a JSON
    object without an [errors] key.  By then it has sent the same request
    [k + 1] times for some [k] and slept ten seconds after each of the first
    [k]; it has sent and slept nothing else. *)
Theorem signed_call_returns_no_errors :
  forall fuel method endpoint body w r w',
    AWSConnection.api_call_with_delay fuel method endpoint body w = (Some (Return r), w') ->
    (exists d, r = JDict d /\ assoc "errors" d = None)
    /\ exists k,
         sent w' = replicate (S k) (Request method endpoint body) ++ sent w
         /\ slept w' = replicate k 10 ++ slept w.
Proof.
  induction fuel as [|fuel IH]; intros method endpoint body w r w' H; [discriminate|].
  simpl in H.
  unfold AWSConnection.call_aws_rest_api, bind, send in H. simpl in H.
  destruct (respond w (_ :: sent w)) as [|code text [j|]]; simpl in H; try discriminate.
  destruct j as [| | | | |d]; simpl in H; try discriminate.
  destruct (assoc "errors" d) as [errors|] eqn:He; simpl in H.
  - unfold AWSConnection.first_error_is_quota, bind, subscript in H. simpl in H.
    rewrite He in H. simpl in H.
    destruct errors as [| | | |[|e errs]|]; simpl in H; try discriminate.
    destruct e as [| | | | |e]; simpl in H; try discriminate.
    destruct (assoc "code" e) as [c|]; simpl in H; try discriminate.
    destruct (eq_str c "QuotaExceeded"); [|discriminate].
    apply IH in H as [Hr (k & Hsent & Hslept)]. split; [exact Hr|].
    exists (S k). simpl in Hsent, Hslept. split.
    + rewrite Hsent. simpl. now rewrite replicate_snoc_cons.
    + rewrite Hslept. simpl. now rewrite replicate_snoc_cons.
  - injection H as <- <-. split; [eauto|]. exists 0. split; reflexivity.
Qed.


Lemma signed_call_returns_no_errors_witness :
  let w := Scenario.fresh (Scenario.scripted
             [Scenario.quota_error; Scenario.quota_error;
              Scenario.ok (JDict [("reportId", JStr "report-1")])]) in
  let run := AWSConnection.api_call_with_delay 5 POST "https://sp.example/reports" JNull w in
  fst run = Some (Return (JDict [("reportId", JStr "report-1")]))
  /\ (exists d, JDict [("reportId", JStr "report-1")] = JDict d /\ assoc "errors" d = None)
  /\ exists k,
       sent (snd run) = replicate (S k) (Request POST "https://sp.example/reports" JNull)
                          ++ sent w
       /\ slept (snd run) = replicate k 10 ++ slept w.
Proof.
  intros w run. split; [reflexivity|].
  exact (signed_call_returns_no_errors 5 POST "https://sp.example/reports" JNull w
           (JDict [("reportId", JStr "report-1")]) (snd run) eq_refl).
Defined.

(** An answer with an error that is not QuotaExceeded ends the call in an
    exception that carries the answer. *)
Lemma other_error_is_raised :
  let answer := JDict [("errors", JList [JDict [("code", JStr "InvalidInput")]])] in
  let w := Scenario.fresh (Scenario.always (Response 400 "" (Some answer))) in
  let run := AWSConnection.api_call_with_delay 5 POST "https://sp.example/reports" JNull w in
  fst run = Some (Raise (Exception "{'errors': [{'code': 'InvalidInput'}]}"))
  /\ sent (snd run) = [Request POST "https://sp.example/reports" JNull]
  /\ slept (snd run) = [].
Proof. vm_compute. repeat split. Qed.

(** ** Names of the daily files *)

Lemma split_nonempty c s : split c s <> [].
Proof.
  destruct s as [|x s]; simpl; [discriminate|].
  destruct (Ascii.eqb x c); [discriminate|].
  destruct (split c s); discriminate.
Qed.

(** A string without the separator is one part. *)
Lemma split_no_sep c s : has_char c s = false -> split c s = [s].
Proof.
  induction s as [|x s IH]; simpl; [reflexivity|].
  intros H. apply orb_false_elim in H as [Hx Hs].
  rewrite Hx, (IH Hs). reflexivity.
Qed.

(** Splitting on both sides of a separator. *)
Lemma split_at_sep c s t : split c (s +:+ String c t) = split c s ++ split c t.
Proof.
  induction s as [|x s IH]; simpl.
  - now rewrite Ascii.eqb_refl.
  - destruct (Ascii.eqb x c); [now rewrite IH|].
    rewrite IH. pose proof (split_nonempty c s) as Hne.
    destruct (split c s) as [|w ws]; [contradiction | reflexivity].
Qed.

Lemma final_app l l' : l' <> [] -> final (l ++ l') = final l'.
Proof.
  intros Hne. unfold final.
  induction l as [|x l IH]; [reflexivity|].
  simpl. destruct (l ++ l') eqn:E; [|exact IH].
  apply app_eq_nil in E as [_ ->]. contradiction.
Qed.

Lemma has_char_app c s t : has_char c (s +:+ t) = has_char c s || has_char c t.
Proof.
  induction s as [|x s IH]; simpl; [reflexivity|]. now rewrite IH, orb_assoc.
Qed.

Lemma append_assoc (a b c : string) : (a +:+ b) +:+ c = a +:+ (b +:+ c).
Proof.
  induction a as [|x a IH]; [reflexivity|].
  change (String x ((a +:+ b) +:+ c) = String x (a +:+ (b +:+ c))). now f_equal.
Qed.

Lemma startswith_app s t : startswith (s +:+ t) s = true.
Proof.
  unfold startswith. induction s as [|x s IH]; simpl; [now destruct t|].
  destruct (ascii_dec x x); [exact IH | contradiction].
Qed.

Lemma rev_app_acc t : forall c, String.rev_app t c = String.rev_app t "" +:+ c.
Proof.
  induction t as [|x t IH]; intros c; simpl; [reflexivity|].
  rewrite (IH (String x c)), (IH (String x "")). now rewrite append_assoc.
Qed.

Lemma endswith_app s t : endswith (s +:+ t) t = true.
Proof.
  unfold endswith, String.rev.
  rewrite rev_app_append, (rev_app_acc t (String.rev_app s "")).
  apply startswith_app.
Qed.

Lemma date_of_daily_key me source_name table_name timestamp :
  has_char "." (AWSConnection.table_folder me source_name table_name) = false ->
  has_char "." table_name = false ->
  has_char "." timestamp = false ->
  has_char "_" timestamp = false ->
  AWSConnection.date_of_key (AWSConnection.daily_key me source_name table_name timestamp)
  = timestamp.
Proof.
  intros Hfolder Htable Hdot Hus. unfold AWSConnection.date_of_key, AWSConnection.daily_key.
  set (folder := AWSConnection.table_folder me source_name table_name) in *.
  replace (folder +:+ table_name +:+ "_" +:+ timestamp +:+ ".csv")
    with ((folder +:+ table_name +:+ "_" +:+ timestamp) +:+ String "." "csv")
    by (now rewrite !append_assoc).
  rewrite split_at_sep.
  rewrite (split_no_sep "." (folder +:+ table_name +:+ "_" +:+ timestamp)).
  2:{ rewrite !has_char_app, Hfolder, Htable, Hdot. reflexivity. }
  cbn [app first hd].
  replace (folder +:+ table_name +:+ "_" +:+ timestamp)
    with ((folder +:+ table_name) +:+ String "_" timestamp)
    by (now rewrite !append_assoc).
  rewrite split_at_sep, final_app by apply split_nonempty.
  now rewrite split_no_sep.
Qed.

(** X10.  The name [copy_dataframe_as_csv_into_s3_bucket] gives a daily
    file reads back as its date.  When the table's folder, the table's name
    and the timestamp hold no dot and the timestamp no underscore, a write
    that S3 takes leaves the frame's CSV text under the table's folder at
    [<table>_<timestamp>.csv]; the timestamp is then among the dates
    [get_all_available_dates_for_one_table_in_s3] reports for the table; and
    a rotation whose batch holds that timestamp does not select the file. *)
Theorem written_file_is_listed_and_kept :
  forall put_refused me csv first_date timestamp rest source_name table_name b b',
    has_char "." (AWSConnection.table_folder me source_name table_name) = false ->
    has_char "." table_name = false ->
    has_char "." timestamp = false ->
    has_char "_" timestamp = false ->
    AWSConnection.copy_dataframe_as_csv_into_s3_bucket put_refused me csv
      (first_date :: timestamp :: rest) source_name table_name b = (Return tt, b') ->
    let key := AWSConnection.daily_key me source_name table_name timestamp in
    AWSConnection.objects b' !! key = Some csv
    /\ timestamp ∈ AWSConnection.get_all_available_dates_for_one_table_in_s3 me source_name
                     table_name b'
    /\ (forall date_list, timestamp ∈ date_list ->
          AWSConnection.to_move me date_list source_name table_name key = false).
Proof.
  intros put_refused me csv first_date timestamp rest source_name table_name b b'
    Hfolder Htable Hdot Hus Hrun key.
  pose proof (date_of_daily_key me source_name table_name timestamp Hfolder Htable Hdot Hus)
    as Hdate.
  fold key in Hdate.
  unfold AWSConnection.copy_dataframe_as_csv_into_s3_bucket, AWSConnection.put_object in Hrun.
  fold key in Hrun.
  destruct (put_refused key); [discriminate|]. injection Hrun as <-.
  assert (Hthere : AWSConnection.objects
                     (AWSConnection.Bucket (<[key := csv]> (AWSConnection.objects b))
                        (AWSConnection.PutObject key csv :: AWSConnection.calls b)) !! key
                   = Some csv) by apply lookup_insert_eq.
  split; [exact Hthere|]. split.
  - unfold AWSConnection.get_all_available_dates_for_one_table_in_s3.
    rewrite <- Hdate at 1. apply list_elem_of_fmap_2.
    apply list_elem_of_In, filter_In. split.
    + apply list_elem_of_In, objects_all_elem. rewrite Hthere. eauto.
    + apply andb_true_intro. split.
      * apply startswith_app.
      * apply orb_true_intro. left. subst key. unfold AWSConnection.daily_key.
        rewrite <- !append_assoc. apply endswith_app.
  - intros date_list Hin. unfold AWSConnection.to_move. rewrite Hdate.
    rewrite (bool_decide_eq_true_2 _ Hin). cbn [negb].
    now rewrite andb_false_r.
Qed.

Lemma written_file_is_listed_and_kept_witness :
  let b := Scenario.two_days in
  let run := AWSConnection.copy_dataframe_as_csv_into_s3_bucket Scenario.accepts_all
               Scenario.avc_storage "e,f" ["2024-01-03"; "2024-01-03"] "avc" "T" b in
  fst run = Return tt
  /\ AWSConnection.objects (snd run) !! "de/avc/US/T/T_2024-01-03.csv" = Some "e,f"
  /\ "2024-01-03" ∈ AWSConnection.get_all_available_dates_for_one_table_in_s3
                      Scenario.avc_storage "avc" "T" (snd run)
  /\ (forall date_list, "2024-01-03" ∈ date_list ->
        AWSConnection.to_move Scenario.avc_storage date_list "avc" "T"
          "de/avc/US/T/T_2024-01-03.csv" = false).
Proof.
  intros b run. split; [reflexivity|].
  exact (written_file_is_listed_and_kept Scenario.accepts_all Scenario.avc_storage "e,f"
           "2024-01-03" "2024-01-03" [] "avc" "T" b (snd run)
           eq_refl eq_refl eq_refl eq_refl eq_refl).
Defined.

(** ** The most recent flat file *)

Lemma ltb_le s1 s2 : String.ltb s1 s2 = true -> String.le s1 s2.
Proof.
  unfold String.le, String.leb, String.ltb.
  destruct (String.compare s1 s2); [discriminate | reflexivity | discriminate].
Qed.

Lemma not_ltb_le s1 s2 : String.ltb s1 s2 = false -> String.le s2 s1.
Proof.
  unfold String.le, String.leb, String.ltb. rewrite (String.compare_antisym s1 s2).
  destruct (String.compare s2 s1); simpl; intros H; [exact I | exact I | discriminate].
Qed.

(** [max] picks an element of the list that no element exceeds. *)
Lemma max_from_greatest l : forall x,
  max_from x l ∈ x :: l /\ forall k, k ∈ x :: l -> String.le k (max_from x l).
Proof.
  unfold max_from. induction l as [|y l IH]; intros x; simpl.
  - split; [left|]. intros k Hk. apply list_elem_of_singleton in Hk as ->. reflexivity.
  - destruct (IH (if String.ltb x y then y else x)) as [Hin Hmax]. split.
    + apply elem_of_cons in Hin as [->|Hin].
      * destruct (String.ltb x y); [right; left | left].
      * right. now right.
    + intros k Hk.
      assert (Hx : String.le x (if String.ltb x y then y else x)).
      { destruct (String.ltb x y) eqn:E; [now apply ltb_le | reflexivity]. }
      assert (Hy : String.le y (if String.ltb x y then y else x)).
      { destruct (String.ltb x y) eqn:E; [reflexivity | now apply not_ltb_le]. }
      apply elem_of_cons in Hk as [->|Hk].
      * etransitivity; [exact Hx|]. apply Hmax. left.
      * apply elem_of_cons in Hk as [->|Hk].
        -- etransitivity; [exact Hy|]. apply Hmax. left.
        -- apply Hmax. now right.
Qed.

Lemma flat_files_elem path (b : AWSConnection.bucket) k :
  k ∈ AWSConnection.flat_files path b ->
  startswith k path = true
  /\ (final (split "." k) = "xlsx" \/ final (split "." k) = "csv")
  /\ is_Some (AWSConnection.objects b !! k).
Proof.
  unfold AWSConnection.flat_files.
  rewrite list_elem_of_In, filter_In, <- list_elem_of_In, objects_all_elem.
  intros [Hobj Hk]. apply andb_prop in Hk as [Hstart Hext].
  apply bool_decide_eq_true_1 in Hext. split; [exact Hstart|]. split; [|exact Hobj].
  apply elem_of_cons in Hext as [->|Hext]; [now left|].
  apply list_elem_of_singleton in Hext as ->. now right.
Qed.

(** X11.  [get_most_recent_flat_file_in_bytes] depends on the candidates
    alone: the keys of the bucket that start with the search path and whose
    last dot-separated part is [xlsx] or [csv].  With no candidate it raises
    and touches nothing.  Otherwise it returns, never failing on the read:
    the bytes are those of a candidate key that no candidate exceeds in the
    order of strings, and the name and the date are read off that key. *)
Theorem most_recent_flat_file_is_the_greatest :
  forall me table_name custom_path b,
    let candidates :=
      AWSConnection.flat_files (AWSConnection.path_to_search me table_name custom_path) b in
    let run := AWSConnection.get_most_recent_flat_file_in_bytes me table_name custom_path b in
    (candidates = [] ->
     run = (Raise (Exception ("There are no raw flat files to be pre-processed for the table "
                                +:+ table_name)), b))
    /\ (candidates <> [] ->
        exists key obj,
          key ∈ candidates
          /\ (forall k, k ∈ candidates -> String.le k key)
          /\ AWSConnection.objects b !! key = Some obj
          /\ run = (Return (obj,
                            final (split "_" (first (split "." (final (split "/" key))))),
                            first (split "." (final (split "/" key)))),
                    AWSConnection.Bucket (AWSConnection.objects b)
                      (AWSConnection.GetObject key :: AWSConnection.calls b))).
Proof.
  intros me table_name custom_path b candidates run. subst run.
  unfold AWSConnection.get_most_recent_flat_file_in_bytes, bind, get.
  fold candidates. split.
  - intros ->. reflexivity.
  - intros Hne. destruct candidates as [|x l] eqn:Hc; [contradiction|].
    destruct (max_from_greatest l x) as [Hin Hmax].
    assert (Hobj : is_Some (AWSConnection.objects b !! max_from x l)).
    { eapply flat_files_elem. subst candidates. rewrite Hc. exact Hin. }
    destruct Hobj as [obj Hobj].
    exists (max_from x l), obj. split; [exact Hin|]. split; [exact Hmax|].
    split; [exact Hobj|].
    unfold AWSConnection.get_object. rewrite Hobj. reflexivity.
Qed.

Lemma most_recent_flat_file_is_the_greatest_witness :
  let b := AWSConnection.Bucket
             (list_to_map [("de_input/T/US/T_2024-01-02.csv", "c,d");
                           ("de_input/T/US/T_2024-01-10.xlsx", "sheet");
                           ("de_input/T/US/T_2024-01-03.txt", "notes");
                           ("de_input/T/US/T_2024-01-01.csv", "a,b")]) [] in
  let run := AWSConnection.get_most_recent_flat_file_in_bytes Scenario.avc_storage "T" None b in
  fst run = Return ("sheet", "2024-01-10", "T_2024-01-10")
  /\ exists key obj,
       (forall k, k ∈ AWSConnection.flat_files
                        (AWSConnection.path_to_search Scenario.avc_storage "T" None) b ->
                  String.le k key)
       /\ run = (Return (obj,
                         final (split "_" (first (split "." (final (split "/" key))))),
                         first (split "." (final (split "/" key)))),
                 AWSConnection.Bucket (AWSConnection.objects b)
                   (AWSConnection.GetObject key :: AWSConnection.calls b)).
Proof.
  intros b run. split; [vm_compute; reflexivity|].
  destruct (proj2 (most_recent_flat_file_is_the_greatest Scenario.avc_storage "T" None b))
    as (key & obj & _ & Hmax & _ & Hrun).
  - vm_compute. discriminate.
  - exists key, obj. split; [exact Hmax | exact Hrun].
Defined.

(** ** Tokens and profiles *)

(** Whether a profile is the country's vendor profile does not depend on
    the world, and leaves it alone. *)
Lemma is_vendor_of_pure country profile :
  exists r, forall w, CommonUtils.is_vendor_of country profile w = (r, w).
Proof.
  unfold CommonUtils.is_vendor_of, bind, dict_get.
  destruct profile as [| | | | |d]; try (eexists; intros w; reflexivity).
  simpl. destruct (eq_str _ country); [|eexists; intros w; reflexivity].
  destruct (match assoc "accountInfo" d with Some v => v | None => JDict [] end)
    as [| | | | |a]; eexists; intros w; reflexivity.
Qed.

Lemma first_vendor_profile_found country profiles : forall w v w',
  CommonUtils.first_vendor_profile country profiles w = (Return v, w') ->
  w' = w
  /\ exists before profile after,
       profiles = before ++ profile :: after
       /\ Forall (fun q => forall w0,
                    CommonUtils.is_vendor_of country q w0 = (Return false, w0)) before
       /\ (forall w0, CommonUtils.is_vendor_of country profile w0 = (Return true, w0))
       /\ (forall w0 : world, dict_get profile "profileId" JNull w0 = (Return v, w0)).
Proof.
  induction profiles as [|p rest IH]; intros w v w' H; [discriminate|].
  simpl in H. unfold bind at 1 in H.
  destruct (is_vendor_of_pure country p) as [r Hr]. rewrite Hr in H.
  destruct r as [[|]|e]; [| |discriminate].
  - destruct p as [| | | | |d]; try discriminate.
    simpl in H. injection H as <- <-. split; [reflexivity|].
    exists [], (JDict d), rest. repeat split; [constructor | exact Hr].
  - apply IH in H as [-> (before & profile & after & -> & Hb & Hp & Hv)].
    split; [reflexivity|].
    exists (p :: before), profile, after. repeat split; try assumption.
    constructor; assumption.
Qed.

(** X12.  [fetch_profile_id] for a country: when it returns, it has sent
    one GET to the profile endpoint, the answer was a list, and the value
    returned is the [profileId] of the first profile in that list that has
    the country's code and a vendor account, every profile before it being
    no such profile.  The country GB is looked up as UK. *)
Theorem profile_is_the_first_vendor_of_the_country :
  forall api_urls country w v w',
    String.eqb country "" = false ->
    CommonUtils.fetch_profile_id api_urls (Some country) w = (Return v, w') ->
    let looked_up := if String.eqb country "GB" then "UK" else country in
    exists url code body before profile after,
      api_urls !! "profile_fetch" = Some url
      /\ respond w (Request GET url JNull :: sent w)
         = Response code body (Some (JList (before ++ profile :: after)))
      /\ w' = record_request (Request GET url JNull) w
      /\ Forall (fun q => forall w0,
                   CommonUtils.is_vendor_of looked_up q w0 = (Return false, w0)) before
      /\ (forall w0, CommonUtils.is_vendor_of looked_up profile w0 = (Return true, w0))
      /\ (forall w0 : world, dict_get profile "profileId" JNull w0 = (Return v, w0)).
Proof.
  intros api_urls country w v w' Hc H looked_up.
  unfold CommonUtils.fetch_profile_id in H.
  destruct (api_urls !! "profile_fetch") as [url|]; [|discriminate].
  unfold bind at 1 in H. unfold send in H. cbn [sent record_request] in H.
  destruct (respond w (Request GET url JNull :: sent w)) as [|code body parsed] eqn:Hr;
    [discriminate|].
  unfold bind at 1 in H. unfold raise_for_status in H. cbn [fst] in H.
  destruct ((400 <=? code)%nat && (code <? 600)%nat); [discriminate|].
  unfold ret at 1 in H. unfold bind at 1 in H. unfold json_of in H. cbn [snd] in H.
  destruct parsed as [profiles|]; [|discriminate].
  unfold ret at 1 in H.
  destruct (negb (truthy profiles)); [discriminate|].
  rewrite Hc in H. fold looked_up in H.
  destruct profiles as [| | | |l|]; try discriminate.
  apply first_vendor_profile_found in H
    as [-> (before & profile & after & -> & Hb & Hp & Hv)].
  exists url, code, body, before, profile, after. repeat split; assumption.
Qed.

Lemma profile_is_the_first_vendor_of_the_country_witness :
  let profile := fun (code kind : string) (id : Z) =>
                   JDict [("profileId", JNum id); ("countryCode", JStr code);
                          ("accountInfo", JDict [("type", JStr kind)])] in
  let w := Scenario.fresh (Scenario.always (Scenario.ok
             (JList [profile "US" "vendor" 1%Z; profile "UK" "seller" 2%Z;
                     profile "GB" "vendor" 3%Z; profile "UK" "vendor" 4%Z]))) in
  let urls : gmap string string := {["profile_fetch" := "https://ads.example/v2/profiles"]} in
  CommonUtils.fetch_profile_id urls (Some "GB") w
  = (Return (JNum 4), record_request (Request GET "https://ads.example/v2/profiles" JNull) w)
  /\ exists url code body before profile after,
       urls !! "profile_fetch" = Some url
       /\ respond w (Request GET url JNull :: sent w)
          = Response code body (Some (JList (before ++ profile :: after)))
       /\ (forall w0, CommonUtils.is_vendor_of "UK" profile w0 = (Return true, w0))
       /\ (forall w0 : world, dict_get profile "profileId" JNull w0 = (Return (JNum 4), w0)).
Proof.
  intros profile w urls.
  assert (Hrun : CommonUtils.fetch_profile_id urls (Some "GB") w
                 = (Return (JNum 4),
                    record_request (Request GET "https://ads.example/v2/profiles" JNull) w))
    by reflexivity.
  split; [exact Hrun|].
  destruct (profile_is_the_first_vendor_of_the_country urls "GB" w (JNum 4) _ eq_refl Hrun)
    as (url & code & body & before & p & after & Hu & Hr & _ & _ & Hp & Hv).
  exists url, code, body, before, p, after. repeat split; assumption.
Defined.

Lemma token_call_world client_id client_secret refresh_token api_urls url w :
  api_urls !! "access_token_generation" = Some url ->
  snd (CommonUtils.generate_access_token client_id client_secret refresh_token api_urls w)
  = record_request
      (Request POST url
         (JDict [("grant_type", JStr "refresh_token"); ("client_id", JStr client_id);
                 ("client_secret", JStr client_secret);
                 ("refresh_token", JStr refresh_token)])) w.
Proof.
  intros Hurl. unfold CommonUtils.generate_access_token. rewrite Hurl.
  unfold bind, send, raise_for_status, json_of, dict_get. simpl.
  destruct (respond w _) as [|code text [j|]]; simpl; [reflexivity| |].
  - destruct ((400 <=? code)%nat && (code <? 600)%nat); simpl; [reflexivity|].
    destruct j; reflexivity.
  - destruct ((400 <=? code)%nat && (code <? 600)%nat); reflexivity.
Qed.

(** X13.  [generate_access_token] sends its POST to the token endpoint once
    and never again, whatever comes back.  When the answer is a JSON object
    with a status that is no error, it returns what the object holds under
    [access_token], and [None] when the object holds no such key: a missing
    token is not an error here. *)
Theorem token_call_is_sent_once_and_unchecked :
  forall client_id client_secret refresh_token api_urls url w,
    api_urls !! "access_token_generation" = Some url ->
    let payload :=
      JDict [("grant_type", JStr "refresh_token"); ("client_id", JStr client_id);
             ("client_secret", JStr client_secret); ("refresh_token", JStr refresh_token)] in
    let run := CommonUtils.generate_access_token client_id client_secret refresh_token
                 api_urls w in
    snd run = record_request (Request POST url payload) w
    /\ (forall code body d,
          respond w (Request POST url payload :: sent w) = Response code body (Some (JDict d)) ->
          (400 <=? code)%nat && (code <? 600)%nat = false ->
          fst run = Return (default JNull (assoc "access_token" d))).
Proof.
  intros client_id client_secret refresh_token api_urls url w Hurl payload run.
  split; [now apply token_call_world|].
  intros code body d Hr Hc. subst run payload.
  unfold CommonUtils.generate_access_token. rewrite Hurl.
  unfold bind, send, raise_for_status, json_of, dict_get. simpl.
  rewrite Hr. simpl. rewrite Hc. simpl. destruct (assoc "access_token" d); reflexivity.
Qed.

Lemma token_call_is_sent_once_and_unchecked_witness :
  let w := Scenario.fresh (Scenario.always (Scenario.ok (JDict [("error", JStr "denied")]))) in
  let urls : gmap string string :=
    {["access_token_generation" := "https://api.amazon.com/auth/o2/token"]} in
  let run := CommonUtils.generate_access_token "id" "secret" "refresh" urls w in
  fst run = Return JNull
  /\ sent (snd run)
     = [Request POST "https://api.amazon.com/auth/o2/token"
          (JDict [("grant_type", JStr "refresh_token"); ("client_id", JStr "id");
                  ("client_secret", JStr "secret"); ("refresh_token", JStr "refresh")])].
Proof.
  intros w urls run.
  destruct (token_call_is_sent_once_and_unchecked "id" "secret" "refresh" urls
              "https://api.amazon.com/auth/o2/token" w eq_refl) as [Hworld Hvalue].
  split.
  - exact (Hvalue 200 "" [("error", JStr "denied")] eq_refl eq_refl).
  - fold run in Hworld. rewrite Hworld. reflexivity.
Defined.
